(** * Escalation evaluators of the VAA modules

    A shallow embedding of the decision-boundary logic of
    [business_operations_vaa.py], [supply_chain_vaa_engine.py] and
    [marketing_vaa_orchestration.py], and the properties of the
    specification that concern it.

    Conventions of the embedding:
    - a Python [float] is a binary64 value of the kernel ([PrimFloat.float]),
      so sums, quotients and comparisons are the IEEE ones the interpreter
      performs; decimal literals denote the nearest binary64 value, as in
      Python;
    - a Python [int] is a [Z]; integer constants that the code only compares
      with floats (50000, 100000) are written as the float of the same value,
      which is exact;
    - a [dict] with open keys is a [gmap string _]; a dict with a fixed set of
      keys is a record;
    - an exception is the [Raise] case of [result];
    - a method takes the object ([self]) and returns the new object next to
      its value when it assigns to a field of [self];
    - [uuid4()], [datetime.now()] and [random.random()] are read from an
      [Env], indexed by the position of the call inside the method; a clock
      reading is a number of microseconds since 0001-01-01T00:00:00
      ([datetime.min]).  A sum of a clock reading and a [timedelta] is kept
      as the pair of its operands: [isoformat()] is not expanded.  Where the
      [timedelta] is a constant of the code (4 hours to 365 days) the sum is
      taken to be in range: the clock is read more than a year before
      [datetime.max].  Where its hours come from the input ([execute_task]),
      the construction of the [timedelta] and the sum are evaluated for the
      exceptions they raise;
    - an f-string is kept as the values it interpolates. *)

From Stdlib Require Import ZArith List String Floats Bool Lia.
From stdpp Require Import base option list gmap strings.

Set Warnings "-inexact-float".

(* ===================================================================== *)
(** ** Python values, exceptions and float operations *)
(* ===================================================================== *)

Module Py.

(** The built-in exceptions the embedded code can raise. *)
Inductive exception : Set :=
| UnboundLocalError
| TypeError
| ZeroDivisionError
| OverflowError
| ValueError.

Inductive result (A : Type) : Type :=
| Ok (a : A)
| Raise (e : exception).
Arguments Ok {A} a.
Arguments Raise {A} e.

#[export] Instance result_ret : MRet result := fun A a => Ok a.
#[export] Instance result_bind : MBind result :=
  fun A B f m => match m with Ok a => f a | Raise e => Raise e end.

(** The call returns a value: it raises nothing. *)
Definition returns {A} (r : result A) : Prop := exists a, r = Ok a.

(** The values stored in the untyped [metadata] dictionaries: numbers,
    flags and text.  An int entry is written as the float of the same value
    (the code only compares these entries with float constants). *)
Inductive pyval : Set :=
| PyNum (x : float)
| PyBool (b : bool)
| PyStr (s : string).

(** [x > y] on floats. *)
Definition gtb (x y : float) : bool := PrimFloat.ltb y x.

(** [bool] is a subclass of [int]: [True] is 1 and [False] is 0. *)
Definition as_number (v : pyval) : result float :=
  match v with
  | PyNum x => Ok x
  | PyBool b => Ok (if b then 1%float else 0%float)
  | PyStr _ => Raise TypeError
  end.

(** [v < c] and [v > c] for a float constant [c]; a [str] operand raises. *)
Definition py_lt (v : pyval) (c : float) : result bool :=
  x ← as_number v; Ok (PrimFloat.ltb x c).
Definition py_gt (v : pyval) (c : float) : result bool :=
  x ← as_number v; Ok (gtb x c).

(** Truth value, as [if v:] tests it. *)
Definition truthy (v : pyval) : bool :=
  match v with
  | PyNum x => negb (PrimFloat.eqb x 0%float)
  | PyBool b => b
  | PyStr s => negb (String.eqb s "")
  end.

(** [o is None]. *)
Definition is_None {A} (o : option A) : bool :=
  match o with None => true | Some _ => false end.

(** [d.get(key, default)]. *)
Definition dict_get `{Countable K} {V} (d : gmap K V) (key : K) (dflt : V)
  : V :=
  default dflt (d !! key).

(** [float(z)] for an int, rounded to nearest even. *)
Definition float_of_Z (z : Z) : float :=
  SF2Prim (binary_normalize prec emax z 0 false).

(** [sum(l)]: the left-to-right sum started at 0.  (From CPython 3.12 on
    [sum] carries a compensation term; it changes no sum of one or two
    floats, which are the sums that decide a level here.) *)
Definition sum (l : list float) : float :=
  fold_left PrimFloat.add l 0%float.

(** [x / n] for a float [x] and an int [n], here always a [len(...)]:
    [ZeroDivisionError] exactly when [n] is 0 (the float of a non-zero int
    is never zero). *)
Definition truediv_int (x : float) (n : Z) : result float :=
  if (n =? 0)%Z then Raise ZeroDivisionError
  else Ok (PrimFloat.div x (float_of_Z n)).

(** [x / y] on floats: Python raises where IEEE would return an infinity or
    a NaN. *)
Definition truediv (x y : float) : result float :=
  if PrimFloat.eqb y 0%float then Raise ZeroDivisionError
  else Ok (PrimFloat.div x y).

(** An int as an exact, unrounded binary number. *)
Definition SF_of_Z (z : Z) : spec_float :=
  match z with
  | Z0 => S754_zero false
  | Zpos p => S754_finite false p 0
  | Zneg p => S754_finite true p 0
  end.

(** [float(z)] where Python performs it implicitly (int operand of a float
    operation): [OverflowError] when the int is too large. *)
Definition float_of_int (z : Z) : result float :=
  match binary_normalize prec emax z 0 false with
  | S754_infinity _ => Raise OverflowError
  | f => Ok (SF2Prim f)
  end.

(** [a / b] on two ints: the correctly rounded quotient. *)
Definition int_truediv (a b : Z) : result float :=
  if (b =? 0)%Z then Raise ZeroDivisionError
  else match SFdiv prec emax (SF_of_Z a) (SF_of_Z b) with
       | S754_infinity _ => Raise OverflowError
       | f => Ok (SF2Prim f)
       end.

(** [int(x)]: truncation towards zero; [ValueError] on a NaN and
    [OverflowError] on an infinity. *)
Definition int_of_float (x : float) : result Z :=
  match Prim2SF x with
  | S754_zero _ => Ok 0%Z
  | S754_finite s m e =>
      let magnitude :=
        if (0 <=? e)%Z then Z.shiftl (Zpos m) e else Z.shiftr (Zpos m) (- e) in
      Ok (if s then (- magnitude)%Z else magnitude)
  | S754_infinity _ => Raise OverflowError
  | S754_nan => Raise ValueError
  end.

(** [z < x] for an int [z] and a float [x]: Python compares the exact
    values. *)
Definition int_lt_float (z : Z) (x : float) : bool :=
  match Prim2SF x with
  | S754_zero _ => (z <? 0)%Z
  | S754_finite s m e =>
      let signed := if s then Zneg m else Zpos m in
      if (0 <=? e)%Z then (z <? Z.shiftl signed e)%Z
      else (Z.shiftl z (- e) <? signed)%Z
  | S754_infinity s => negb s
  | S754_nan => false
  end.

(** [x * z] and [x + z] for a float [x] and an int [z]. *)
Definition mul_int (x : float) (z : Z) : result float :=
  y ← float_of_int z; Ok (PrimFloat.mul x y).
Definition add_int (x : float) (z : Z) : result float :=
  y ← float_of_int z; Ok (PrimFloat.add x y).

End Py.
Import Py.

(* ===================================================================== *)
(** ** The exceptions of [timedelta(hours=...)] and of [datetime + timedelta] *)
(* ===================================================================== *)

Module PyTime.

Definition us_per_hour : Z := 3600000000.
Definition us_per_day : Z := 86400000000.

(** The integer nearest to a finite float, the even one of two that are
    equally near. *)
Definition round_half_even (x : float) : Z :=
  match Prim2SF x with
  | S754_finite s m e =>
      let magnitude :=
        if (0 <=? e)%Z then Z.shiftl (Zpos m) e
        else
          let q := Z.shiftr (Zpos m) (- e) in
          let r := (Zpos m - Z.shiftl q (- e))%Z in
          let half := Z.shiftl 1 (- e - 1) in
          if (r <? half)%Z then q
          else if (half <? r)%Z then (q + 1)%Z
          else if Z.even q then q else (q + 1)%Z in
      if s then (- magnitude)%Z else magnitude
  | _ => 0%Z
  end.

(** [timedelta(hours=hours)], as its number of microseconds.  The
    constructor refuses a [str] ([TypeError]); it splits a float into its
    whole part, which it converts to an int ([ValueError] on a NaN,
    [OverflowError] on an infinity) and multiplies exactly, and its
    fraction, which it multiplies in floating point and rounds to the
    nearest microsecond, to the even one of two; it raises [OverflowError]
    when the result is beyond 999999999 days.  A [bool] and an int count as
    the float of the same value, which gives the same microseconds. *)
Definition timedelta_hours (hours : pyval) : result Z :=
  x ← as_number hours;
  whole ← int_of_float x;
  let fracpart := PrimFloat.sub x (float_of_Z whole) in
  let microseconds :=
    (whole * us_per_hour
     + round_half_even (PrimFloat.mul 3600000000 fracpart))%Z in
  if (Z.abs (microseconds / us_per_day) >? 999999999)%Z
  then Raise OverflowError
  else Ok microseconds.

(** The last clock reading of a [datetime]: 9999-12-31T23:59:59.999999. *)
Definition datetime_max : Z := (3652059 * us_per_day - 1)%Z.

(** [t + delta] for a clock reading and a [timedelta]: [OverflowError]
    ("date value out of range") before year 1 and after year 9999. *)
Definition datetime_add (t delta : Z) : result Z :=
  let sum := (t + delta)%Z in
  if (0 <=? sum)%Z && (sum <=? datetime_max)%Z then Ok sum
  else Raise OverflowError.

End PyTime.
Import PyTime.

(* ===================================================================== *)
(** ** business_operations_vaa.py *)
(* ===================================================================== *)

Module BusinessOps.

Inductive ComplianceLevel : Set := GREEN | YELLOW | RED.

(** The order of the three levels: GREEN < YELLOW < RED. *)
Definition severity (c : ComplianceLevel) : nat :=
  match c with GREEN => 0 | YELLOW => 1 | RED => 2 end.

(** [ComplianceLevel.value]. *)
Definition ComplianceLevel_value (c : ComplianceLevel) : string :=
  match c with GREEN => "green" | YELLOW => "yellow" | RED => "red" end.

Record OperationalInput : Type := {
  input_id : string;
  input_type : string;
  entity_id : string;
  amount : float;
  vendor_id : option string;
  metadata : gmap string pyval;
  received_timestamp : string;
  priority_level : Z
}.

(** The three sub-dictionaries of [compliance_rules]. *)
Record ProcurementRules : Type := {
  max_autonomous_approval : float;
  requires_review_above : float;
  vendor_whitelist_check : bool;
  procurement_compliance_rules : list string
}.

Record InvoicingRules : Type := {
  auto_match_variance_tolerance : float;
  escalate_variance_above : float;
  duplicate_check_required : bool;
  invoicing_compliance_rules : list string
}.

Record ResourceAllocationRules : Type := {
  max_concurrent_assignments : Z;
  skill_match_required : bool;
  availability_buffer_hours : Z;
  resource_allocation_compliance_rules : list string
}.

Record ComplianceRules : Type := {
  procurement : ProcurementRules;
  invoicing : InvoicingRules;
  resource_allocation : ResourceAllocationRules
}.

(** The messages appended to [rule_violations], each with the value its
    f-string interpolates. *)
Inductive violation : Set :=
| amount_exceeds_review_threshold (amount : float)
| amount_in_semi_autonomous_range (amount : float)
| vendor_rating_below_minimum (vendor_rating : pyval)
| po_invoice_variance_exceeds_threshold (variance : pyval)
| variance_requires_review (variance : pyval)
| duplicate_invoice_detected.

Record CheckAuditTrail : Type := {
  rules_checked : list string;
  check_timestamp : Z;
  check_vaa_id : string;
  check_regulatory_framework : string
}.

Record ComplianceCheckResult : Type := {
  check_id : string;
  checked_entity_id : string;
  compliance_status : ComplianceLevel;
  rule_violations : list violation;
  risk_score : float;
  requires_human_review : bool;
  audit_trail : CheckAuditTrail
}.

(** [(t + timedelta(hours=h)).isoformat()], kept as the clock reading [t]
    and the offset [h]. *)
Record OffsetTime : Type := {
  base_time : Z;
  offset_hours : pyval
}.

Record ResourceAllocation : Type := {
  allocation_id : string;
  task_id : string;
  assigned_team : string;
  assigned_to : string;
  estimated_hours : pyval;
  deadline : OffsetTime;
  priority : Z;
  resource_availability_check : bool;
  allocation_confidence : float
}.

(** The values the f-string of [classification_reasoning] interpolates. *)
Record ClassificationReasoning : Type := {
  reasoning_pathway : string;
  reasoning_amount : float;
  reasoning_priority_level : Z
}.

(** The classification dictionary [classify_input] returns. *)
Record Classification : Type := {
  classified_input_id : string;
  classified_type : string;
  process_pathway : string;
  urgency_score : float;
  estimated_processing_time_hours : float;
  confidence_score : float;
  classification_reasoning : ClassificationReasoning
}.

(** [uuid4 k], [now k] and [random k] are the results of the [k]-th call of
    [uuid4()], of [datetime.now()] and of [random.random()] inside one
    method call; a clock reading is a number of microseconds since
    0001-01-01T00:00:00. *)
Record Env : Type := {
  uuid4 : nat -> string;
  now : nat -> Z;
  random : nat -> float
}.

(** [random.uniform(a, b)], which is [a + (b - a) * random()]. *)
Definition uniform (env : Env) (k : nat) (a b : float) : float :=
  PrimFloat.add a (PrimFloat.mul (PrimFloat.sub b a) (random env k)).

Record ExecutionAuditTrail : Type := {
  classification_confidence : float;
  audit_compliance_status : string;
  compliance_risk_score : float;
  audit_allocation_confidence : float;
  audit_vaa_id : string;
  decision_timestamp : Z;
  audit_regulatory_framework : string;
  audit_log_id : string
}.

(** The two dictionaries [execute_task] returns. *)
Record EscalationRecord : Type := {
  esc_execution_id : string;
  esc_input_id : string;
  escalation_reason : string;
  compliance_issues : list violation;
  esc_risk_score : float;
  awaiting_approval_from : string;
  escalation_timestamp : Z;
  governance_phase : string
}.

Record ExecutionResult : Type := {
  exec_execution_id : string;
  exec_input_id : string;
  exec_process_pathway : string;
  exec_assigned_team : string;
  exec_assigned_to : string;
  exec_deadline : OffsetTime;
  started_timestamp : Z;
  expected_completion : OffsetTime;
  executed_by : string;
  exec_audit_trail : ExecutionAuditTrail
}.

Inductive TaskOutcome : Type :=
| escalated (r : EscalationRecord)
| executing (r : ExecutionResult).

(** The value under the key ['status']. *)
Definition status (o : TaskOutcome) : string :=
  match o with escalated _ => "escalated" | executing _ => "executing" end.

Record BusinessOperationsVAA : Type := {
  vaa_id : string;
  regulatory_framework : string;
  process_log : list ExecutionResult;
  escalation_queue : list EscalationRecord;
  resource_pool : gmap string pyval;
  compliance_rules : ComplianceRules;
  decision_audit_trail : list ExecutionAuditTrail
}.

Definition _initialize_compliance_rules : ComplianceRules := {|
  procurement := {|
    max_autonomous_approval := 50000;
    requires_review_above := 100000;
    vendor_whitelist_check := true;
    procurement_compliance_rules := ["three_way_match"; "vendor_rating_minimum"]
  |};
  invoicing := {|
    auto_match_variance_tolerance := 0.02;
    escalate_variance_above := 0.05;
    duplicate_check_required := true;
    invoicing_compliance_rules := ["no_duplicate_invoices"; "currency_validation"]
  |};
  resource_allocation := {|
    max_concurrent_assignments := 3;
    skill_match_required := true;
    availability_buffer_hours := 4;
    resource_allocation_compliance_rules := ["labor_hour_limits"; "skill_certification"]
  |}
|}.

(** [BusinessOperationsVAA.__init__]. *)
Definition __init__ (vaa_id : string) (regulatory_framework : string)
  : BusinessOperationsVAA := {|
  vaa_id := vaa_id;
  regulatory_framework := regulatory_framework;
  process_log := [];
  escalation_queue := [];
  resource_pool := ∅;
  compliance_rules := _initialize_compliance_rules;
  decision_audit_trail := []
|}.

Definition pathway_map : gmap string string :=
  list_to_map [("procurement_request", "procurement_validation_routing");
               ("invoice", "three_way_match_and_payment");
               ("compliance_check", "regulatory_assessment");
               ("allocation", "resource_optimization")].

(** [classify_input]: the pathway and the classification dictionary. *)
Definition classify_input (self : BusinessOperationsVAA) (env : Env)
    (input_data : OperationalInput) : result (string * Classification) :=
  (* Determine process pathway based on input type *)
  let process_pathway :=
    dict_get pathway_map (input_type input_data) "default_processing" in
  (* Calculate urgency *)
  priority ← float_of_int (priority_level input_data);
  let base_urgency := PrimFloat.div priority 4.0 in
  ratio ← truediv_int (amount input_data) 500000;
  let amount_urgency := if PrimFloat.ltb 1.0 ratio then 1.0%float else ratio in
  let urgency_score :=
    PrimFloat.add (PrimFloat.mul base_urgency 0.4)
                  (PrimFloat.mul amount_urgency 0.6) in
  (* Estimate processing effort *)
  let estimated_processing_time_hours :=
    if String.eqb (input_type input_data) "procurement_request" then
      (if PrimFloat.ltb (amount input_data) 50000 then 0.5%float
       else 1.5%float)
    else if String.eqb (input_type input_data) "invoice" then 0.25%float
    else 1.0%float in
  Ok (process_pathway,
      {| classified_input_id := input_id input_data;
         classified_type := input_type input_data;
         process_pathway := process_pathway;
         urgency_score := urgency_score;
         estimated_processing_time_hours := estimated_processing_time_hours;
         confidence_score := uniform env 0 0.85 0.98;
         classification_reasoning := {|
           reasoning_pathway := process_pathway;
           reasoning_amount := amount input_data;
           reasoning_priority_level := priority_level input_data
         |} |}).

(** [sum(risk_scores) / len(risk_scores) if risk_scores else 0.0]. *)
Definition average_risk (risk_scores : list float) : result float :=
  match risk_scores with
  | [] => Ok 0%float
  | _ :: _ => truediv_int (Py.sum risk_scores) (Z.of_nat (length risk_scores))
  end.

(** The [if]/[elif]/[else] that turns the average into a level. *)
Definition classify_risk (avg_risk : float) : ComplianceLevel :=
  if gtb avg_risk 0.7 then RED
  else if gtb avg_risk 0.4 then YELLOW
  else GREEN.

(** [compliance_status in [ComplianceLevel.YELLOW, ComplianceLevel.RED]]. *)
Definition in_yellow_red (c : ComplianceLevel) : bool :=
  match c with YELLOW | RED => true | GREEN => false end.

(** The procurement and the invoicing branch of [validate_business_rules]:
    each returns the list [rules['compliance_rules']] of the table it bound
    to [rules], and the two lists it filled. *)
Definition procurement_branch (rules : ProcurementRules)
    (input_data : OperationalInput)
  : result (list string * list violation * list float) :=
  (* Rule 1: Amount threshold *)
  let '(rule_violations, risk_scores) :=
    if gtb (amount input_data) (requires_review_above rules) then
      ([amount_exceeds_review_threshold (amount input_data)], [0.9%float])
    else if gtb (amount input_data) (max_autonomous_approval rules) then
      ([amount_in_semi_autonomous_range (amount input_data)], [0.5%float])
    else ([], []) in
  (* Rule 2: Vendor validation *)
  '(rule_violations, risk_scores) ←
    (if vendor_whitelist_check rules then
       let vendor_rating :=
         dict_get (metadata input_data) "vendor_rating" (PyNum 0) in
       below ← py_lt vendor_rating 3.5;
       Ok (if below : bool then
             (rule_violations ++ [vendor_rating_below_minimum vendor_rating],
              risk_scores ++ [0.7%float])
           else (rule_violations, risk_scores))
     else Ok (rule_violations, risk_scores));
  Ok (procurement_compliance_rules rules, rule_violations, risk_scores).

Definition invoicing_branch (rules : InvoicingRules)
    (input_data : OperationalInput)
  : result (list string * list violation * list float) :=
  (* Rule 1: Variance check *)
  let variance :=
    dict_get (metadata input_data) "po_invoice_variance" (PyNum 0) in
  above ← py_gt variance (escalate_variance_above rules);
  '(rule_violations, risk_scores) ←
    (if above : bool then
       Ok ([po_invoice_variance_exceeds_threshold variance], [0.8%float])
     else
       review ← py_gt variance (auto_match_variance_tolerance rules);
       Ok (if review : bool then
             ([variance_requires_review variance], [0.4%float])
           else ([], [])));
  (* Rule 2: Duplicate detection *)
  let is_duplicate :=
    dict_get (metadata input_data) "is_duplicate" (PyBool false) in
  let '(rule_violations, risk_scores) :=
    if truthy is_duplicate then
      (rule_violations ++ [duplicate_invoice_detected],
       risk_scores ++ [1.0%float])
    else (rule_violations, risk_scores) in
  Ok (invoicing_compliance_rules rules, rule_violations, risk_scores).

(** [validate_business_rules].  On a pathway other than the two tested,
    the local [rules] is never bound, and reading it for the audit trail
    raises [UnboundLocalError]: [rules] is [None] there. *)
Definition validate_business_rules (self : BusinessOperationsVAA) (env : Env)
    (input_data : OperationalInput) (pathway : string)
  : result ComplianceCheckResult :=
  let check_id := uuid4 env 0 in
  '(rules, rule_violations, risk_scores) ←
    (if String.eqb pathway "procurement_validation_routing" then
       '(checked, rule_violations, risk_scores) ←
         procurement_branch (procurement (compliance_rules self)) input_data;
       Ok (Some checked, rule_violations, risk_scores)
     else if String.eqb pathway "three_way_match_and_payment" then
       '(checked, rule_violations, risk_scores) ←
         invoicing_branch (invoicing (compliance_rules self)) input_data;
       Ok (Some checked, rule_violations, risk_scores)
     else Ok (None, [], []));
  (* Determine compliance level *)
  avg_risk ← average_risk risk_scores;
  let compliance_status := classify_risk avg_risk in
  let requires_review := in_yellow_red compliance_status in
  rules_checked ←
    match rules with
    | Some checked => Ok checked
    | None => Raise UnboundLocalError
    end;
  Ok {|
    check_id := check_id;
    checked_entity_id := entity_id input_data;
    compliance_status := compliance_status;
    rule_violations := rule_violations;
    risk_score := avg_risk;
    requires_human_review := requires_review;
    audit_trail := {|
      rules_checked := rules_checked;
      check_timestamp := now env 0;
      check_vaa_id := vaa_id self;
      check_regulatory_framework := regulatory_framework self
    |}
  |}.

Definition team_map : gmap string string :=
  list_to_map [("procurement_validation_routing", "procurement_team");
               ("three_way_match_and_payment", "accounts_payable_team");
               ("regulatory_assessment", "compliance_team");
               ("resource_optimization", "operations_team")].

Definition team_roster : gmap string (list string) :=
  list_to_map [("procurement_team", ["proc_001"; "proc_002"; "proc_003"]);
               ("accounts_payable_team",
                ["ap_001"; "ap_002"; "ap_003"; "ap_004"]);
               ("compliance_team", ["comp_001"; "comp_002"]);
               ("operations_team", ["ops_001"; "ops_002"; "ops_003"])].

Definition priority_hours : gmap Z Z :=
  list_to_map [(1, 4); (2, 8); (3, 24); (4, 72)]%Z.

(** [l[:n]]; a negative [n] counts from the end. *)
Definition slice_to {A} (l : list A) (n : Z) : list A :=
  if (0 <=? n)%Z then take (Z.to_nat n) l
  else take (length l - Z.to_nat (- n)) l.

(** [_get_available_resources]: one draw of [random.random()] for each
    member of the roster, in order. *)
Definition _get_available_resources (env : Env) (team : string)
    (max_assignments : Z) : list string :=
  let available := dict_get team_roster team [] in
  slice_to
    (omap (fun entry : nat * string =>
             if gtb (random env (fst entry)) 0.3 then Some (snd entry)
             else None)
          (imap pair available))
    max_assignments.

Definition allocate_resources (self : BusinessOperationsVAA) (env : Env)
    (input_data : OperationalInput) (pathway : string) (priority : Z)
  : ResourceAllocation :=
  let allocation_rules := resource_allocation (compliance_rules self) in
  let allocation_id := uuid4 env 0 in
  let assigned_team := dict_get team_map pathway "general_ops_team" in
  let available_resources :=
    _get_available_resources env assigned_team
                             (max_concurrent_assignments allocation_rules) in
  let assigned_to :=
    match available_resources with
    | first :: _ => first
    | [] => assigned_team +:+ "_default"
    end in
  (* Calculate deadline based on priority *)
  let deadline := {|
    base_time := now env 0;
    offset_hours := PyNum (float_of_Z (dict_get priority_hours priority 24%Z))
  |} in
  let allocation_confidence :=
    match available_resources with _ :: _ => 0.95%float | [] => 0.6%float end in
  {| allocation_id := allocation_id;
     task_id := input_id input_data;
     assigned_team := assigned_team;
     assigned_to := assigned_to;
     estimated_hours :=
       dict_get (metadata input_data) "estimated_hours" (PyNum 1.0);
     deadline := deadline;
     priority := priority;
     resource_availability_check :=
       match available_resources with _ :: _ => true | [] => false end;
     allocation_confidence := allocation_confidence |}.

(** [datetime.now() + timedelta(hours=allocation.estimated_hours)], the
    expected completion of a task; the clock reading is the second one of
    [execute_task]. *)
Definition completion_time (env : Env) (allocation : ResourceAllocation)
  : result Z :=
  delta ← timedelta_hours (estimated_hours allocation);
  datetime_add (now env 1) delta.

(** [execute_task]: the returned dictionary and the object after the call.
    A task that is not escalated computes its expected completion while it
    builds its result, before it appends anything: the call raises what
    that sum raises, and then the object is as it was. *)
Definition execute_task (self : BusinessOperationsVAA) (env : Env)
    (input_data : OperationalInput) (classification : Classification)
    (compliance_check : ComplianceCheckResult) (allocation : ResourceAllocation)
    (human_approval : option string)
  : result (TaskOutcome * BusinessOperationsVAA) :=
  let execution_id := uuid4 env 0 in
  (* Escalation Protocol - Check if human approval required *)
  if requires_human_review compliance_check && is_None human_approval then
    let escalation_record := {|
      esc_execution_id := execution_id;
      esc_input_id := input_id input_data;
      escalation_reason := "compliance_review_required";
      compliance_issues := rule_violations compliance_check;
      esc_risk_score := risk_score compliance_check;
      awaiting_approval_from := assigned_to allocation;
      escalation_timestamp := now env 0;
      governance_phase := "Stage 2: Decision Boundary Enforcement"
    |} in
    Ok (escalated escalation_record,
        {| vaa_id := vaa_id self;
           regulatory_framework := regulatory_framework self;
           process_log := process_log self;
           escalation_queue := escalation_queue self ++ [escalation_record];
           resource_pool := resource_pool self;
           compliance_rules := compliance_rules self;
           decision_audit_trail := decision_audit_trail self |})
  else
    (* Execute task within autonomous boundaries *)
    _ ← completion_time env allocation;
    let execution_result := {|
      exec_execution_id := execution_id;
      exec_input_id := input_id input_data;
      exec_process_pathway := process_pathway classification;
      exec_assigned_team := assigned_team allocation;
      exec_assigned_to := assigned_to allocation;
      exec_deadline := deadline allocation;
      started_timestamp := now env 0;
      expected_completion := {| base_time := now env 1;
                                offset_hours := estimated_hours allocation |};
      executed_by :=
        match human_approval with
        | None => "vaa_autonomous"
        | Some approver => "approver_" +:+ approver
        end;
      exec_audit_trail := {|
        classification_confidence := confidence_score classification;
        audit_compliance_status :=
          ComplianceLevel_value (compliance_status compliance_check);
        compliance_risk_score := risk_score compliance_check;
        audit_allocation_confidence := allocation_confidence allocation;
        audit_vaa_id := vaa_id self;
        decision_timestamp := now env 2;
        audit_regulatory_framework := regulatory_framework self;
        audit_log_id := uuid4 env 1
      |}
    |} in
    (* Log for Stage 5 governance *)
    Ok (executing execution_result,
        {| vaa_id := vaa_id self;
           regulatory_framework := regulatory_framework self;
           process_log := process_log self ++ [execution_result];
           escalation_queue := escalation_queue self;
           resource_pool := resource_pool self;
           compliance_rules := compliance_rules self;
           decision_audit_trail :=
             decision_audit_trail self
             ++ [exec_audit_trail execution_result] |}).

(** The input of the sample run of the module. *)
Definition sample_input : OperationalInput := {|
  input_id := "PROC_001";
  input_type := "procurement_request";
  entity_id := "vendor_xyz_corp";
  amount := 75000;
  vendor_id := Some "VND_001";
  metadata := <["vendor_rating" := PyNum 4.2]>
              (<["po_reference" := PyStr "PO_12345"]>
              (<["estimated_hours" := PyNum 1.5]> ∅));
  received_timestamp := "2024-01-01T00:00:00";
  priority_level := 2
|}.

(** An invoice flagged as a duplicate, and a compliance check. *)
Definition duplicate_invoice : OperationalInput := {|
  input_id := "INV_001";
  input_type := "invoice";
  entity_id := "vendor_xyz_corp";
  amount := 1200;
  vendor_id := Some "VND_001";
  metadata := <["is_duplicate" := PyBool true]> ∅;
  received_timestamp := "2024-01-01T00:00:00";
  priority_level := 3
|}.

Definition compliance_check_input : OperationalInput := {|
  input_id := "CHK_001";
  input_type := "compliance_check";
  entity_id := "vendor_xyz_corp";
  amount := 1200;
  vendor_id := None;
  metadata := ∅;
  received_timestamp := "2024-01-01T00:00:00";
  priority_level := 3
|}.

(** One environment, for the concrete runs. *)
Definition env0 : Env := {|
  uuid4 := fun _ => "00000000-0000-4000-8000-000000000000";
  now := fun _ => 0%Z;
  random := fun _ => 0.5%float
|}.

Definition later_env : Env := {|
  uuid4 := fun k => String (Ascii.ascii_of_nat (97 + k)) "-uuid";
  now := fun k => (1700000000000000 + Z.of_nat k)%Z;
  random := fun _ => 0.125%float
|}.

(** A classification, a check and an allocation of the sample input, as
    arguments of [execute_task]. *)
Definition sample_classification : Classification := {|
  classified_input_id := "PROC_001";
  classified_type := "procurement_request";
  process_pathway := "procurement_validation_routing";
  urgency_score := 0.29;
  estimated_processing_time_hours := 1.5;
  confidence_score := 0.9;
  classification_reasoning := {|
    reasoning_pathway := "procurement_validation_routing";
    reasoning_amount := 75000;
    reasoning_priority_level := 2
  |}
|}.

Definition sample_check : ComplianceCheckResult := {|
  check_id := "00000000-0000-4000-8000-000000000000";
  checked_entity_id := "vendor_xyz_corp";
  compliance_status := YELLOW;
  rule_violations := [amount_in_semi_autonomous_range 75000];
  risk_score := 0.5;
  requires_human_review := true;
  audit_trail := {|
    rules_checked := ["three_way_match"; "vendor_rating_minimum"];
    check_timestamp := 0;
    check_vaa_id := "BOPS_VAA_001";
    check_regulatory_framework := "SOX_ITGC"
  |}
|}.

Definition sample_allocation : ResourceAllocation := {|
  allocation_id := "00000000-0000-4000-8000-000000000000";
  task_id := "PROC_001";
  assigned_team := "procurement_team";
  assigned_to := "proc_001";
  estimated_hours := PyNum 1.5;
  deadline := {| base_time := 0; offset_hours := PyNum 8 |};
  priority := 2;
  resource_availability_check := true;
  allocation_confidence := 0.95
|}.

(** The object of the sample run. *)
Definition sample_vaa : BusinessOperationsVAA :=
  __init__ "BOPS_VAA_001" "SOX_ITGC".

(** The sample run: classify, validate, allocate, execute; the module runs
    it without a human approval ([human_approval] is [None]).  The four
    methods read the clock, the identifiers and the random draws of [env1],
    [env2], [env3] and [env4]. *)
Definition sample_run (env1 env2 env3 env4 : Env)
    (human_approval : option string)
  : result (ComplianceCheckResult * TaskOutcome * BusinessOperationsVAA) :=
  let vaa := sample_vaa in
  '(pathway, classification) ← classify_input vaa env1 sample_input;
  compliance_check ← validate_business_rules vaa env2 sample_input pathway;
  let allocation :=
    allocate_resources vaa env3 sample_input pathway
                       (priority_level sample_input) in
  '(execution, vaa) ←
    execute_task vaa env4 sample_input classification compliance_check
                 allocation human_approval;
  Ok (compliance_check, execution, vaa).

(** An input with another amount, and with another invoice variance, all
    else equal. *)
Definition with_amount (input_data : OperationalInput) (a : float)
  : OperationalInput := {|
  input_id := input_id input_data;
  input_type := input_type input_data;
  entity_id := entity_id input_data;
  amount := a;
  vendor_id := vendor_id input_data;
  metadata := metadata input_data;
  received_timestamp := received_timestamp input_data;
  priority_level := priority_level input_data
|}.

Definition with_variance (input_data : OperationalInput) (v : float)
  : OperationalInput := {|
  input_id := input_id input_data;
  input_type := input_type input_data;
  entity_id := entity_id input_data;
  amount := amount input_data;
  vendor_id := vendor_id input_data;
  metadata := <["po_invoice_variance" := PyNum v]> (metadata input_data);
  received_timestamp := received_timestamp input_data;
  priority_level := priority_level input_data
|}.

(** An input with another vendor rating, all else equal. *)
Definition with_rating (input_data : OperationalInput) (rating : pyval)
  : OperationalInput := {|
  input_id := input_id input_data;
  input_type := input_type input_data;
  entity_id := entity_id input_data;
  amount := amount input_data;
  vendor_id := vendor_id input_data;
  metadata := <["vendor_rating" := rating]> (metadata input_data);
  received_timestamp := received_timestamp input_data;
  priority_level := priority_level input_data
|}.

(** An input that asks for another number of hours, all else equal. *)
Definition with_estimated_hours (input_data : OperationalInput)
    (hours : pyval) : OperationalInput := {|
  input_id := input_id input_data;
  input_type := input_type input_data;
  entity_id := entity_id input_data;
  amount := amount input_data;
  vendor_id := vendor_id input_data;
  metadata := <["estimated_hours" := hours]> (metadata input_data);
  received_timestamp := received_timestamp input_data;
  priority_level := priority_level input_data
|}.

(** The findings that Rule 1 of the procurement branch appends. *)
Definition is_amount_finding (v : violation) : bool :=
  match v with
  | amount_exceeds_review_threshold _
  | amount_in_semi_autonomous_range _ => true
  | _ => false
  end.

(** The findings that Rule 1 of the invoicing branch appends. *)
Definition is_variance_finding (v : violation) : bool :=
  match v with
  | po_invoice_variance_exceeds_threshold _
  | variance_requires_review _ => true
  | _ => false
  end.

(** The part of a result that the decision consists of: level, risk score,
    findings and review flag (the check id and the audit trail carry the
    identifier, the clock reading and the names of the object). *)
Definition decision (r : ComplianceCheckResult)
  : ComplianceLevel * float * list violation * bool :=
  (compliance_status r, risk_score r, rule_violations r,
   requires_human_review r).

Definition decision_of (o : result ComplianceCheckResult)
  : result (ComplianceLevel * float * list violation * bool) :=
  r ← o; Ok (decision r).

(** [o1] is at most as severe as [o2]: two results are compared by level,
    and two calls that raise raise the same exception. *)
Definition no_more_severe (o1 o2 : result ComplianceCheckResult) : Prop :=
  match o1, o2 with
  | Ok r1, Ok r2 =>
      severity (compliance_status r1) <= severity (compliance_status r2)
  | Raise e1, Raise e2 => e1 = e2
  | _, _ => False
  end.

(** A sequence of calls of [execute_task] on one object: what each call
    ends with, a returned dictionary or an exception, in call order, and the
    object after the last call.  A call that raises leaves the object as it
    was, and the caller goes on with the next call. *)
Record TaskCall : Type := {
  call_env : Env;
  call_input : OperationalInput;
  call_classification : Classification;
  call_check : ComplianceCheckResult;
  call_allocation : ResourceAllocation;
  call_approval : option string
}.

(** The test of the escalation protocol, on the arguments of a call. *)
Definition escalates (c : TaskCall) : bool :=
  requires_human_review (call_check c) && is_None (call_approval c).

(** The sample task when its input asks for [hours], with the allocation
    that [allocate_resources] makes for that input. *)
Definition sample_task (hours : pyval) (human_approval : option string)
  : TaskCall :=
  let input_data := with_estimated_hours sample_input hours in
  {| call_env := env0;
     call_input := input_data;
     call_classification := sample_classification;
     call_check := sample_check;
     call_allocation :=
       allocate_resources sample_vaa env0 input_data
                          "procurement_validation_routing"
                          (priority_level input_data);
     call_approval := human_approval |}.

Definition attempt (self : BusinessOperationsVAA) (c : TaskCall)
  : result TaskOutcome * BusinessOperationsVAA :=
  match execute_task self (call_env c) (call_input c) (call_classification c)
                     (call_check c) (call_allocation c) (call_approval c) with
  | Ok (outcome, self') => (Ok outcome, self')
  | Raise e => (Raise e, self)
  end.

Fixpoint run_tasks (self : BusinessOperationsVAA) (calls : list TaskCall)
  : list (result TaskOutcome) * BusinessOperationsVAA :=
  match calls with
  | [] => ([], self)
  | c :: rest =>
      let '(outcome, self) := attempt self c in
      let '(outcomes, self) := run_tasks self rest in
      (outcome :: outcomes, self)
  end.

(** The escalation records and the execution results among the returned
    dictionaries, in order, and the exceptions of the calls that raised. *)
Definition escalations_of (outcomes : list (result TaskOutcome))
  : list EscalationRecord :=
  omap (fun o => match o with Ok (escalated r) => Some r | _ => None end)
       outcomes.

Definition executions_of (outcomes : list (result TaskOutcome))
  : list ExecutionResult :=
  omap (fun o => match o with Ok (executing r) => Some r | _ => None end)
       outcomes.

Definition raised_of (outcomes : list (result TaskOutcome))
  : list exception :=
  omap (fun o => match o with Raise e => Some e | Ok _ => None end) outcomes.

(** The public methods of [BusinessOperationsVAA], as calls with their
    arguments.  Only [execute_task] assigns to or mutates an attribute of
    [self]; the other five only read [self] ([validate_business_rules]
    returns the list [rules['compliance_rules']] of the table inside its
    audit trail and writes nothing through it), so a call, returning or
    raising, leaves the object as it was. *)
Inductive call : Type :=
| call_classify_input (input_data : OperationalInput)
| call_validate_business_rules (input_data : OperationalInput)
    (pathway : string)
| call_allocate_resources (input_data : OperationalInput) (pathway : string)
    (priority : Z)
| call_execute_task (input_data : OperationalInput)
    (classification : Classification)
    (compliance_check : ComplianceCheckResult)
    (allocation : ResourceAllocation) (human_approval : option string)
| call_monitor_workflow_exceptions
| call_calculate_performance_indicators.

Definition step (self : BusinessOperationsVAA) (c : Env * call)
  : BusinessOperationsVAA :=
  let '(env, c) := c in
  match c with
  | call_execute_task input_data classification compliance_check allocation
                      human_approval =>
      match execute_task self env input_data classification compliance_check
                         allocation human_approval with
      | Ok (_, self') => self'
      | Raise _ => self
      end
  | _ => self
  end.

(** The object after a sequence of calls. *)
Definition run (self : BusinessOperationsVAA) (calls : list (Env * call))
  : BusinessOperationsVAA :=
  fold_left step calls self.

End BusinessOps.

(* ===================================================================== *)
(** ** supply_chain_vaa_engine.py *)
(* ===================================================================== *)

Module SupplyChain.

Inductive DecisionLevel : Set :=
| AUTONOMOUS
| SEMI_AUTONOMOUS
| HUMAN_REVIEW
| ESCALATION.

(** [DecisionLevel.value]. *)
Definition DecisionLevel_value (d : DecisionLevel) : string :=
  match d with
  | AUTONOMOUS => "autonomous"
  | SEMI_AUTONOMOUS => "semi_autonomous"
  | HUMAN_REVIEW => "human_review"
  | ESCALATION => "escalation"
  end.

Definition DecisionLevel_eqb (a b : DecisionLevel) : bool :=
  match a, b with
  | AUTONOMOUS, AUTONOMOUS
  | SEMI_AUTONOMOUS, SEMI_AUTONOMOUS
  | HUMAN_REVIEW, HUMAN_REVIEW
  | ESCALATION, ESCALATION => true
  | _, _ => false
  end.

(** The values the f-string of [reasoning] interpolates. *)
Record Reasoning : Type := {
  reasoning_reorder_point : float;
  reasoning_current : Z;
  reasoning_forecast : Z;
  reasoning_safety_stock : Z
}.

Record InventoryAction : Type := {
  location_id : string;
  product_id : string;
  recommended_qty : Z;
  action_type : string;
  confidence_score : float;
  reasoning : Reasoning;
  decision_level : DecisionLevel;
  timestamp : Z;
  requires_approval : bool
}.

Record ForecastData : Type := {
  forecast_product_id : string;
  forecast_location_id : string;
  forecast_qty : Z;
  lower_bound : Z;
  upper_bound : Z;
  accuracy_metric : float;
  historical_error_rate : float;
  forecast_method : string;
  horizon_days : Z
}.

(** [f"{product_id}_{location_id}_{datetime.now().timestamp()}"]. *)
Record ActionId : Type := {
  id_product : string;
  id_location : string;
  id_clock : Z
}.

Record ActionAuditTrail : Type := {
  audit_confidence_score : float;
  decision_reasoning : Reasoning;
  audit_autonomy_level : string
}.

(** The two dictionaries [execute_inventory_action] returns. *)
Record EscalatedAction : Type := {
  esc_action_id : ActionId;
  message : string;
  esc_decision_level : string
}.

Record ExecutedAction : Type := {
  exec_status : string;
  exec_action_id : ActionId;
  exec_product_id : string;
  exec_location_id : string;
  exec_recommended_qty : Z;
  exec_action_type : string;
  executed_by : string;
  exec_timestamp : Z;
  exec_audit_trail : ActionAuditTrail
}.

Inductive ActionOutcome : Type :=
| escalated (r : EscalatedAction)
| logged (r : ExecutedAction).

(** The value under the key ['status']. *)
Definition status (o : ActionOutcome) : string :=
  match o with
  | escalated _ => "escalated"
  | logged r => exec_status r
  end.

(** [now k] is the result of the [k]-th call of [datetime.now()] inside one
    method call. *)
Record Env : Type := {
  now : nat -> Z
}.

Record DemandForecastingVAA : Type := {
  vaa_id : string;
  autonomy_level : DecisionLevel;
  decision_log : list ExecutedAction;
  escalation_queue : list InventoryAction;
  performance_metrics : gmap string float;
  last_training_date : Z;
  model_version : string
}.

(** [DemandForecastingVAA.__init__]. *)
Definition __init__ (env : Env) (vaa_id : string)
    (autonomy_level : DecisionLevel) : DemandForecastingVAA := {|
  vaa_id := vaa_id;
  autonomy_level := autonomy_level;
  decision_log := [];
  escalation_queue := [];
  performance_metrics := ∅;
  last_training_date := now env 0;
  model_version := "1.0"
|}.

Definition _requires_human_approval (action_type : string) (qty : Z)
    (confidence : float) (forecast : ForecastData) : bool :=
  (* High-uncertainty conditions trigger escalation *)
  if PrimFloat.ltb confidence 0.75 then true
  (* Large order quantities require review *)
  else if (Z.abs qty >? 1000)%Z then true
  (* Low historical accuracy suggests caution *)
  else if gtb (historical_error_rate forecast) 0.25 then true
  else false.

Definition _determine_decision_level (self : DemandForecastingVAA)
    (confidence : float) (action_type : string) (requires_approval : bool)
  : DecisionLevel :=
  if requires_approval then
    (if PrimFloat.ltb confidence 0.65 then ESCALATION else HUMAN_REVIEW)
  else if DecisionLevel_eqb (autonomy_level self) AUTONOMOUS
          && gtb confidence 0.85 then AUTONOMOUS
  else SEMI_AUTONOMOUS.

Definition generate_inventory_recommendation (self : DemandForecastingVAA)
    (env : Env) (forecast : ForecastData) (current_inventory : Z)
    (lead_time_days : Z) (safety_stock_factor : float)
  : result InventoryAction :=
  (* Calculate safety stock and reorder point *)
  daily_demand ← int_truediv (forecast_qty forecast) (horizon_days forecast);
  lead_time_demand ← mul_int daily_demand lead_time_days;
  scaled ← mul_int daily_demand lead_time_days;
  safety_stock ← int_of_float (PrimFloat.mul scaled safety_stock_factor);
  reorder_point ← add_int lead_time_demand safety_stock;
  (* Determine action *)
  '(action_type, recommended_qty) ←
    (if int_lt_float current_inventory reorder_point then
       x ← float_of_int (forecast_qty forecast);
       q ← int_of_float (PrimFloat.mul x 1.5);
       Ok ("reorder", q)
     else if (current_inventory >? upper_bound forecast * 2)%Z then
       x ← float_of_int current_inventory;
       q ← int_of_float (PrimFloat.mul x 0.3);
       Ok ("reduce", (- q)%Z)
     else Ok ("maintain", 0%Z));
  (* Determine decision level based on action magnitude and confidence *)
  let confidence_score := accuracy_metric forecast in
  let requires_approval :=
    _requires_human_approval action_type recommended_qty confidence_score
                             forecast in
  let decision_level :=
    _determine_decision_level self confidence_score action_type
                              requires_approval in
  Ok {|
    location_id := forecast_location_id forecast;
    product_id := forecast_product_id forecast;
    recommended_qty := recommended_qty;
    action_type := action_type;
    confidence_score := confidence_score;
    reasoning := {|
      reasoning_reorder_point := reorder_point;
      reasoning_current := current_inventory;
      reasoning_forecast := forecast_qty forecast;
      reasoning_safety_stock := safety_stock
    |};
    decision_level := decision_level;
    timestamp := now env 0;
    requires_approval := requires_approval
  |}.

(** [execute_inventory_action]: the returned dictionary and the object after
    the call. *)
Definition execute_inventory_action (self : DemandForecastingVAA) (env : Env)
    (action : InventoryAction) (approved_by_planner : option string)
  : ActionOutcome * DemandForecastingVAA :=
  (* Block execution if approval required but not provided *)
  if requires_approval action && is_None approved_by_planner then
    (escalated {|
       esc_action_id := {| id_product := product_id action;
                           id_location := location_id action;
                           id_clock := now env 0 |};
       message := "Action requires human planner approval before execution";
       esc_decision_level := DecisionLevel_value (decision_level action)
     |},
     {| vaa_id := vaa_id self;
        autonomy_level := autonomy_level self;
        decision_log := decision_log self;
        escalation_queue := escalation_queue self ++ [action];
        performance_metrics := performance_metrics self;
        last_training_date := last_training_date self;
        model_version := model_version self |})
  else
    (* Execute within autonomous boundaries *)
    let execution_result := {|
      exec_status :=
        if negb (DecisionLevel_eqb (decision_level action) ESCALATION)
        then "executed" else "pending_approval";
      exec_action_id := {| id_product := product_id action;
                           id_location := location_id action;
                           id_clock := now env 0 |};
      exec_product_id := product_id action;
      exec_location_id := location_id action;
      exec_recommended_qty := recommended_qty action;
      exec_action_type := action_type action;
      executed_by :=
        match approved_by_planner with
        | None => "vaa_autonomous"
        | Some planner => "planner_" +:+ planner
        end;
      exec_timestamp := now env 1;
      exec_audit_trail := {|
        audit_confidence_score := confidence_score action;
        decision_reasoning := reasoning action;
        audit_autonomy_level := DecisionLevel_value (decision_level action)
      |}
    |} in
    (* Log all decisions for audit *)
    (logged execution_result,
     {| vaa_id := vaa_id self;
        autonomy_level := autonomy_level self;
        decision_log := decision_log self ++ [execution_result];
        escalation_queue := escalation_queue self;
        performance_metrics := performance_metrics self;
        last_training_date := last_training_date self;
        model_version := model_version self |}).

(** A sequence of calls of [execute_inventory_action] on one object: the
    returned dictionaries, in call order, and the object after the last
    call. *)
Fixpoint run_actions (self : DemandForecastingVAA)
    (calls : list (Env * InventoryAction * option string))
  : list ActionOutcome * DemandForecastingVAA :=
  match calls with
  | [] => ([], self)
  | (env, action, approved_by_planner) :: rest =>
      let '(outcome, self) :=
        execute_inventory_action self env action approved_by_planner in
      let '(outcomes, self) := run_actions self rest in
      (outcome :: outcomes, self)
  end.

(** The execution results among the returned dictionaries, and the actions
    of the calls that the escalation test stops, in order. *)
Definition executions_of (outcomes : list ActionOutcome)
  : list ExecutedAction :=
  omap (fun o => match o with logged r => Some r | escalated _ => None end)
       outcomes.

Definition escalated_actions
    (calls : list (Env * InventoryAction * option string))
  : list InventoryAction :=
  omap (fun c : Env * InventoryAction * option string =>
          let '(_, action, approved_by_planner) := c in
          if requires_approval action && is_None approved_by_planner
          then Some action else None)
       calls.

(** The object of the sample run, and the forecast of its first product
    with an accuracy of 0.9 and the action recommended for it at an
    inventory of 2000. *)
Definition env0 : Env := {| now := fun _ => 0%Z |}.

Definition sample_vaa : DemandForecastingVAA :=
  __init__ env0 "SC_VAA_warehouse_us_central" SEMI_AUTONOMOUS.

Definition sample_forecast : ForecastData := {|
  forecast_product_id := "PROD_001";
  forecast_location_id := "warehouse_us_central";
  forecast_qty := 4950;
  lower_bound := 4059;
  upper_bound := 5841;
  accuracy_metric := 0.9;
  historical_error_rate := 0.1;
  forecast_method := "ensemble_hybrid_model";
  horizon_days := 30
|}.

Definition sample_action : InventoryAction := {|
  location_id := "warehouse_us_central";
  product_id := "PROD_001";
  recommended_qty := 7425;
  action_type := "reorder";
  confidence_score := 0.9;
  reasoning := {|
    reasoning_reorder_point := 2772;
    reasoning_current := 2000;
    reasoning_forecast := 4950;
    reasoning_safety_stock := 462
  |};
  decision_level := HUMAN_REVIEW;
  timestamp := 0;
  requires_approval := true
|}.

(** The two dictionaries [monitor_learning_drift] returns. *)
Record DriftDetails : Type := {
  drift_magnitude : float;
  drift_percent : float;
  drift_timestamp : Z;
  drift_model_version : string
}.

Record DriftReport : Type := {
  drift_detected : bool;
  action : string;
  details : option DriftDetails
}.

Definition monitor_learning_drift (self : DemandForecastingVAA) (env : Env)
    (recent_errors : list float) (threshold : float) : result DriftReport :=
  match recent_errors with
  | [] => Ok {| drift_detected := false;
                action := "continue_monitoring";
                details := None |}
  | _ :: _ =>
      avg_recent_error ←
        truediv_int (Py.sum recent_errors) (Z.of_nat (length recent_errors));
      let previous_baseline := 0.15%float in
      let drift_magnitude := PrimFloat.sub avg_recent_error previous_baseline in
      drift_percent ←
        (if gtb previous_baseline 0 then
           q ← truediv drift_magnitude previous_baseline;
           Ok (PrimFloat.mul q 100)
         else Ok 0%float);
      let drift_detected :=
        gtb (PrimFloat.abs drift_percent) (PrimFloat.mul threshold 100) in
      Ok {| drift_detected := drift_detected;
            action := if drift_detected then "trigger_retraining"
                      else "continue_monitoring";
            details := Some {| drift_magnitude := drift_magnitude;
                               drift_percent := drift_percent;
                               drift_timestamp := now env 0;
                               drift_model_version := model_version self |} |}
  end.

End SupplyChain.

(* ===================================================================== *)
(** ** marketing_vaa_orchestration.py *)
(* ===================================================================== *)

Module Marketing.

Inductive ChannelType : Set :=
| EMAIL | SOCIAL_MEDIA | DISPLAY_AD | SMS | IN_APP | PUSH_NOTIFICATION.

Definition ChannelType_value (c : ChannelType) : string :=
  match c with
  | EMAIL => "email"
  | SOCIAL_MEDIA => "social_media"
  | DISPLAY_AD => "display_ad"
  | SMS => "sms"
  | IN_APP => "in_app"
  | PUSH_NOTIFICATION => "push_notification"
  end.

Inductive SegmentType : Set :=
| BEHAVIORAL | DEMOGRAPHIC | VALUE | LIFECYCLE | ENGAGEMENT.

Record CustomerSegment : Type := {
  segment_id : string;
  segment_name : string;
  segment_type : SegmentType;
  customer_count : Z;
  characteristics : gmap string pyval;
  targeting_rules : list string;
  privacy_compliance_check : bool;
  fairness_score : float;
  created_timestamp : Z
}.

Record BudgetAllocation : Type := {
  allocation_id : string;
  campaign_id : string;
  total_budget : float;
  channel_allocations : gmap string float;
  segment_allocations : gmap string float;
  optimization_method : string;
  expected_roi : float;
  risk_assessment : gmap string float
}.

(** The three texts of [recommendation]; two interpolate the variance. *)
Inductive Recommendation : Set :=
| below_target (variance_percent : float)
| above_target (variance_percent : float)
| on_track.

Record PerformanceInsight : Type := {
  insight_id : string;
  insight_campaign_id : string;
  insight_segment_id : string;
  metric_name : string;
  current_value : pyval;
  expected_value : pyval;
  variance_percent : float;
  recommendation : Recommendation;
  confidence_score : float;
  generated_timestamp : Z
}.

Record FairnessThresholds : Type := {
  max_conversion_rate_variance_between_segments : float;
  min_transparency_score : float;
  min_fairness_score : float
}.

Record FairnessConstraints : Type := {
  prohibited_targeting_attributes : list string;
  fairness_thresholds : FairnessThresholds;
  data_minimization : bool;
  consent_verification_required : bool;
  privacy_compliance_audits : string
}.

(** The dictionary [_validate_segment_fairness] returns. *)
Record FairnessCheck : Type := {
  is_compliant : bool;
  prohibited_attributes_found : list string;
  check_fairness_score : float;
  validation_timestamp : Z
}.

(** The dictionary [calculate_fairness_metrics] returns. *)
Record FairnessAssessment : Type := {
  assessment_id : string;
  assessment_date : Z;
  conversion_rates_by_segment : list (string * float);
  max_rate : float;
  min_rate : float;
  disparity_ratio : float;
  fairness_status : string;
  regulatory_compliance : string;
  recommendations : list string
}.

(** The two kinds of entry of [ethical_audit_trail]. *)
Inductive AuditEntry : Type :=
| fairness_concern (concern_id : string) (segment : string)
    (prohibited_attributes : list string) (score : float)
    (logged_timestamp : Z)
| fairness_audit (audit_id : string) (assessment_data : FairnessAssessment)
    (logged_timestamp : Z).

(** [uuid4 k] and [now k] are the results of the calls of [uuid4()] and of
    [datetime.now()] inside one method call, by position. *)
Record Env : Type := {
  uuid4 : nat -> string;
  now : nat -> Z
}.

Record MarketingVAA : Type := {
  vaa_id : string;
  privacy_framework : string;
  campaigns : gmap string BudgetAllocation;
  segments : gmap string CustomerSegment;
  performance_log : list PerformanceInsight;
  ethical_audit_trail : list AuditEntry;
  fairness_constraints : FairnessConstraints
}.

Definition _initialize_fairness_constraints : FairnessConstraints := {|
  prohibited_targeting_attributes :=
    ["race"; "ethnicity"; "religion"; "sexual_orientation";
     "political_affiliation"; "health_conditions"];
  fairness_thresholds := {|
    max_conversion_rate_variance_between_segments := 0.15;
    min_transparency_score := 0.75;
    min_fairness_score := 0.70
  |};
  data_minimization := true;
  consent_verification_required := true;
  privacy_compliance_audits := "quarterly"
|}.

(** [MarketingVAA.__init__]. *)
Definition __init__ (vaa_id : string) (privacy_framework : string)
  : MarketingVAA := {|
  vaa_id := vaa_id;
  privacy_framework := privacy_framework;
  campaigns := ∅;
  segments := ∅;
  performance_log := [];
  ethical_audit_trail := [];
  fairness_constraints := _initialize_fairness_constraints
|}.

(** Text is a string of bytes.  ASCII text has every byte below 128: the
    rules of the built-in segments and the attributes of the constructor's
    table are such text. *)
Fixpoint ascii_text (s : string) : bool :=
  match s with
  | EmptyString => true
  | String c t => (Ascii.nat_of_ascii c <? 128)%nat && ascii_text t
  end.

(** [s.lower()] on ASCII text, where it replaces the letters A to Z by a to
    z and nothing else.  On other text [str.lower()] follows the Unicode
    tables, which [lower] does not: what is proved of [lower] is stated of
    ASCII text. *)
Definition lower_ascii (c : Ascii.ascii) : Ascii.ascii :=
  let n := Ascii.nat_of_ascii c in
  if (65 <=? n)%nat && (n <=? 90)%nat then Ascii.ascii_of_nat (n + 32) else c.

Fixpoint lower (s : string) : string :=
  match s with
  | EmptyString => EmptyString
  | String c t => String (lower_ascii c) (lower t)
  end.

(** [needle in hay]. *)
Fixpoint contains (needle hay : string) : bool :=
  String.prefix needle hay
  || match hay with
     | EmptyString => false
     | String _ t => contains needle t
     end.

Definition _validate_segment_fairness (self : MarketingVAA) (env : Env)
    (segment : CustomerSegment) : FairnessCheck :=
  let constraints := fairness_constraints self in
  let prohibited_attrs := prohibited_targeting_attributes constraints in
  (* Check for prohibited attributes in targeting rules *)
  let prohibited_found :=
    flat_map (fun rule =>
                List.filter (fun attr => contains (lower attr) (lower rule))
                            prohibited_attrs)
             (targeting_rules segment) in
  let is_compliant :=
    (length prohibited_found =? 0)%nat
    && gtb (fairness_score segment)
           (min_fairness_score (fairness_thresholds constraints)) in
  {| is_compliant := is_compliant;
     prohibited_attributes_found := prohibited_found;
     check_fairness_score := fairness_score segment;
     validation_timestamp := now env 0 |}.

(** [_log_fairness_concern]: the audit trail after the append. *)
Definition _log_fairness_concern (self : MarketingVAA) (env : Env)
    (segment : CustomerSegment) (check_result : FairnessCheck)
  : MarketingVAA := {|
  vaa_id := vaa_id self;
  privacy_framework := privacy_framework self;
  campaigns := campaigns self;
  segments := segments self;
  performance_log := performance_log self;
  ethical_audit_trail :=
    ethical_audit_trail self
    ++ [fairness_concern (uuid4 env 0) (segment_id segment)
          (prohibited_attributes_found check_result)
          (fairness_score segment) (now env 0)];
  fairness_constraints := fairness_constraints self
|}.

(** The readings of [env] from position [k] on, for a nested call. *)
Definition shift (k : nat) (env : Env) : Env := {|
  uuid4 := fun i => uuid4 env (k + i);
  now := fun i => now env (k + i)
|}.

(** The body of the fairness loop of [segment_customers] for one segment:
    validate it and log a concern when it is not compliant; [k] is the
    position in [env] from which the two nested calls read. *)
Definition validate_and_log (env : Env) (acc : nat * MarketingVAA)
    (entry : string * CustomerSegment) : nat * MarketingVAA :=
  let '(k, self) := acc in
  let fairness_check :=
    _validate_segment_fairness self (shift k env) (snd entry) in
  (k + 2,
   if negb (is_compliant fairness_check) then
     _log_fairness_concern self (shift (k + 1) env) (snd entry) fairness_check
   else self).

(** [int(len(customer_data) * share)]. *)
Definition share_of (customer_data : list (gmap string pyval)) (share : float)
  : result Z :=
  int_of_float
    (PrimFloat.mul (float_of_Z (Z.of_nat (length customer_data))) share).

(** [segment_customers]: the returned dictionary, in insertion order, and
    the object after the call. *)
Definition segment_customers (self : MarketingVAA) (env : Env)
    (customer_data : list (gmap string pyval))
  : result (list (string * CustomerSegment) * MarketingVAA) :=
  (* Behavioral Segmentation *)
  behavioral_count ← share_of customer_data 0.25;
  let behavioral_segment := {|
    segment_id := "seg_behavioral_high_engagement";
    segment_name := "High Engagement Users";
    segment_type := BEHAVIORAL;
    customer_count := behavioral_count;
    characteristics :=
      <["avg_session_duration_minutes" := PyNum 12.5]>
      (<["avg_monthly_interactions" := PyNum 18]>
      (<["content_preference" := PyStr "video_preferred"]>
      (<["device_affinity" := PyStr "mobile"]> ∅)));
    targeting_rules := ["sessions_past_30_days > 5";
                        "avg_session_duration > 10_minutes";
                        "content_interactions > 15"];
    privacy_compliance_check := true;
    fairness_score := 0.89;
    created_timestamp := now env 0
  |} in
  (* Value-Based Segmentation *)
  value_count ← share_of customer_data 0.15;
  let value_segment := {|
    segment_id := "seg_value_high_lifetime";
    segment_name := "High Customer Lifetime Value";
    segment_type := VALUE;
    customer_count := value_count;
    characteristics :=
      <["avg_lifetime_value_usd" := PyNum 2450]>
      (<["purchase_frequency_months" := PyNum 2.1]>
      (<["avg_order_value_usd" := PyNum 185]>
      (<["repeat_purchase_rate" := PyNum 0.68]> ∅)));
    targeting_rules := ["lifetime_transactions > 10";
                        "avg_order_value > 150_usd";
                        "churn_risk_score < 0.3"];
    privacy_compliance_check := true;
    fairness_score := 0.92;
    created_timestamp := now env 1
  |} in
  (* Lifecycle Segmentation *)
  lifecycle_count ← share_of customer_data 0.10;
  let lifecycle_segment := {|
    segment_id := "seg_lifecycle_at_risk";
    segment_name := "At-Risk / Churn Candidates";
    segment_type := LIFECYCLE;
    customer_count := lifecycle_count;
    characteristics :=
      <["days_since_last_purchase" := PyNum 75]>
      (<["purchase_trend" := PyStr "declining"]>
      (<["engagement_trend" := PyStr "declining"]>
      (<["churn_probability" := PyNum 0.65]> ∅)));
    targeting_rules := ["days_since_last_purchase > 60";
                        "engagement_decline_90_days > 40%";
                        "churn_risk_score > 0.60"];
    privacy_compliance_check := true;
    fairness_score := 0.85;
    created_timestamp := now env 2
  |} in
  let new_segments :=
    [("behavioral_high_engagement", behavioral_segment);
     ("value_high_lifetime", value_segment);
     ("lifecycle_at_risk", lifecycle_segment)] in
  (* Fairness validation *)
  let self := snd (fold_left (validate_and_log env) new_segments (3, self)) in
  (* self.segments.update(segments) *)
  Ok (new_segments,
      {| vaa_id := vaa_id self;
         privacy_framework := privacy_framework self;
         campaigns := campaigns self;
         segments := list_to_map new_segments ∪ segments self;
         performance_log := performance_log self;
         ethical_audit_trail := ethical_audit_trail self;
         fairness_constraints := fairness_constraints self |}).

(** [allocate_campaign_budget]; the two tables are lists, in the order in
    which the dictionaries are written and summed. *)
Definition segment_rois : list (string * float) :=
  [("behavioral_high_engagement", 3.5%float);
   ("value_high_lifetime", 4.2%float);
   ("lifecycle_at_risk", 2.8%float)].

Definition channel_multipliers : list (ChannelType * float) :=
  [(EMAIL, 2.1%float); (SMS, 2.8%float); (SOCIAL_MEDIA, 1.9%float);
   (DISPLAY_AD, 1.5%float); (IN_APP, 2.3%float);
   (PUSH_NOTIFICATION, 2.4%float)].

Definition allocate_campaign_budget (self : MarketingVAA) (env : Env)
    (campaign_id : string) (total_budget : float)
    (segments_arg : list (string * CustomerSegment))
    (channels : list ChannelType)
  : result (BudgetAllocation * MarketingVAA) :=
  let allocation_id := uuid4 env 0 in
  (* Dynamic allocation based on ROI prediction *)
  let total_multiplier := Py.sum (map snd channel_multipliers) in
  channel_allocations ←
    foldl (fun acc entry =>
             allocations ← acc;
             share ← truediv (snd entry) total_multiplier;
             Ok (<[ChannelType_value (fst entry) :=
                     PrimFloat.mul (PrimFloat.mul total_budget 0.60) share]>
                   (allocations : gmap string float)))
          (Ok ∅) channel_multipliers;
  (* Segment allocations *)
  let total_segment_roi := Py.sum (map snd segment_rois) in
  let remaining_budget := PrimFloat.mul total_budget 0.40 in
  segment_allocations ←
    foldl (fun acc entry =>
             allocations ← acc;
             share ← truediv (snd entry) total_segment_roi;
             Ok (<[fst entry := PrimFloat.mul remaining_budget share]>
                   (allocations : gmap string float)))
          (Ok ∅) segment_rois;
  (* Expected ROI (aggregated) *)
  expected_roi ←
    truediv_int (Py.sum (map snd segment_rois))
                (Z.of_nat (length segment_rois));
  let allocation := {|
    allocation_id := allocation_id;
    campaign_id := campaign_id;
    total_budget := total_budget;
    channel_allocations := channel_allocations;
    segment_allocations := segment_allocations;
    optimization_method := "roi_predictive_allocation";
    expected_roi := expected_roi;
    risk_assessment :=
      <["market_volatility_factor" := 0.15%float]>
      (<["competitor_activity_factor" := 0.12%float]>
      (<["implementation_risk" := 0.08%float]>
      (<["overall_risk_score" := 0.12%float]> ∅)))
  |} in
  (* self.campaigns[campaign_id] = allocation *)
  Ok (allocation,
      {| vaa_id := vaa_id self;
         privacy_framework := privacy_framework self;
         campaigns := <[campaign_id := allocation]> (campaigns self);
         segments := segments self;
         performance_log := performance_log self;
         ethical_audit_trail := ethical_audit_trail self;
         fairness_constraints := fairness_constraints self |}).

Definition generate_performance_insights (self : MarketingVAA) (env : Env)
    (campaign_id : string) (segment_id : string)
    (actual_metrics : gmap string pyval)
  : result (PerformanceInsight * MarketingVAA) :=
  let insight_id := uuid4 env 0 in
  (* Analyze key metrics vs. expectations *)
  let current_value := dict_get actual_metrics "conversion_rate" (PyNum 0.035) in
  let expected_value :=
    dict_get actual_metrics "expected_conversion_rate" (PyNum 0.040) in
  positive ← py_gt expected_value 0;
  variance_percent ←
    (if positive : bool then
       current ← as_number current_value;
       expected ← as_number expected_value;
       q ← truediv (PrimFloat.sub current expected) expected;
       Ok (PrimFloat.mul q 100)
     else Ok 0%float);
  (* Generate optimization recommendation *)
  let '(recommendation, confidence_score) :=
    if PrimFloat.ltb variance_percent (-10) then
      (below_target variance_percent, 0.78%float)
    else if gtb variance_percent 10 then
      (above_target variance_percent, 0.85%float)
    else (on_track, 0.72%float) in
  let insight := {|
    insight_id := insight_id;
    insight_campaign_id := campaign_id;
    insight_segment_id := segment_id;
    metric_name := "conversion_rate";
    current_value := current_value;
    expected_value := expected_value;
    variance_percent := variance_percent;
    recommendation := recommendation;
    confidence_score := confidence_score;
    generated_timestamp := now env 0
  |} in
  (* self.performance_log.append(asdict(insight)) *)
  Ok (insight,
      {| vaa_id := vaa_id self;
         privacy_framework := privacy_framework self;
         campaigns := campaigns self;
         segments := segments self;
         performance_log := performance_log self ++ [insight];
         ethical_audit_trail := ethical_audit_trail self;
         fairness_constraints := fairness_constraints self |}).

(** [max(l)] and [min(l)] on a non-empty list of floats: the first element
    is kept until a strictly greater (smaller) one is met. *)
Definition py_max (first : float) (rest : list float) : float :=
  fold_left (fun best x => if gtb x best then x else best) rest first.
Definition py_min (first : float) (rest : list float) : float :=
  fold_left (fun best x => if PrimFloat.ltb x best then x else best) rest first.

(** [_log_fairness_audit]: the audit trail after the append. *)
Definition _log_fairness_audit (self : MarketingVAA) (env : Env)
    (assessment : FairnessAssessment) : MarketingVAA := {|
  vaa_id := vaa_id self;
  privacy_framework := privacy_framework self;
  campaigns := campaigns self;
  segments := segments self;
  performance_log := performance_log self;
  ethical_audit_trail :=
    ethical_audit_trail self
    ++ [fairness_audit (uuid4 env 0) assessment (now env 0)];
  fairness_constraints := fairness_constraints self
|}.

Definition calculate_fairness_metrics (self : MarketingVAA) (env : Env)
  : result (FairnessAssessment * MarketingVAA) :=
  let conversion_rates_by_segment :=
    [("behavioral_high_engagement", 0.042%float);
     ("value_high_lifetime", 0.048%float);
     ("lifecycle_at_risk", 0.029%float)] in
  let max_rate := py_max 0.042 [0.048%float; 0.029%float] in
  let min_rate := py_min 0.042 [0.048%float; 0.029%float] in
  disparity_ratio ←
    (if gtb min_rate 0 then truediv max_rate min_rate else Ok 1.0%float);
  let fairness_assessment := {|
    assessment_id := uuid4 env 0;
    assessment_date := now env 0;
    conversion_rates_by_segment := conversion_rates_by_segment;
    max_rate := max_rate;
    min_rate := min_rate;
    disparity_ratio := disparity_ratio;
    fairness_status :=
      if PrimFloat.ltb disparity_ratio 1.25 then "within_threshold"
      else "requires_review";
    regulatory_compliance := "compliant";
    recommendations :=
      (* Add recommendations if disparity detected *)
      if gtb disparity_ratio 1.15 then
        ["Significant conversion rate disparity detected across segments. "
         +:+ "Review personalization logic for potential bias."]
      else []
  |} in
  Ok (fairness_assessment,
      _log_fairness_audit self (shift 1 env) fairness_assessment).

(** The public methods of [MarketingVAA], as calls with their arguments.
    [personalize_content] and [ab_test_content_variants] build and return a
    value from their arguments alone: they assign to no attribute of [self]
    and call no method on one, so a call leaves the object as it was. *)
Inductive call : Type :=
| call_segment_customers (customer_data : list (gmap string pyval))
| call_personalize_content (segment : CustomerSegment)
    (product_offering : gmap string pyval)
| call_allocate_campaign_budget (campaign_id : string) (total_budget : float)
    (segments_arg : list (string * CustomerSegment))
    (channels : list ChannelType)
| call_generate_performance_insights (campaign_id : string)
    (segment_id : string) (actual_metrics : gmap string pyval)
| call_calculate_fairness_metrics
| call_ab_test_content_variants (segment : CustomerSegment)
    (test_duration_days : Z).

(** The object after a method has returned or raised. *)
Definition after {A} (self : MarketingVAA) (r : result (A * MarketingVAA))
  : MarketingVAA :=
  match r with
  | Ok (_, self') => self'
  | Raise _ => self
  end.

Definition step (self : MarketingVAA) (c : Env * call) : MarketingVAA :=
  let '(env, c) := c in
  match c with
  | call_segment_customers customer_data =>
      after self (segment_customers self env customer_data)
  | call_allocate_campaign_budget campaign_id total_budget segments_arg
                                  channels =>
      after self (allocate_campaign_budget self env campaign_id total_budget
                                           segments_arg channels)
  | call_generate_performance_insights campaign_id segment_id actual_metrics =>
      after self (generate_performance_insights self env campaign_id
                                                segment_id actual_metrics)
  | call_calculate_fairness_metrics =>
      after self (calculate_fairness_metrics self env)
  | call_personalize_content _ _
  | call_ab_test_content_variants _ _ => self
  end.

(** The object after a sequence of calls. *)
Definition run (self : MarketingVAA) (calls : list (Env * call))
  : MarketingVAA :=
  fold_left step calls self.

End Marketing.

(* ===================================================================== *)
(** ** business_operations_vaa.py: the governance audit *)
(* ===================================================================== *)

Module OperationsAudit.
Import BusinessOps.

(** An entry of [compliance_findings]. *)
Record Finding : Type := {
  finding_type : string;
  description : string;
  risk_level : string;
  recommendation : string
}.

Record AuditReport : Type := {
  audit_id : string;
  report_vaa_id : string;
  audit_date : Z;
  audit_period_days : Z;
  report_regulatory_framework : string;
  total_decisions_logged : Z;
  escalations_requiring_approval : Z;
  compliance_findings : list Finding;
  control_effectiveness : string;
  audit_opinion : string
}.

(** [OperationsGovernanceAudit] keeps a reference to the agent it audits,
    not a copy: the agent and the list of reports are the two objects of one
    store, and an audit reads the agent as the calls before it left it. *)
Record OperationsGovernanceAudit : Type := {
  vaa : BusinessOperationsVAA;
  audit_reports : list AuditReport
}.

(** [OperationsGovernanceAudit.__init__]. *)
Definition __init__ (vaa : BusinessOperationsVAA)
  : OperationsGovernanceAudit :=
  {| vaa := vaa; audit_reports := [] |}.

Definition escalation_volume : Finding := {|
  finding_type := "escalation_volume";
  description := "High volume of escalations may indicate overly restrictive decision boundaries";
  risk_level := "low";
  recommendation := "Review autonomy levels in next assessment"
|}.

Definition audit_coverage : Finding := {|
  finding_type := "audit_coverage";
  description := "Audit trail volume below expected for measurement period";
  risk_level := "informational";
  recommendation := "Monitor for representative sample size"
|}.

(** [generate_compliance_audit]: the report, and the store after the call. *)
Definition generate_compliance_audit (self : OperationsGovernanceAudit)
    (env : Env) (audit_period_days : Z)
  : AuditReport * OperationsGovernanceAudit :=
  let total := Z.of_nat (length (decision_audit_trail (vaa self))) in
  let escalations := Z.of_nat (length (escalation_queue (vaa self))) in
  let compliance_findings : list Finding := [] in
  (* Review escalation patterns (risk indicator) *)
  let compliance_findings :=
    if (escalations >? 10)%Z then compliance_findings ++ [escalation_volume]
    else compliance_findings in
  (* Check audit trail completeness *)
  let compliance_findings :=
    if (total <? 50)%Z then compliance_findings ++ [audit_coverage]
    else compliance_findings in
  let audit_report := {|
    audit_id := uuid4 env 0;
    report_vaa_id := vaa_id (vaa self);
    audit_date := now env 0;
    audit_period_days := audit_period_days;
    report_regulatory_framework := regulatory_framework (vaa self);
    total_decisions_logged := total;
    escalations_requiring_approval := escalations;
    compliance_findings := compliance_findings;
    control_effectiveness := "effective";
    audit_opinion := "controls_in_place"
  |} in
  (audit_report,
   {| vaa := vaa self; audit_reports := audit_reports self ++ [audit_report] |}).

(** [execute_task] on the audited agent: what the call ends with, and the
    store after it. *)
Definition execute_task (self : OperationsGovernanceAudit) (c : TaskCall)
  : result TaskOutcome * OperationsGovernanceAudit :=
  let '(outcome, agent) := attempt (vaa self) c in
  (outcome, {| vaa := agent; audit_reports := audit_reports self |}).

(** The calls that the sample run and an auditor make on one store: a task,
    or an audit of a period in days. *)
Inductive call : Type :=
| task (c : TaskCall)
| audit (env : Env) (audit_period_days : Z).

Definition step (self : OperationsGovernanceAudit) (c : call)
  : OperationsGovernanceAudit :=
  match c with
  | task c => snd (execute_task self c)
  | audit env audit_period_days =>
      snd (generate_compliance_audit self env audit_period_days)
  end.

Definition run (self : OperationsGovernanceAudit) (calls : list call)
  : OperationsGovernanceAudit :=
  fold_left step calls self.

(** The number of tasks among the calls. *)
Definition tasks_of (calls : list call) : list TaskCall :=
  omap (fun c => match c with task c => Some c | audit _ _ => None end) calls.

End OperationsAudit.

(* ===================================================================== *)
(** ** Calls that can raise [KeyError] *)
(* ===================================================================== *)

Module PyErrors.

(** What a call ends with when it subscripts a dictionary: a value, or an
    exception, which is the [KeyError] of a missing key or one of the
    exceptions of the arithmetic. *)
Inductive error : Set :=
| KeyError (key : string)
| Raised (e : exception).

Inductive outcome (A : Type) : Type :=
| Returned (a : A)
| Failed (e : error).
Arguments Returned {A} a.
Arguments Failed {A} e.

(** [d[key]]. *)
Definition subscript {V} (d : gmap string V) (key : string) : outcome V :=
  match d !! key with
  | Some v => Returned v
  | None => Failed (KeyError key)
  end.

End PyErrors.

(* ===================================================================== *)
(** ** supply_chain_vaa_engine.py: forecasts and the orchestrator *)
(* ===================================================================== *)

Module Orchestrator.
Import SupplyChain PyErrors.

(** An entry of a [historical_data] dictionary: an int or a float. *)
Inductive number : Set :=
| Int (z : Z)
| Float (x : float).

(** [a * b], [a - b] and [a + b]: exact on two ints; an int operand of a
    float operation is converted first. *)
Definition num_mul (a b : number) : result number :=
  match a, b with
  | Int x, Int y => Ok (Int (x * y))
  | Int x, Float y => x ← float_of_int x; Ok (Float (PrimFloat.mul x y))
  | Float x, Int y => y ← float_of_int y; Ok (Float (PrimFloat.mul x y))
  | Float x, Float y => Ok (Float (PrimFloat.mul x y))
  end.

Definition num_sub (a b : number) : result number :=
  match a, b with
  | Int x, Int y => Ok (Int (x - y))
  | Int x, Float y => x ← float_of_int x; Ok (Float (PrimFloat.sub x y))
  | Float x, Int y => y ← float_of_int y; Ok (Float (PrimFloat.sub x y))
  | Float x, Float y => Ok (Float (PrimFloat.sub x y))
  end.

Definition num_add (a b : number) : result number :=
  match a, b with
  | Int x, Int y => Ok (Int (x + y))
  | Int x, Float y => x ← float_of_int x; Ok (Float (PrimFloat.add x y))
  | Float x, Int y => y ← float_of_int y; Ok (Float (PrimFloat.add x y))
  | Float x, Float y => Ok (Float (PrimFloat.add x y))
  end.

(** [int(a)]. *)
Definition num_int (a : number) : result Z :=
  match a with
  | Int z => Ok z
  | Float x => int_of_float x
  end.

(** [forecast_demand]; [draw] is the result of its call of
    [random.random()], from which [random.uniform(0.05, 0.20)] is
    [0.05 + (0.20 - 0.05) * draw].  The method does not read [self]. *)
Definition forecast_demand (draw : float)
    (historical_data : gmap string number) (product_id location_id : string)
    (horizon_days : Z) : result ForecastData :=
  let base_demand := dict_get historical_data "avg_daily_demand" (Int 100) in
  let volatility :=
    dict_get historical_data "volatility_factor" (Float 0.15) in
  let seasonality_factor :=
    dict_get historical_data "seasonality_factor" (Float 1.0) in
  (* Forecast with uncertainty bounds *)
  seasonal ← num_mul base_demand seasonality_factor;
  total ← num_mul seasonal (Int horizon_days);
  point_forecast ← num_int total;
  low ← num_sub (Int 1) volatility;
  low ← num_mul (Int point_forecast) low;
  lower_bound ← num_int low;
  high ← num_add (Int 1) volatility;
  high ← num_mul (Int point_forecast) high;
  upper_bound ← num_int high;
  (* Calculate historical accuracy for trust calibration *)
  let historical_error_rate :=
    PrimFloat.add 0.05 (PrimFloat.mul (PrimFloat.sub 0.20 0.05) draw) in
  let accuracy_metric := PrimFloat.sub 1.0 historical_error_rate in
  Ok {| forecast_product_id := product_id;
        forecast_location_id := location_id;
        forecast_qty := point_forecast;
        lower_bound := lower_bound;
        upper_bound := upper_bound;
        accuracy_metric := accuracy_metric;
        historical_error_rate := historical_error_rate;
        forecast_method := "ensemble_hybrid_model";
        horizon_days := horizon_days |}.

(** The orchestrator.  [vaas] holds the agents themselves: the object that
    [register_vaa] returns is the entry of its location, and a call on it
    is a call on the entry.  Nothing in the module appends to
    [governance_log] or [escalation_queue]. *)
Record SupplyChainVAAOrchestrator : Type := {
  vaas : gmap string DemandForecastingVAA;
  governance_log : list ExecutedAction;
  escalation_queue : list InventoryAction
}.

(** [SupplyChainVAAOrchestrator.__init__]. *)
Definition __init__ : SupplyChainVAAOrchestrator :=
  {| vaas := ∅; governance_log := []; escalation_queue := [] |}.

(** [register_vaa]: the new agent and the orchestrator after the call. *)
Definition register_vaa (self : SupplyChainVAAOrchestrator) (env : Env)
    (location_id : string) (autonomy_level : DecisionLevel)
  : DemandForecastingVAA * SupplyChainVAAOrchestrator :=
  let vaa :=
    SupplyChain.__init__ env ("SC_VAA_" +:+ location_id) autonomy_level in
  (vaa,
   {| vaas := <[location_id := vaa]> (vaas self);
      governance_log := governance_log self;
      escalation_queue := escalation_queue self |}).

Record CycleResults : Type := {
  cycle_location_id : string;
  cycle_timestamp : Z;
  forecasts : list ForecastData;
  actions : list ActionOutcome;
  escalations : list ActionOutcome
}.

(** The clock readings and the random draws of one call of
    [process_inventory_cycle]: its own reading of the clock, and for the
    [k]-th product the draw of the forecast and the readings of the
    recommendation and of the execution. *)
Record CycleEnv : Type := {
  cycle_now : Z;
  forecast_draw : nat -> float;
  recommend_env : nat -> Env;
  execute_env : nat -> Env
}.

(** The loop of [process_inventory_cycle] over the items of
    [current_inventory], in the order of the dictionary: the agent is
    changed in place, so an exception in a later round keeps what the
    earlier rounds logged. *)
Fixpoint cycle_loop (env : CycleEnv) (location_id : string)
    (historical_data : gmap string (gmap string number))
    (items : list (string * Z)) (k : nat) (vaa : DemandForecastingVAA)
    (cycle_results : CycleResults)
  : outcome CycleResults * DemandForecastingVAA :=
  match items with
  | [] => (Returned cycle_results, vaa)
  | (product_id, inventory_qty) :: rest =>
      (* Forecast *)
      match forecast_demand (forecast_draw env k)
                            (dict_get historical_data product_id ∅)
                            product_id location_id 30 with
      | Raise e => (Failed (Raised e), vaa)
      | Ok forecast =>
          let forecasts := forecasts cycle_results ++ [forecast] in
          (* Recommend *)
          match generate_inventory_recommendation
                  vaa (recommend_env env k) forecast inventory_qty 14 0.2 with
          | Raise e => (Failed (Raised e), vaa)
          | Ok action =>
              (* Execute or escalate *)
              let '(result, vaa) :=
                execute_inventory_action vaa (execute_env env k) action None
              in
              let escalated := String.eqb (status result) "escalated" in
              cycle_loop env location_id historical_data rest (S k) vaa
                {| cycle_location_id := cycle_location_id cycle_results;
                   cycle_timestamp := cycle_timestamp cycle_results;
                   forecasts := forecasts;
                   actions :=
                     if escalated then actions cycle_results
                     else actions cycle_results ++ [result];
                   escalations :=
                     if escalated then escalations cycle_results ++ [result]
                     else escalations cycle_results |}
          end
      end
  end.

(** [process_inventory_cycle]: what the call ends with, and the
    orchestrator after it. *)
Definition process_inventory_cycle (self : SupplyChainVAAOrchestrator)
    (env : CycleEnv) (location_id : string)
    (historical_data : gmap string (gmap string number))
    (current_inventory : list (string * Z))
  : outcome CycleResults * SupplyChainVAAOrchestrator :=
  match vaas self !! location_id with
  | None => (Failed (KeyError location_id), self)
  | Some vaa =>
      let cycle_results := {|
        cycle_location_id := location_id;
        cycle_timestamp := cycle_now env;
        forecasts := [];
        actions := [];
        escalations := []
      |} in
      let '(result, vaa) :=
        cycle_loop env location_id historical_data current_inventory 0 vaa
                   cycle_results in
      (result,
       {| vaas := <[location_id := vaa]> (vaas self);
          governance_log := governance_log self;
          escalation_queue := escalation_queue self |})
  end.

Record GovernanceReport : Type := {
  report_vaa_id : string;
  audit_date : Z;
  total_decisions : Z;
  escalations_count : Z;
  escalation_rate : float;
  report_model_version : string;
  report_last_training_date : Z;
  report_autonomy_level : string;
  compliance_status : string;
  governance_recommendations : list string
}.

(** The two dictionaries [audit_governance_compliance] returns. *)
Inductive AuditResult : Type :=
| vaa_not_found
| audited (report : GovernanceReport).

(** The number of microseconds of a day: [timedelta.days] is the floor of
    the difference of two clock readings by it. *)
Definition day : Z := 86400000000.

(** [audit_governance_compliance]; an agent is an object without
    [__bool__] and [__len__], so [not vaa] holds of [None] only.  The method
    assigns nothing. *)
Definition audit_governance_compliance (self : SupplyChainVAAOrchestrator)
    (env : Env) (vaa_id : string) : result AuditResult :=
  match vaas self !! vaa_id with
  | None => Ok vaa_not_found
  | Some vaa =>
      let total := Z.of_nat (length (decision_log vaa)) in
      let count := Z.of_nat (length (SupplyChain.escalation_queue vaa)) in
      escalation_rate ← int_truediv count (Z.max total 1);
      let governance_recommendations : list string := [] in
      let governance_recommendations :=
        if gtb escalation_rate 0.30 then
          governance_recommendations
          ++ ["High escalation rate detected. Consider reviewing decision boundaries."]
        else governance_recommendations in
      let days_since_training :=
        ((now env 1 - last_training_date vaa) / day)%Z in
      let governance_recommendations :=
        if (days_since_training >? 90)%Z then
          governance_recommendations
          ++ ["Model approaching retraining interval. Schedule maintenance window."]
        else governance_recommendations in
      Ok (audited {|
        report_vaa_id := vaa_id;
        audit_date := now env 0;
        total_decisions := total;
        escalations_count := count;
        escalation_rate := escalation_rate;
        report_model_version := model_version vaa;
        report_last_training_date := last_training_date vaa;
        report_autonomy_level := DecisionLevel_value (autonomy_level vaa);
        compliance_status := "compliant";
        governance_recommendations := governance_recommendations
      |})
  end.

(** The set-up of the sample run: one agent, for one warehouse. *)
Definition location : string := "warehouse_us_central".

Definition sample_orchestrator : SupplyChainVAAOrchestrator :=
  snd (register_vaa __init__ env0 location SEMI_AUTONOMOUS).

Definition sample_history : gmap string (gmap string number) :=
  <["PROD_001" := <["avg_daily_demand" := Int 150]>
                  (<["volatility_factor" := Float 0.18]>
                  (<["seasonality_factor" := Float 1.1]> ∅))]>
  (<["PROD_002" := <["avg_daily_demand" := Int 85]>
                   (<["volatility_factor" := Float 0.22]>
                   (<["seasonality_factor" := Float 0.95]> ∅))]> ∅).

Definition sample_inventory : list (string * Z) :=
  [("PROD_001", 2000%Z); ("PROD_002", 800%Z)].

Definition cycle_env0 : CycleEnv := {|
  cycle_now := 0;
  forecast_draw := fun _ => 0.5%float;
  recommend_env := fun _ => env0;
  execute_env := fun _ => env0
|}.

(** A forecast of the first product whose accuracy is below every bound of
    the escalation logic. *)
Definition uncertain_forecast : ForecastData := {|
  forecast_product_id := "PROD_001";
  forecast_location_id := "warehouse_us_central";
  forecast_qty := 4950;
  lower_bound := 4059;
  upper_bound := 5841;
  accuracy_metric := 0.6;
  historical_error_rate := 0.4;
  forecast_method := "ensemble_hybrid_model";
  horizon_days := 30
|}.

End Orchestrator.

(* ===================================================================== *)
(** ** marketing_vaa_orchestration.py: content and A/B tests *)
(* ===================================================================== *)

Module Content.
Import Marketing PyErrors.

(** [SegmentType.value]. *)
Definition SegmentType_value (t : SegmentType) : string :=
  match t with
  | BEHAVIORAL => "behavioral"
  | DEMOGRAPHIC => "demographic"
  | VALUE => "value"
  | LIFECYCLE => "lifecycle"
  | ENGAGEMENT => "engagement"
  end.

Definition SegmentType_eqb (a b : SegmentType) : bool :=
  match a, b with
  | BEHAVIORAL, BEHAVIORAL
  | DEMOGRAPHIC, DEMOGRAPHIC
  | VALUE, VALUE
  | LIFECYCLE, LIFECYCLE
  | ENGAGEMENT, ENGAGEMENT => true
  | _, _ => false
  end.

(** The three subject lines, each with the entry of the offering that it
    interpolates. *)
Inductive SubjectLine : Set :=
| vip_exclusive_access (product_name : pyval)
| back_with_discount (discount_percent : pyval)
| recommended_for_you (product_name : pyval).

(** [f"asset_{segment.segment_type.value}_{uuid4().hex[:8]}"]: the value of
    the type, and the identifier whose first eight digits are taken. *)
Record VisualAsset : Type := {
  asset_segment_type : string;
  asset_uuid : string
}.

Record EthicalGuardrails : Type := {
  explicit_targeting_disclosure : list string;
  opt_out_mechanism : bool;
  data_retention_policy : string;
  privacy_compliant : bool
}.

Record CampaignContent : Type := {
  content_id : string;
  content_segment_id : string;
  message_variant : string;
  subject_line : SubjectLine;
  cta_text : string;
  visual_asset : VisualAsset;
  personalization_factors : list string;
  estimated_ctr : float;
  ethical_guardrails : EthicalGuardrails
}.

(** [personalize_content]: it reads its arguments only, and subscripts the
    offering with the one key of the branch of the segment type. *)
Definition personalize_content (self : MarketingVAA) (env : Env)
    (segment : CustomerSegment) (product_offering : gmap string pyval)
  : outcome CampaignContent :=
  let content_id := uuid4 env 0 in
  (* Determine personalization strategy based on segment *)
  let branch :=
    if SegmentType_eqb (segment_type segment) VALUE then
      match subscript product_offering "product_name" with
      | Returned product_name =>
          Returned ("Exclusive offer for valued customers"%string,
                    vip_exclusive_access product_name,
                    "Claim Your VIP Offer"%string,
                    ["loyalty_reward"; "premium_positioning";
                     "exclusive_access"]%string,
                    0.045%float)
      | Failed e => Failed e
      end
    else if SegmentType_eqb (segment_type segment) LIFECYCLE then
      match subscript product_offering "discount_percent" with
      | Returned discount_percent =>
          Returned ("We miss you - special return offer"%string,
                    back_with_discount discount_percent,
                    "Come Back & Save"%string,
                    ["win_back_offer"; "urgency_signal";
                     "discount_incentive"]%string,
                    0.032%float)
      | Failed e => Failed e
      end
    else
      match subscript product_offering "product_name" with
      | Returned product_name =>
          Returned ("Discover content tailored to your interests"%string,
                    recommended_for_you product_name,
                    "Explore"%string,
                    ["interest_alignment"; "behavior_based";
                     "discovery_focus"]%string,
                    0.028%float)
      | Failed e => Failed e
      end in
  match branch with
  | Failed e => Failed e
  | Returned (message_template, subject_line, cta_text,
              personalization_factors, estimated_ctr) =>
      Returned {|
        content_id := content_id;
        content_segment_id := segment_id segment;
        message_variant := message_template;
        subject_line := subject_line;
        cta_text := cta_text;
        visual_asset := {|
          asset_segment_type := SegmentType_value (segment_type segment);
          asset_uuid := uuid4 env 1
        |};
        personalization_factors := personalization_factors;
        estimated_ctr := estimated_ctr;
        ethical_guardrails := {|
          explicit_targeting_disclosure := personalization_factors;
          opt_out_mechanism := true;
          data_retention_policy := "delete_after_90_days";
          privacy_compliant := true
        |}
      |}
  end.

(** The dictionary [ab_test_content_variants] returns, with the entries of
    its ['results'] next to the others. *)
Record TestResult : Type := {
  test_id : string;
  test_segment_id : string;
  variant_a_description : string;
  variant_b_description : string;
  test_duration_days : Z;
  sample_size_per_variant : Z;
  variant_a_ctr : float;
  variant_b_ctr : float;
  ctr_improvement_percent : float;
  variant_a_conversion_rate : float;
  variant_b_conversion_rate : float;
  conversion_improvement_percent : float;
  statistical_significance : string;
  winner : string;
  test_recommendation : string;
  test_completion_date : Z
}.

(** [ab_test_content_variants]; the description of the second variant is
    the text ["VAA-personalized: "] followed by its message. *)
Definition ab_test_content_variants (self : MarketingVAA) (env : Env)
    (segment : CustomerSegment) (variant_a variant_b : CampaignContent)
    (test_duration_days : Z) : result TestResult :=
  ctr_improvement ←
    truediv (PrimFloat.sub (estimated_ctr variant_b) 0.018) 0.018;
  conversion_improvement ← truediv (PrimFloat.sub 0.042 0.028) 0.028;
  Ok {|
    test_id := uuid4 env 0;
    test_segment_id := segment_id segment;
    variant_a_description := "Traditional static messaging";
    variant_b_description :=
      "VAA-personalized: " +:+ message_variant variant_b;
    test_duration_days := test_duration_days;
    sample_size_per_variant := (customer_count segment / 2)%Z;
    variant_a_ctr := 0.018;
    variant_b_ctr := estimated_ctr variant_b;
    ctr_improvement_percent := PrimFloat.mul ctr_improvement 100;
    variant_a_conversion_rate := 0.028;
    variant_b_conversion_rate := 0.042;
    conversion_improvement_percent :=
      PrimFloat.mul conversion_improvement 100;
    statistical_significance := "p_value < 0.05";
    winner := "variant_b_vaa_personalized";
    test_recommendation :=
      "Scale VAA-personalized approach - 50% improvement in conversions";
    test_completion_date := now env 0
  |}.

(** The object [self] grows into [self']: the two logs are extended at the
    end, and no campaign and no segment is removed. *)
Definition grows (self self' : MarketingVAA) : Prop :=
  ethical_audit_trail self `prefix_of` ethical_audit_trail self'
  /\ performance_log self `prefix_of` performance_log self'
  /\ (forall key,
         is_Some (campaigns self !! key) -> is_Some (campaigns self' !! key))
  /\ (forall key,
         is_Some (segments self !! key) -> is_Some (segments self' !! key)).

(** The object of the sample run and a thousand customers (the code reads
    their number only), an environment for the concrete runs, a segment of
    each kind of content and the offering of the sample run. *)
Definition sample_vaa : MarketingVAA := __init__ "MKT_VAA_001" "GDPR_CCPA".

Definition env0 : Env := {|
  uuid4 := fun _ => "00000000-0000-4000-8000-000000000000";
  now := fun _ => 0%Z
|}.

Definition sample_customers : list (gmap string pyval) :=
  replicate 1000 (<["id" := PyStr "cust"]> ∅).

Definition sample_segment (t : SegmentType) : CustomerSegment := {|
  segment_id := "seg_sample";
  segment_name := "Sample";
  segment_type := t;
  customer_count := 251;
  characteristics := ∅;
  targeting_rules := ["Age > 30 and Religion = X"];
  privacy_compliance_check := true;
  fairness_score := 0.9;
  created_timestamp := 0
|}.

Definition sample_offering : gmap string pyval :=
  <["product_name" := PyStr "Premium Subscription"]>
  (<["discount_percent" := PyNum 30]> ∅).

End Content.

(* ===================================================================== *)
(** ** Facts about the Python operations *)
(* ===================================================================== *)

Module PyFacts.

Ltac compare_cases :=
  repeat match goal with
  | H : context [Z.compare ?a ?b] |- _ => destruct (Z.compare_spec a b)
  | |- context [Z.compare ?a ?b] => destruct (Z.compare_spec a b)
  | H : context [Pos.compare ?a ?b] |- _ => destruct (Pos.compare_spec a b)
  | |- context [Pos.compare ?a ?b] => destruct (Pos.compare_spec a b)
  end.

(** The order of the specification of binary64 is transitive: signs first,
    then exponents, then mantissas. *)
Lemma SFltb_trans (x y z : spec_float) :
  SFltb x y = true -> SFltb y z = true -> SFltb x z = true.
Proof.
  unfold SFltb, SFcompare.
  destruct x as [[]|[]| |[] m1 e1], y as [[]|[]| |[] m2 e2],
           z as [[]|[]| |[] m3 e3];
    try (intros; discriminate); try reflexivity;
    change (PosDef.Pos.compare_cont Eq) with Pos.compare;
    intros H1 H2; compare_cases; simpl in *;
    try discriminate; try reflexivity; lia.
Qed.

(** [x < y] and [y < z] give [x < z] on floats (no NaN can be involved). *)
Lemma ltb_trans (x y z : float) :
  PrimFloat.ltb x y = true -> PrimFloat.ltb y z = true ->
  PrimFloat.ltb x z = true.
Proof. rewrite !ltb_spec. apply SFltb_trans. Qed.

(** [c < x] and [x < y] give [c < y], read with [>]. *)
Lemma gtb_mono (c x y : float) :
  PrimFloat.ltb x y = true -> gtb x c = true -> gtb y c = true.
Proof. unfold gtb. intros Hxy Hcx. exact (ltb_trans c x y Hcx Hxy). Qed.

(** A float is a NaN exactly when its specification is. *)
Lemma is_nan_spec (x : float) :
  is_nan x = match Prim2SF x with S754_nan => true | _ => false end.
Proof.
  unfold is_nan. rewrite FloatAxioms.eqb_spec. unfold SFeqb, SFcompare.
  destruct (Prim2SF x) as [[]|[]| |[] m e]; try reflexivity;
    change (PosDef.Pos.compare_cont Eq) with Pos.compare;
    now rewrite Z.compare_refl, Pos.compare_refl.
Qed.

(** Case analysis on every test of the goal. *)
Ltac split_tests :=
  repeat match goal with
  | |- context [if ?b then _ else _] => destruct b
  end.

(** Unfolding of the bind of [result]. *)
Lemma bind_Ok {A B} (a : A) (f : A -> result B) : (Ok a ≫= f) = f a.
Proof. reflexivity. Qed.

Lemma bind_Raise {A B} (e : exception) (f : A -> result B) :
  (Raise e ≫= f) = Raise e.
Proof. reflexivity. Qed.

Lemma bind_returns {A B} (m : result A) (f : A -> result B) (b : B) :
  (m ≫= f) = Ok b -> exists a, m = Ok a /\ f a = Ok b.
Proof. destruct m as [a|e]; [ exists a; auto | discriminate ]. Qed.

(** [d.get] after a write to the same key and to another key. *)
Lemma dict_get_insert {V} (d : gmap string V) (k : string) (v dflt : V) :
  dict_get (<[k := v]> d) k dflt = v.
Proof. unfold dict_get. now rewrite lookup_insert_eq. Qed.

Lemma dict_get_insert_ne {V} (d : gmap string V) (k k' : string) (v dflt : V) :
  k <> k' -> dict_get (<[k := v]> d) k' dflt = dict_get d k' dflt.
Proof. intros Hne. unfold dict_get. now rewrite lookup_insert_ne. Qed.

(** The quotient by the length of a non-empty list never raises. *)
Lemma truediv_int_length {A} (x : float) (a : A) (l : list A) :
  truediv_int x (Z.of_nat (length (a :: l)))
  = Ok (PrimFloat.div x (float_of_Z (Z.of_nat (length (a :: l))))).
Proof.
  unfold truediv_int.
  destruct (Z.eqb_spec (Z.of_nat (length (a :: l))) 0) as [E|_];
    [ simpl in E; lia | reflexivity ].
Qed.

End PyFacts.

(* ===================================================================== *)
(** ** Properties of [validate_business_rules] and of the sample run *)
(* ===================================================================== *)

Module BusinessOpsFacts.
Import PyFacts BusinessOps.

Abbreviation PROCUREMENT := "procurement_validation_routing"%string.
Abbreviation INVOICING := "three_way_match_and_payment"%string.

(** *** The shape of a result *)

(** The level of a result is the classification of its risk score, and the
    review flag is set exactly on YELLOW and RED. *)
Lemma validate_returns_classified self env input_data pathway r :
  validate_business_rules self env input_data pathway = Ok r ->
  compliance_status r = classify_risk (risk_score r)
  /\ requires_human_review r = in_yellow_red (compliance_status r).
Proof.
  unfold validate_business_rules. intros H.
  apply bind_returns in H as ([[rules findings] risks] & _ & H).
  apply bind_returns in H as (avg & _ & H).
  apply bind_returns in H as (checked & _ & H).
  injection H as <-. split; reflexivity.
Qed.

(** On a pathway other than the two tested, [rules] is unbound when the
    audit trail is built. *)
Lemma validate_other_pathway self env input_data pathway :
  String.eqb pathway PROCUREMENT = false ->
  String.eqb pathway INVOICING = false ->
  validate_business_rules self env input_data pathway
  = Raise UnboundLocalError.
Proof.
  intros Hp Hi. unfold validate_business_rules. now rewrite Hp, Hi.
Qed.

(** The decision depends on the table, the input and the pathway only. *)
Lemma decision_frame self1 self2 env1 env2 input_data pathway :
  compliance_rules self1 = compliance_rules self2 ->
  decision_of (validate_business_rules self1 env1 input_data pathway)
  = decision_of (validate_business_rules self2 env2 input_data pathway).
Proof.
  intros Hrules. unfold validate_business_rules. rewrite Hrules.
  destruct (if String.eqb pathway PROCUREMENT then _ else _)
    as [[[[checked|] findings] risks]|e]; cbn [mbind result_bind];
    try reflexivity;
    destruct (average_risk risks) as [avg|e]; reflexivity.
Qed.

(** No call changes the table. *)
Lemma step_compliance_rules self c :
  compliance_rules (step self c) = compliance_rules self.
Proof.
  destruct c as [env []]; cbn [step]; try reflexivity.
  unfold execute_task. destruct (_ && _); [ reflexivity | ].
  now destruct (completion_time _ _).
Qed.

Lemma run_compliance_rules calls : forall self,
  compliance_rules (run self calls) = compliance_rules self.
Proof.
  unfold run. induction calls as [|c calls IH]; intros self; [ reflexivity | ].
  cbn [fold_left]. now rewrite IH, step_compliance_rules.
Qed.

(** *** The averaging step *)

Lemma average_risk_nil : average_risk [] = Ok 0%float.
Proof. reflexivity. Qed.

(** The averaging step never raises: it divides by the length of a
    non-empty list only. *)
Lemma average_risk_returns (risk_scores : list float) :
  returns (average_risk risk_scores).
Proof.
  destruct risk_scores as [|x l]; [ now exists 0%float | ].
  unfold average_risk. rewrite truediv_int_length. now eexists.
Qed.

(** A result without findings has risk 0, is GREEN and asks for no
    review. *)
Lemma no_findings_is_green self env input_data pathway r :
  validate_business_rules self env input_data pathway = Ok r ->
  rule_violations r = [] ->
  risk_score r = 0%float /\ compliance_status r = GREEN
  /\ requires_human_review r = false.
Proof.
  unfold validate_business_rules.
  destruct (String.eqb pathway PROCUREMENT).
  - unfold procurement_branch.
    destruct (vendor_whitelist_check _);
      [ destruct (dict_get _ _ _) as [rating|[]|?];
        cbn [py_lt as_number mbind result_bind] | ];
      split_tests; vm_compute; intros H; try discriminate;
      injection H as <-; intros; try discriminate; auto.
  - destruct (String.eqb pathway INVOICING); [ | discriminate ].
    unfold invoicing_branch.
    destruct (dict_get _ "po_invoice_variance" _) as [variance|[]|?];
      cbn [py_gt as_number mbind result_bind];
      split_tests; vm_compute; intros H; try discriminate;
      injection H as <-; intros; try discriminate; auto.
Qed.

(** *** Monotonicity in the signal *)

(** C2, as stated, fails: with the duplicate flag set, the invoice of
    variance 0.01 is RED (the average of the single risk 1.0) and the
    invoice of variance 0.03 is YELLOW (the average of 0.4 and 1.0 is 0.7,
    which is not above 0.7). *)
Lemma duplicate_invoices_break_monotonicity :
  PrimFloat.ltb 0.01 0.03 = true
  /\ decision_of (validate_business_rules sample_vaa
                    env0 (with_variance duplicate_invoice 0.01) INVOICING)
     = Ok (RED, 1.0%float, [duplicate_invoice_detected], true)
  /\ decision_of (validate_business_rules sample_vaa
                    env0 (with_variance duplicate_invoice 0.03) INVOICING)
     = Ok (YELLOW, 0.7%float,
           [variance_requires_review (PyNum 0.03);
            duplicate_invoice_detected], true)
  /\ severity YELLOW < severity RED.
Proof. repeat split; try reflexivity. vm_compute. lia. Qed.

(** C2, amended: on every pathway and for every table and metadata, a
    larger procurement amount never lowers the severity of the returned
    level, and a larger invoice variance never lowers it when the invoice
    is not flagged as a duplicate (two calls that raise raise alike). *)
Theorem severity_monotone_in_the_signal :
  (forall self env1 env2 input_data pathway a1 a2,
      PrimFloat.ltb a1 a2 = true ->
      no_more_severe
        (validate_business_rules self env1 (with_amount input_data a1)
                                 pathway)
        (validate_business_rules self env2 (with_amount input_data a2)
                                 pathway))
  /\ (forall self env1 env2 input_data pathway v1 v2,
         truthy (dict_get (metadata input_data) "is_duplicate"
                          (PyBool false)) = false ->
         PrimFloat.ltb v1 v2 = true ->
         no_more_severe
           (validate_business_rules self env1 (with_variance input_data v1)
                                    pathway)
           (validate_business_rules self env2 (with_variance input_data v2)
                                    pathway)).
Proof.
  split.
  - intros self env1 env2 input_data pathway a1 a2 Hlt.
    unfold validate_business_rules.
    destruct (String.eqb pathway PROCUREMENT).
    + unfold procurement_branch. cbn [amount metadata with_amount].
      pose proof (gtb_mono (requires_review_above
                              (procurement (compliance_rules self)))
                           a1 a2 Hlt) as Hhi.
      pose proof (gtb_mono (max_autonomous_approval
                              (procurement (compliance_rules self)))
                           a1 a2 Hlt) as Hlo.
      destruct (gtb a1 (requires_review_above _)),
               (gtb a2 (requires_review_above _)),
               (gtb a1 (max_autonomous_approval _)),
               (gtb a2 (max_autonomous_approval _));
        try specialize (Hhi eq_refl); try specialize (Hlo eq_refl);
        try discriminate;
        destruct (vendor_whitelist_check _);
        try (destruct (dict_get _ _ _) as [rating|[]|?];
             cbn [py_lt as_number mbind result_bind]);
        try destruct (PrimFloat.ltb _ 3.5);
        vm_compute; try reflexivity; lia.
    + destruct (String.eqb pathway INVOICING); [ | reflexivity ].
      change (invoicing_branch ?r (with_amount ?i _))
        with (invoicing_branch r i).
      destruct (invoicing_branch _ _) as [[[checked findings] risks]|e];
        [ | reflexivity ].
      cbn [mbind result_bind].
      destruct (average_risk risks) as [avg|e]; [ | reflexivity ].
      cbn. lia.
  - intros self env1 env2 input_data pathway v1 v2 Hdup Hlt.
    unfold validate_business_rules.
    destruct (String.eqb pathway PROCUREMENT).
    + unfold procurement_branch. cbn [amount metadata with_variance].
      rewrite !dict_get_insert_ne by discriminate.
      destruct (dict_get (metadata input_data) "vendor_rating" (PyNum 0))
        as [rating|[]|?];
        cbn [py_lt as_number mbind result_bind];
        split_tests; vm_compute; try reflexivity; lia.
    + destruct (String.eqb pathway INVOICING); [ | reflexivity ].
      unfold invoicing_branch. cbn [metadata with_variance].
      rewrite !dict_get_insert, !dict_get_insert_ne, Hdup by discriminate.
      cbn [py_gt as_number mbind result_bind].
      pose proof (gtb_mono (escalate_variance_above
                              (invoicing (compliance_rules self)))
                           v1 v2 Hlt) as Hhi.
      destruct (gtb v1 (escalate_variance_above _));
        [ rewrite (Hhi eq_refl) | clear Hhi ];
        cbn [mbind result_bind]; split_tests;
        vm_compute; try reflexivity; lia.
Qed.

(** The amounts 60000 < 120000 of the sample request, and the variances
    0.01 < 0.06 of an invoice that is no duplicate. *)
Lemma severity_monotone_in_the_signal_witness :
  (PrimFloat.ltb 60000 120000 = true
   /\ no_more_severe
        (validate_business_rules sample_vaa env0
                                 (with_amount sample_input 60000) PROCUREMENT)
        (validate_business_rules sample_vaa env0
                                 (with_amount sample_input 120000)
                                 PROCUREMENT))
  /\ (truthy (dict_get (metadata sample_input) "is_duplicate" (PyBool false))
      = false
      /\ PrimFloat.ltb 0.01 0.06 = true
      /\ no_more_severe
           (validate_business_rules sample_vaa env0
                                    (with_variance sample_input 0.01)
                                    INVOICING)
           (validate_business_rules sample_vaa env0
                                    (with_variance sample_input 0.06)
                                    INVOICING)).
Proof.
  split; [ split; [ reflexivity | ] | split; [ reflexivity | split;
                                                 [ reflexivity | ] ] ].
  - apply (proj1 severity_monotone_in_the_signal). reflexivity.
  - apply (proj2 severity_monotone_in_the_signal); reflexivity.
Defined.

(** *** Values on a bound *)

(** C1: a value equal to a bound stays on the less severe side.  With the
    table of the constructor and a numeric (or absent) vendor rating, the
    amount 50000 adds no amount finding, the amount 100000 adds the
    semi-autonomous finding alone (risk 0.5, so the average is 0.5, or 0.6
    next to the vendor's 0.7), and a result whose risk score is exactly 0.4
    is GREEN and one whose risk score is exactly 0.7 is YELLOW. *)
Theorem boundary_values_take_the_lower_side :
  forall self env input_data rating,
    compliance_rules self = _initialize_compliance_rules ->
    as_number (dict_get (metadata input_data) "vendor_rating" (PyNum 0))
    = Ok rating ->
    (amount input_data = 50000%float ->
     exists r,
       validate_business_rules self env input_data PROCUREMENT = Ok r
       /\ List.filter is_amount_finding (rule_violations r) = []
       /\ risk_score r = (if PrimFloat.ltb rating 3.5 then 0.7 else 0)%float
       /\ compliance_status r
          = (if PrimFloat.ltb rating 3.5 then YELLOW else GREEN))
    /\ (amount input_data = 100000%float ->
        exists r,
          validate_business_rules self env input_data PROCUREMENT = Ok r
          /\ List.filter is_amount_finding (rule_violations r)
             = [amount_in_semi_autonomous_range 100000]
          /\ risk_score r
             = (if PrimFloat.ltb rating 3.5 then 0.6 else 0.5)%float
          /\ compliance_status r = YELLOW)
    /\ (forall pathway r,
           validate_business_rules self env input_data pathway = Ok r ->
           (risk_score r = 0.4%float -> compliance_status r = GREEN)
           /\ (risk_score r = 0.7%float -> compliance_status r = YELLOW)).
Proof.
  intros self env input_data rating Hrules Hrating. repeat split.
  - intros Hamount.
    unfold validate_business_rules, procurement_branch.
    rewrite Hrules, Hamount.
    cbn [String.eqb Ascii.eqb Bool.eqb procurement _initialize_compliance_rules
         requires_review_above max_autonomous_approval
         vendor_whitelist_check].
    unfold py_lt. rewrite Hrating. cbn [mbind result_bind].
    destruct (PrimFloat.ltb rating 3.5); eexists; repeat split.
  - intros Hamount.
    unfold validate_business_rules, procurement_branch.
    rewrite Hrules, Hamount.
    cbn [String.eqb Ascii.eqb Bool.eqb procurement _initialize_compliance_rules
         requires_review_above max_autonomous_approval
         vendor_whitelist_check].
    unfold py_lt. rewrite Hrating. cbn [mbind result_bind].
    destruct (PrimFloat.ltb rating 3.5); eexists; repeat split.
  - intros Hrisk. apply validate_returns_classified in H as [-> _].
    now rewrite Hrisk.
  - intros Hrisk. apply validate_returns_classified in H as [-> _].
    now rewrite Hrisk.
Qed.

(** The sample request with the amounts 50000 and 100000; the same request
    as an invoice of variance 0.03, whose risk score is 0.4; and a request
    of 50000 without a vendor rating, whose risk score is 0.7. *)
Lemma boundary_values_take_the_lower_side_witness :
  (exists r,
      validate_business_rules sample_vaa env0
                              (with_amount sample_input 50000) PROCUREMENT
      = Ok r
      /\ List.filter is_amount_finding (rule_violations r) = []
      /\ risk_score r = 0%float
      /\ compliance_status r = GREEN)
  /\ (exists r,
         validate_business_rules sample_vaa env0
                                 (with_amount sample_input 100000) PROCUREMENT
         = Ok r
         /\ List.filter is_amount_finding (rule_violations r)
            = [amount_in_semi_autonomous_range 100000]
         /\ risk_score r = 0.5%float
         /\ compliance_status r = YELLOW)
  /\ (exists r,
         validate_business_rules sample_vaa env0
                                 (with_variance sample_input 0.03) INVOICING
         = Ok r
         /\ risk_score r = 0.4%float
         /\ compliance_status r = GREEN)
  /\ (exists r,
         validate_business_rules sample_vaa env0
                                 (with_amount compliance_check_input 50000)
                                 PROCUREMENT
         = Ok r
         /\ risk_score r = 0.7%float
         /\ compliance_status r = YELLOW).
Proof.
  split; [ | split; [ | split ] ].
  - exact (proj1 (boundary_values_take_the_lower_side
                    sample_vaa env0
                    (with_amount sample_input 50000) 4.2%float
                    eq_refl eq_refl) eq_refl).
  - exact (proj1 (proj2 (boundary_values_take_the_lower_side
                           sample_vaa env0
                           (with_amount sample_input 100000) 4.2%float
                           eq_refl eq_refl)) eq_refl).
  - eexists. split; [ reflexivity | split; [ reflexivity | ] ].
    exact (proj1 (proj2 (proj2 (boundary_values_take_the_lower_side
                                  sample_vaa env0
                                  (with_variance sample_input 0.03)
                                  4.2%float eq_refl eq_refl))
                        INVOICING _ eq_refl) eq_refl).
  - eexists. split; [ reflexivity | split; [ reflexivity | ] ].
    exact (proj2 (proj2 (proj2 (boundary_values_take_the_lower_side
                                  sample_vaa env0
                                  (with_amount compliance_check_input 50000)
                                  0%float eq_refl eq_refl))
                        PROCUREMENT _ eq_refl) eq_refl).
Defined.

(** The other bounds of the table behave alike: a vendor rating of exactly
    3.5 adds no finding to those of the amount, an invoice variance of
    exactly 0.02 adds no variance finding, and one of exactly 0.05 adds the
    review finding (risk 0.4), not the escalation finding (risk 0.8). *)
Lemma rating_and_variance_bounds_take_the_lower_side self env input_data :
  compliance_rules self = _initialize_compliance_rules ->
  (dict_get (metadata input_data) "vendor_rating" (PyNum 0) = PyNum 3.5 ->
   exists r,
     validate_business_rules self env input_data PROCUREMENT = Ok r
     /\ List.filter is_amount_finding (rule_violations r) = rule_violations r)
  /\ (dict_get (metadata input_data) "po_invoice_variance" (PyNum 0)
      = PyNum 0.02 ->
      exists r,
        validate_business_rules self env input_data INVOICING = Ok r
        /\ List.filter is_variance_finding (rule_violations r) = [])
  /\ (dict_get (metadata input_data) "po_invoice_variance" (PyNum 0)
      = PyNum 0.05 ->
      exists r,
        validate_business_rules self env input_data INVOICING = Ok r
        /\ List.filter is_variance_finding (rule_violations r)
           = [variance_requires_review (PyNum 0.05)]).
Proof.
  intros Hrules. repeat split; intros Hvalue;
    unfold validate_business_rules, procurement_branch, invoicing_branch;
    rewrite Hrules, Hvalue;
    cbn; split_tests; eexists; split; reflexivity.
Qed.

(** *** Determinism *)

(** C7: the level, the risk score, the findings and the review flag that
    [validate_business_rules] returns (or the exception it raises) are the
    same for two objects with the same table, whatever calls were made on
    either before and whatever the clock and the identifiers are. *)
Theorem validation_is_deterministic :
  forall self1 self2 calls1 calls2 env1 env2 input_data pathway,
    compliance_rules self1 = compliance_rules self2 ->
    decision_of (validate_business_rules (run self1 calls1) env1 input_data
                                         pathway)
    = decision_of (validate_business_rules (run self2 calls2) env2 input_data
                                           pathway).
Proof.
  intros. apply decision_frame. now rewrite !run_compliance_rules.
Qed.

(** An object on which a task was escalated and a fresh object with other
    names, read at two different clocks. *)
Lemma validation_is_deterministic_witness :
  decision_of
    (validate_business_rules
       (run sample_vaa
            [(env0, call_execute_task sample_input sample_classification
                      sample_check sample_allocation None)])
       env0 sample_input PROCUREMENT)
  = decision_of
      (validate_business_rules (run (__init__ "BOPS_VAA_002" "SOX") [])
                               later_env sample_input PROCUREMENT).
Proof.
  exact (validation_is_deterministic
           sample_vaa (__init__ "BOPS_VAA_002" "SOX")
           [(env0, call_execute_task sample_input sample_classification
                     sample_check sample_allocation None)] []
           env0 later_env sample_input PROCUREMENT eq_refl).
Defined.

(** *** Empty aggregation and the unbound [rules] *)

(** C3 fails on the code: the input type [compliance_check] is classified
    into the pathway [regulatory_assessment]; no rule runs and the list of
    risk scores is empty, the averaging step gives 0.0, and the call then
    raises [UnboundLocalError] instead of returning a GREEN result. *)
Theorem compliance_check_is_not_validated :
  forall env1 env2,
    (exists classification,
        classify_input sample_vaa env1
                       compliance_check_input
        = Ok ("regulatory_assessment"%string, classification))
    /\ average_risk [] = Ok 0%float
    /\ validate_business_rules sample_vaa env2
                               compliance_check_input "regulatory_assessment"
       = Raise UnboundLocalError.
Proof.
  intros env1 env2. split; [ | split; reflexivity ].
  eexists. unfold classify_input. reflexivity.
Qed.

(** *** Errors *)

(** C4, as stated, fails: a NaN, an infinite and a negative amount are
    evaluated like any other value, and nothing is raised. *)
Lemma non_finite_and_negative_amounts_are_evaluated :
  decision_of (validate_business_rules sample_vaa
                 env0 (with_amount sample_input nan) PROCUREMENT)
  = Ok (GREEN, 0%float, [], false)
  /\ decision_of (validate_business_rules
                    sample_vaa
                    env0 (with_amount sample_input infinity) PROCUREMENT)
     = Ok (RED, 0.9%float, [amount_exceeds_review_threshold infinity], true)
  /\ decision_of (validate_business_rules
                    sample_vaa
                    env0 (with_amount sample_input (-1)) PROCUREMENT)
     = Ok (GREEN, 0%float, [], false).
Proof. repeat split. Qed.

(** The two pathways return for every float amount when the rating, or the
    variance, is a number. *)
Lemma procurement_returns self env input_data rating :
  as_number (dict_get (metadata input_data) "vendor_rating" (PyNum 0))
  = Ok rating ->
  returns (validate_business_rules self env input_data PROCUREMENT).
Proof.
  intros Hrating.
  unfold validate_business_rules, procurement_branch, py_lt.
  rewrite Hrating. cbn [String.eqb Ascii.eqb Bool.eqb mbind result_bind].
  split_tests; now eexists.
Qed.

Lemma invoicing_returns self env input_data variance :
  as_number (dict_get (metadata input_data) "po_invoice_variance" (PyNum 0))
  = Ok variance ->
  returns (validate_business_rules self env input_data INVOICING).
Proof.
  intros Hvariance.
  unfold validate_business_rules, invoicing_branch, py_gt.
  rewrite Hvariance. cbn [String.eqb Ascii.eqb Bool.eqb mbind result_bind].
  split_tests; now eexists.
Qed.

(** A call that returns does not raise. *)
Lemma returns_not_Raise {A} (r : result A) e : returns r -> r <> Raise e.
Proof. intros [a ->]. discriminate. Qed.

(** C4, amended: the constructor takes no table and installs the fixed
    one; on the procurement and on the invoicing pathway
    [validate_business_rules] returns a result for every float amount and
    for every vendor rating and variance that is a number, finite or not,
    in any range.  The exceptions of a call are those of the interpreter,
    and they reach the caller: [TypeError] on these two pathways, where the
    rating or the variance is a text, and [UnboundLocalError] on every
    other pathway. *)
Theorem validation_accepts_every_signal :
  (forall vaa_id regulatory_framework,
      compliance_rules (__init__ vaa_id regulatory_framework)
      = _initialize_compliance_rules)
  /\ (forall self env input_data rating,
         as_number (dict_get (metadata input_data) "vendor_rating" (PyNum 0))
         = Ok rating ->
         returns (validate_business_rules self env input_data PROCUREMENT))
  /\ (forall self env input_data variance,
         as_number (dict_get (metadata input_data) "po_invoice_variance"
                             (PyNum 0)) = Ok variance ->
         returns (validate_business_rules self env input_data INVOICING))
  /\ (forall self env input_data pathway e,
         validate_business_rules self env input_data pathway = Raise e ->
         (pathway = PROCUREMENT /\ e = TypeError
          /\ exists text,
               dict_get (metadata input_data) "vendor_rating" (PyNum 0)
               = PyStr text)
         \/ (pathway = INVOICING /\ e = TypeError
             /\ exists text,
                  dict_get (metadata input_data) "po_invoice_variance"
                           (PyNum 0)
                  = PyStr text)
         \/ (pathway <> PROCUREMENT /\ pathway <> INVOICING
             /\ e = UnboundLocalError)).
Proof.
  split; [ reflexivity | ].
  split; [ exact procurement_returns | ].
  split; [ exact invoicing_returns | ].
  intros self env input_data pathway e Hraise.
  destruct (String.eqb_spec pathway PROCUREMENT) as [->|Hp];
    [ | destruct (String.eqb_spec pathway INVOICING) as [->|Hi] ].
  - left. split; [ reflexivity | ].
    destruct (dict_get (metadata input_data) "vendor_rating" (PyNum 0))
      as [x|b|text] eqn:Hrating;
      try (exfalso; revert Hraise; apply returns_not_Raise;
           eapply procurement_returns; rewrite Hrating; reflexivity).
    split; [ | now exists text ].
    revert Hraise.
    unfold validate_business_rules, procurement_branch, py_lt.
    rewrite Hrating.
    cbn [String.eqb Ascii.eqb Bool.eqb as_number mbind result_bind].
    split_tests; cbn [mbind result_bind]; try congruence;
      match goal with
      | |- context [average_risk ?l] =>
          destruct (average_risk_returns l) as [avg ->]
      end;
      discriminate.
  - right. left. split; [ reflexivity | ].
    destruct (dict_get (metadata input_data) "po_invoice_variance" (PyNum 0))
      as [x|b|text] eqn:Hvariance;
      try (exfalso; revert Hraise; apply returns_not_Raise;
           eapply invoicing_returns; rewrite Hvariance; reflexivity).
    split; [ | now exists text ].
    revert Hraise.
    unfold validate_business_rules, invoicing_branch, py_gt.
    rewrite Hvariance.
    cbn [String.eqb Ascii.eqb Bool.eqb as_number mbind result_bind].
    congruence.
  - right. right. split; [ assumption | split; [ assumption | ] ].
    rewrite validate_other_pathway in Hraise
      by (now apply String.eqb_neq).
    congruence.
Qed.

(** The sample request with a NaN amount, the same request as an invoice
    with an infinite variance, and the sample request with a rating in
    words. *)
Lemma validation_accepts_every_signal_witness :
  returns (validate_business_rules sample_vaa env0
                                   (with_amount sample_input nan) PROCUREMENT)
  /\ returns (validate_business_rules sample_vaa
                 env0 (with_variance sample_input infinity) INVOICING)
  /\ exists text,
       dict_get (metadata (with_rating sample_input (PyStr "excellent")))
                "vendor_rating" (PyNum 0)
       = PyStr text.
Proof.
  split; [ | split ].
  - exact (proj1 (proj2 validation_accepts_every_signal)
                 sample_vaa env0
                 (with_amount sample_input nan) 4.2%float eq_refl).
  - exact (proj1 (proj2 (proj2 validation_accepts_every_signal))
                 sample_vaa env0
                 (with_variance sample_input infinity) infinity eq_refl).
  - destruct (proj2 (proj2 (proj2 validation_accepts_every_signal))
                sample_vaa env0
                (with_rating sample_input (PyStr "excellent")) PROCUREMENT
                TypeError eq_refl)
      as [(_ & _ & Htext)|[(Habs & _)|(Habs & _)]];
      [ exact Htext | discriminate Habs | now contradiction Habs ].
Defined.

(** *** The sample run *)

(** C5, as stated, fails in its last part: the sample run, which passes no
    human approval, is escalated. *)
Lemma sample_run_is_escalated :
  exists compliance_check execution vaa,
    sample_run env0 env0 env0 env0 None = Ok (compliance_check, execution, vaa)
    /\ compliance_status compliance_check = YELLOW
    /\ requires_human_review compliance_check = true
    /\ status execution = "escalated"%string
    /\ length (escalation_queue vaa) = 1
    /\ process_log vaa = [].
Proof. do 3 eexists. split; [ vm_compute; reflexivity | repeat split ]. Qed.

(** The sample request asks for 1.5 hours, which are 5400000000
    microseconds. *)
Lemma sample_hours : timedelta_hours (PyNum 1.5) = Ok 5400000000%Z.
Proof. vm_compute. reflexivity. Qed.

(** C5, amended: whatever the clock, the identifiers and the random draws
    are, the amount 75000 with the vendor rating 4.2 records exactly the
    semi-autonomous finding, with risk 0.5 and level YELLOW, which asks for
    a human review; without an approval [execute_task] escalates the task
    and appends it to the escalation queue, and with an approval it executes
    it and appends it to the process log.  The one run that returns nothing
    is the approved one whose expected completion, 1.5 hours after the
    clock reading, is beyond the last [datetime]: it raises
    [OverflowError] after the same validation. *)
Theorem sample_run_is_yellow_and_needs_approval :
  forall env1 env2 env3 env4 human_approval,
    match human_approval, datetime_add (now env4 1) 5400000000 with
    | Some _, Raise e =>
        sample_run env1 env2 env3 env4 human_approval = Raise e
        /\ e = OverflowError
        /\ exists compliance_check,
             validate_business_rules sample_vaa env2 sample_input PROCUREMENT
             = Ok compliance_check
             /\ decision compliance_check
                = (YELLOW, 0.5%float,
                   [amount_in_semi_autonomous_range 75000], true)
    | _, _ =>
        exists compliance_check execution vaa,
          sample_run env1 env2 env3 env4 human_approval
          = Ok (compliance_check, execution, vaa)
          /\ decision compliance_check
             = (YELLOW, 0.5%float, [amount_in_semi_autonomous_range 75000],
                true)
          /\ status execution
             = (if is_None human_approval then "escalated"
                else "executing")%string
          /\ length (escalation_queue vaa)
             = (if is_None human_approval then 1 else 0)
          /\ length (process_log vaa)
             = (if is_None human_approval then 0 else 1)
    end.
Proof.
  intros env1 env2 env3 env4 [approver|].
  - assert (exists classification,
               classify_input sample_vaa env1 sample_input
               = Ok (PROCUREMENT, classification)) as [classification Hclass]
      by (eexists; reflexivity).
    assert (exists compliance_check,
               validate_business_rules sample_vaa env2 sample_input PROCUREMENT
               = Ok compliance_check
               /\ decision compliance_check
                  = (YELLOW, 0.5%float,
                     [amount_in_semi_autonomous_range 75000], true))
      as (compliance_check & Hcheck & Hdecision)
      by (eexists; split; reflexivity).
    unfold sample_run. rewrite Hclass. cbn [mbind result_bind].
    rewrite Hcheck. cbn [mbind result_bind].
    unfold execute_task, completion_time. cbn [is_None].
    rewrite andb_false_r.
    replace (estimated_hours (allocate_resources _ _ _ _ _))
      with (PyNum 1.5) by reflexivity.
    rewrite sample_hours. cbn [mbind result_bind].
    unfold datetime_add.
    destruct (_ && _); cbn [mbind result_bind].
    + do 3 eexists. split; [ reflexivity | ]. split; [ exact Hdecision | ].
      cbn [is_None process_log escalation_queue status sample_vaa __init__].
      rewrite length_app. repeat split.
    + split; [ reflexivity | split; [ reflexivity | ] ]. now exists compliance_check.
  - do 3 eexists. split; [ unfold sample_run; reflexivity | repeat split ].
Qed.
End BusinessOpsFacts.

(* ===================================================================== *)
(** ** Properties of the inventory recommendations *)
(* ===================================================================== *)

Module SupplyChainFacts.
Import PyFacts SupplyChain.

(** The two fields of a recommendation that carry the decision. *)
Lemma recommendation_fields self env forecast current_inventory lead_time_days
    safety_stock_factor action :
  generate_inventory_recommendation self env forecast current_inventory
    lead_time_days safety_stock_factor = Ok action ->
  confidence_score action = accuracy_metric forecast
  /\ decision_level action
     = _determine_decision_level self (confidence_score action)
         (action_type action) (requires_approval action).
Proof.
  unfold generate_inventory_recommendation. intros H.
  apply bind_returns in H as (daily_demand & _ & H).
  apply bind_returns in H as (lead_time_demand & _ & H).
  apply bind_returns in H as (scaled & _ & H).
  apply bind_returns in H as (safety_stock & _ & H).
  apply bind_returns in H as (reorder_point & _ & H).
  apply bind_returns in H as ([kind qty] & _ & H).
  injection H as <-. split; reflexivity.
Qed.

(** A forecast over zero days has no daily demand. *)
Lemma zero_horizon_raises self env forecast current_inventory lead_time_days
    safety_stock_factor :
  horizon_days forecast = 0%Z ->
  generate_inventory_recommendation self env forecast current_inventory
    lead_time_days safety_stock_factor = Raise ZeroDivisionError.
Proof.
  intros Hzero. unfold generate_inventory_recommendation, int_truediv.
  now rewrite Hzero.
Qed.

Lemma DecisionLevel_eqb_eq (a b : DecisionLevel) :
  DecisionLevel_eqb a b = true <-> a = b.
Proof. destruct a, b; split; (reflexivity || discriminate). Qed.

(** C9: in every recommendation that is produced, an action that requires
    approval is labelled ESCALATION when its confidence is below 0.65 and
    HUMAN_REVIEW otherwise; an action that does not is labelled AUTONOMOUS
    or SEMI_AUTONOMOUS, AUTONOMOUS exactly when the object is configured
    AUTONOMOUS and the confidence is above 0.85, and so never HUMAN_REVIEW
    or ESCALATION. *)
Theorem decision_level_is_consistent :
  forall self env forecast current_inventory lead_time_days
         safety_stock_factor action,
    generate_inventory_recommendation self env forecast current_inventory
      lead_time_days safety_stock_factor = Ok action ->
    (requires_approval action = true ->
     decision_level action
     = (if PrimFloat.ltb (confidence_score action) 0.65 then ESCALATION
        else HUMAN_REVIEW))
    /\ (requires_approval action = false ->
        (decision_level action = AUTONOMOUS
         \/ decision_level action = SEMI_AUTONOMOUS)
        /\ (decision_level action = AUTONOMOUS <->
            autonomy_level self = AUTONOMOUS
            /\ gtb (confidence_score action) 0.85 = true)
        /\ decision_level action <> HUMAN_REVIEW
        /\ decision_level action <> ESCALATION).
Proof.
  intros self env forecast current_inventory lead_time_days
         safety_stock_factor action H.
  apply recommendation_fields in H as [_ ->].
  unfold _determine_decision_level. split; intros ->; [ reflexivity | ].
  destruct (DecisionLevel_eqb (autonomy_level self) AUTONOMOUS) eqn:Hlevel;
    destruct (gtb (confidence_score action) 0.85) eqn:Hconf; cbn;
    rewrite <- ?DecisionLevel_eqb_eq, ?Hlevel;
    repeat split; auto; try discriminate; intros []; discriminate.
Qed.

(** The sample forecast with an inventory of 2000, which is reordered and
    requires approval, and with an inventory of 5000, which is maintained
    and does not. *)
Lemma decision_level_is_consistent_witness :
  (generate_inventory_recommendation
     sample_vaa env0
     sample_forecast 2000 14 0.2 = Ok sample_action
   /\ requires_approval sample_action = true
   /\ decision_level sample_action
      = (if PrimFloat.ltb (confidence_score sample_action) 0.65
         then ESCALATION else HUMAN_REVIEW))
  /\ (exists action,
         generate_inventory_recommendation
           sample_vaa env0
           sample_forecast 5000 14 0.2 = Ok action
         /\ requires_approval action = false
         /\ (decision_level action = AUTONOMOUS
             \/ decision_level action = SEMI_AUTONOMOUS)).
Proof.
  split.
  - split; [ reflexivity | split; [ reflexivity | ] ].
    exact (proj1 (decision_level_is_consistent
                    sample_vaa
                    env0 sample_forecast 2000 14 0.2%float sample_action
                    eq_refl) eq_refl).
  - eexists. split; [ reflexivity | split; [ reflexivity | ] ].
    exact (proj1 (proj2 (decision_level_is_consistent
                           sample_vaa
                           env0 sample_forecast 5000 14 0.2%float _
                           eq_refl) eq_refl)).
Defined.

(** An empty list of recent errors is reported as no drift, before any
    quotient is formed; a non-empty one never divides by zero. *)
Lemma monitor_learning_drift_nil self env threshold :
  monitor_learning_drift self env [] threshold
  = Ok {| drift_detected := false;
          action := "continue_monitoring";
          details := None |}.
Proof. reflexivity. Qed.

Lemma monitor_learning_drift_returns self env recent_errors threshold :
  returns (monitor_learning_drift self env recent_errors threshold).
Proof.
  destruct recent_errors as [|x l]; [ now eexists | ].
  unfold monitor_learning_drift. rewrite truediv_int_length.
  cbn [mbind result_bind]. now eexists.
Qed.

End SupplyChainFacts.

(* ===================================================================== *)
(** ** The logs and the escalation queues *)
(* ===================================================================== *)

Module LogFacts.
Import PyFacts.

(** *** One call *)

(** [execute_inventory_action], by the test of its first line. *)
Lemma execute_inventory_action_cases self env action approved_by_planner :
  let '(outcome, self') :=
    SupplyChain.execute_inventory_action self env action approved_by_planner
  in
  if SupplyChain.requires_approval action && is_None approved_by_planner
  then (exists record, outcome = SupplyChain.escalated record)
       /\ SupplyChain.status outcome = "escalated"%string
       /\ SupplyChain.escalation_queue self'
          = SupplyChain.escalation_queue self ++ [action]
       /\ SupplyChain.decision_log self' = SupplyChain.decision_log self
  else exists result,
         outcome = SupplyChain.logged result
         /\ SupplyChain.status outcome <> "escalated"%string
         /\ SupplyChain.decision_log self'
            = SupplyChain.decision_log self ++ [result]
         /\ SupplyChain.escalation_queue self'
            = SupplyChain.escalation_queue self.
Proof.
  unfold SupplyChain.execute_inventory_action.
  destruct (_ && _); [ repeat split; now eexists | ].
  eexists. repeat split. cbn.
  now destruct (negb _).
Qed.

(** The exception of a task without a completion time: [TypeError] for a
    text, [ValueError] for a NaN, and [OverflowError] for whatever else is
    beyond a [timedelta] or leads beyond the last [datetime]. *)
Lemma completion_time_raises env allocation e :
  BusinessOps.completion_time env allocation = Raise e ->
  e = match BusinessOps.estimated_hours allocation with
      | PyStr _ => TypeError
      | PyNum x => if is_nan x then ValueError else OverflowError
      | PyBool _ => OverflowError
      end.
Proof.
  unfold BusinessOps.completion_time, timedelta_hours, datetime_add.
  destruct (BusinessOps.estimated_hours allocation) as [x|b|s];
    cbn [as_number mbind result_bind]; [ | | congruence ].
  - rewrite is_nan_spec. unfold int_of_float.
    destruct (Prim2SF x) as [sign|sign| |sign m ex];
      repeat (progress (cbn [mbind result_bind]; split_tests));
      congruence.
  - assert (int_of_float (if b then 1 else 0) = Ok (if b then 1 else 0)%Z)
      as -> by (now destruct b).
    repeat (progress (cbn [mbind result_bind]; split_tests)); congruence.
Qed.

(** [execute_task], by the test of its first line and by the expected
    completion of the task. *)
Lemma execute_task_cases self env input_data classification compliance_check
    allocation human_approval :
  if BusinessOps.requires_human_review compliance_check
     && is_None human_approval
  then exists record self',
         BusinessOps.execute_task self env input_data classification
                                  compliance_check allocation human_approval
         = Ok (BusinessOps.escalated record, self')
         /\ BusinessOps.escalation_queue self'
            = BusinessOps.escalation_queue self ++ [record]
         /\ BusinessOps.process_log self' = BusinessOps.process_log self
         /\ BusinessOps.decision_audit_trail self'
            = BusinessOps.decision_audit_trail self
  else match BusinessOps.completion_time env allocation with
       | Ok _ =>
           exists result self',
             BusinessOps.execute_task self env input_data classification
                                      compliance_check allocation
                                      human_approval
             = Ok (BusinessOps.executing result, self')
             /\ BusinessOps.process_log self'
                = BusinessOps.process_log self ++ [result]
             /\ BusinessOps.decision_audit_trail self'
                = BusinessOps.decision_audit_trail self
                  ++ [BusinessOps.exec_audit_trail result]
             /\ BusinessOps.escalation_queue self'
                = BusinessOps.escalation_queue self
       | Raise e =>
           BusinessOps.execute_task self env input_data classification
                                    compliance_check allocation human_approval
           = Raise e
       end.
Proof.
  unfold BusinessOps.execute_task.
  destruct (_ && _); [ do 2 eexists; repeat split | ].
  destruct (BusinessOps.completion_time env allocation);
    cbn [mbind result_bind]; [ do 2 eexists; repeat split | reflexivity ].
Qed.

(** C10, as stated, fails for [execute_task]: an approved task whose
    [estimated_hours] is a text, a NaN or a hundred million hours is not
    escalated and appends nothing, the call raises while it builds its
    result. *)
Lemma unschedulable_task_is_not_logged :
  let task hours := BusinessOps.sample_task hours (Some "cfo"%string) in
  BusinessOps.escalates (task (PyStr "soon")) = false
  /\ BusinessOps.attempt BusinessOps.sample_vaa (task (PyStr "soon"))
     = (Raise TypeError, BusinessOps.sample_vaa)
  /\ BusinessOps.attempt BusinessOps.sample_vaa (task (PyNum nan))
     = (Raise ValueError, BusinessOps.sample_vaa)
  /\ BusinessOps.attempt BusinessOps.sample_vaa (task (PyNum 1e8))
     = (Raise OverflowError, BusinessOps.sample_vaa)
  /\ BusinessOps.process_log BusinessOps.sample_vaa = []
  /\ BusinessOps.decision_audit_trail BusinessOps.sample_vaa = []
  /\ BusinessOps.escalation_queue BusinessOps.sample_vaa = [].
Proof. repeat split. Qed.

(** C10, amended: a call of [execute_inventory_action] on an action that
    requires approval, without a planner, returns the status escalated,
    appends the action to the escalation queue and leaves the decision log
    as it was; every other call appends its result to the decision log and
    leaves the escalation queue as it was.  A call of [execute_task] on a
    check that requires a review, without an approval, appends its record
    to the escalation queue and leaves the process log and the audit trail
    as they were; every other call that has an expected completion appends
    its result to the process log and the audit entry of the result to the
    audit trail, and leaves the escalation queue as it was; every other
    call that has none raises the exception of that sum, [TypeError] for a
    text, [ValueError] for a NaN and [OverflowError] otherwise. *)
Theorem escalation_is_atomic :
  (forall self env action approved_by_planner outcome self',
      SupplyChain.execute_inventory_action self env action approved_by_planner
      = (outcome, self') ->
      (SupplyChain.requires_approval action = true
       /\ approved_by_planner = None ->
       SupplyChain.status outcome = "escalated"%string
       /\ SupplyChain.escalation_queue self'
          = SupplyChain.escalation_queue self ++ [action]
       /\ SupplyChain.decision_log self' = SupplyChain.decision_log self)
      /\ (~ (SupplyChain.requires_approval action = true
             /\ approved_by_planner = None) ->
          exists result,
            outcome = SupplyChain.logged result
            /\ SupplyChain.status outcome <> "escalated"%string
            /\ SupplyChain.decision_log self'
               = SupplyChain.decision_log self ++ [result]
            /\ SupplyChain.escalation_queue self'
               = SupplyChain.escalation_queue self))
  /\ (forall self env input_data classification compliance_check allocation
             human_approval,
         (BusinessOps.requires_human_review compliance_check = true
          /\ human_approval = None ->
          exists record self',
            BusinessOps.execute_task self env input_data classification
                                     compliance_check allocation
                                     human_approval
            = Ok (BusinessOps.escalated record, self')
            /\ BusinessOps.escalation_queue self'
               = BusinessOps.escalation_queue self ++ [record]
            /\ BusinessOps.process_log self' = BusinessOps.process_log self
            /\ BusinessOps.decision_audit_trail self'
               = BusinessOps.decision_audit_trail self)
         /\ (~ (BusinessOps.requires_human_review compliance_check = true
                /\ human_approval = None) ->
             match BusinessOps.completion_time env allocation with
             | Ok _ =>
                 exists result self',
                   BusinessOps.execute_task self env input_data
                                            classification compliance_check
                                            allocation human_approval
                   = Ok (BusinessOps.executing result, self')
                   /\ BusinessOps.process_log self'
                      = BusinessOps.process_log self ++ [result]
                   /\ BusinessOps.decision_audit_trail self'
                      = BusinessOps.decision_audit_trail self
                        ++ [BusinessOps.exec_audit_trail result]
                   /\ BusinessOps.escalation_queue self'
                      = BusinessOps.escalation_queue self
             | Raise e =>
                 BusinessOps.execute_task self env input_data classification
                                          compliance_check allocation
                                          human_approval
                 = Raise e
                 /\ e = match BusinessOps.estimated_hours allocation with
                        | PyStr _ => TypeError
                        | PyNum x =>
                            if is_nan x then ValueError else OverflowError
                        | PyBool _ => OverflowError
                        end
             end)).
Proof.
  split.
  - intros self env action approved_by_planner outcome self' Hcall.
    pose proof (execute_inventory_action_cases self env action
                                               approved_by_planner) as H.
    rewrite Hcall in H. split.
    + intros [Hreq ->]. rewrite Hreq in H. apply H.
    + intros Hnot.
      destruct (SupplyChain.requires_approval action), approved_by_planner;
        cbn in H; try exact H.
      exfalso. apply Hnot. now split.
  - intros self env input_data classification compliance_check allocation
           human_approval.
    pose proof (execute_task_cases self env input_data classification
                                   compliance_check allocation human_approval)
      as H.
    split.
    + intros [Hreq ->]. now rewrite Hreq in H.
    + intros Hnot.
      assert (BusinessOps.requires_human_review compliance_check
              && is_None human_approval = false) as Htest.
      { destruct (BusinessOps.requires_human_review compliance_check),
                 human_approval; try reflexivity.
        exfalso. apply Hnot. now split. }
      rewrite Htest in H.
      destruct (BusinessOps.completion_time env allocation) as [t|e] eqn:Ht;
        [ exact H | ].
      split; [ exact H | ]. now apply completion_time_raises in Ht.
Qed.

(** The sample action, which requires approval, without and with a
    planner; the sample task, which requires a review, without and with an
    approver, and with an approver and no number of hours. *)
Lemma escalation_is_atomic_witness :
  (SupplyChain.status
     (fst (SupplyChain.execute_inventory_action
             SupplyChain.sample_vaa SupplyChain.env0
             SupplyChain.sample_action None))
   = "escalated"%string
   /\ SupplyChain.escalation_queue
        (snd (SupplyChain.execute_inventory_action
                SupplyChain.sample_vaa SupplyChain.env0
                SupplyChain.sample_action None))
      = SupplyChain.escalation_queue SupplyChain.sample_vaa
        ++ [SupplyChain.sample_action]
   /\ SupplyChain.decision_log
        (snd (SupplyChain.execute_inventory_action
                SupplyChain.sample_vaa SupplyChain.env0
                SupplyChain.sample_action None))
      = SupplyChain.decision_log SupplyChain.sample_vaa)
  /\ (exists result,
         fst (SupplyChain.execute_inventory_action
                SupplyChain.sample_vaa SupplyChain.env0
                SupplyChain.sample_action (Some "planner_7"%string))
         = SupplyChain.logged result
         /\ SupplyChain.decision_log
              (snd (SupplyChain.execute_inventory_action
                      SupplyChain.sample_vaa SupplyChain.env0
                      SupplyChain.sample_action (Some "planner_7"%string)))
            = SupplyChain.decision_log SupplyChain.sample_vaa ++ [result])
  /\ (exists record self',
         BusinessOps.execute_task
           BusinessOps.sample_vaa BusinessOps.env0
           BusinessOps.sample_input BusinessOps.sample_classification
           BusinessOps.sample_check BusinessOps.sample_allocation None
         = Ok (BusinessOps.escalated record, self')
         /\ BusinessOps.escalation_queue self'
            = BusinessOps.escalation_queue BusinessOps.sample_vaa ++ [record])
  /\ (exists result self',
         BusinessOps.execute_task
           BusinessOps.sample_vaa BusinessOps.env0
           BusinessOps.sample_input BusinessOps.sample_classification
           BusinessOps.sample_check BusinessOps.sample_allocation
           (Some "cfo"%string)
         = Ok (BusinessOps.executing result, self')
         /\ BusinessOps.process_log self'
            = BusinessOps.process_log BusinessOps.sample_vaa ++ [result])
  /\ BusinessOps.execute_task
       BusinessOps.sample_vaa BusinessOps.env0
       BusinessOps.sample_input BusinessOps.sample_classification
       BusinessOps.sample_check
       (BusinessOps.call_allocation
          (BusinessOps.sample_task (PyStr "soon") None))
       (Some "cfo"%string)
     = Raise TypeError.
Proof.
  split; [ | split; [ | split; [ | split ] ] ].
  - exact (proj1 (proj1 escalation_is_atomic
                    SupplyChain.sample_vaa SupplyChain.env0
                    SupplyChain.sample_action None _ _ eq_refl)
                 (conj eq_refl eq_refl)).
  - destruct (proj2 (proj1 escalation_is_atomic
                       SupplyChain.sample_vaa SupplyChain.env0
                       SupplyChain.sample_action (Some "planner_7"%string)
                       _ _ eq_refl))
      as (result & Hout & _ & Hlog & _).
    + intros [_ Hnone]. discriminate Hnone.
    + exists result. split; [ exact Hout | exact Hlog ].
  - destruct (proj1 (proj2 escalation_is_atomic
                       BusinessOps.sample_vaa BusinessOps.env0
                       BusinessOps.sample_input
                       BusinessOps.sample_classification
                       BusinessOps.sample_check BusinessOps.sample_allocation
                       None) (conj eq_refl eq_refl))
      as (record & self' & Hout & Hqueue & _).
    exists record, self'. split; [ exact Hout | exact Hqueue ].
  - assert (~ (BusinessOps.requires_human_review BusinessOps.sample_check
               = true /\ Some "cfo"%string = None)) as Hnot
      by (intros [_ Hnone]; discriminate Hnone).
    destruct (proj2 (proj2 escalation_is_atomic
                       BusinessOps.sample_vaa BusinessOps.env0
                       BusinessOps.sample_input
                       BusinessOps.sample_classification
                       BusinessOps.sample_check BusinessOps.sample_allocation
                       (Some "cfo"%string)) Hnot)
      as (result & self' & Hout & Hlog & _).
    exists result, self'. split; [ exact Hout | exact Hlog ].
  - assert (~ (BusinessOps.requires_human_review BusinessOps.sample_check
               = true /\ Some "cfo"%string = None)) as Hnot
      by (intros [_ Hnone]; discriminate Hnone).
    exact (proj1 (proj2 (proj2 escalation_is_atomic
                           BusinessOps.sample_vaa BusinessOps.env0
                           BusinessOps.sample_input
                           BusinessOps.sample_classification
                           BusinessOps.sample_check
                           (BusinessOps.call_allocation
                              (BusinessOps.sample_task (PyStr "soon") None))
                           (Some "cfo"%string)) Hnot)).
Defined.

(** *** Sequences of calls *)

(** C6, as stated, fails: a call that is escalated adds nothing to the
    decision log (to the process log and the audit trail), and a call of
    [execute_task] that is executed adds a record to two logs. *)
Lemma escalated_calls_are_not_logged :
  SupplyChain.decision_log
    (snd (SupplyChain.execute_inventory_action
            SupplyChain.sample_vaa
            SupplyChain.env0 SupplyChain.sample_action None))
  = []
  /\ BusinessOps.process_log
       (BusinessOps.step
          BusinessOps.sample_vaa
          (BusinessOps.env0,
           BusinessOps.call_execute_task
             BusinessOps.sample_input BusinessOps.sample_classification
             BusinessOps.sample_check BusinessOps.sample_allocation None))
     = []
  /\ BusinessOps.decision_audit_trail
       (BusinessOps.step
          BusinessOps.sample_vaa
          (BusinessOps.env0,
           BusinessOps.call_execute_task
             BusinessOps.sample_input BusinessOps.sample_classification
             BusinessOps.sample_check BusinessOps.sample_allocation None))
     = []
  /\ length (BusinessOps.process_log
               (BusinessOps.step
                  BusinessOps.sample_vaa
                  (BusinessOps.env0,
                   BusinessOps.call_execute_task
                     BusinessOps.sample_input
                     BusinessOps.sample_classification
                     BusinessOps.sample_check
                     BusinessOps.sample_allocation (Some "cfo"))))
     + length (BusinessOps.decision_audit_trail
                 (BusinessOps.step
                    BusinessOps.sample_vaa
                    (BusinessOps.env0,
                     BusinessOps.call_execute_task
                       BusinessOps.sample_input
                       BusinessOps.sample_classification
                       BusinessOps.sample_check
                       BusinessOps.sample_allocation (Some "cfo"))))
     = 2.
Proof. repeat split. Qed.

(** The logs after a sequence of calls of [execute_inventory_action]. *)
Lemma run_actions_logs calls : forall self outcomes self',
  SupplyChain.run_actions self calls = (outcomes, self') ->
  length outcomes = length calls
  /\ SupplyChain.decision_log self'
     = SupplyChain.decision_log self ++ SupplyChain.executions_of outcomes
  /\ SupplyChain.escalation_queue self'
     = SupplyChain.escalation_queue self
       ++ SupplyChain.escalated_actions calls
  /\ length (SupplyChain.executions_of outcomes)
     + length (SupplyChain.escalated_actions calls) = length calls.
Proof.
  induction calls as [|[[env action] approved] calls IH];
    intros self outcomes self' Hrun; cbn [SupplyChain.run_actions] in Hrun.
  - injection Hrun as <- <-. now rewrite !app_nil_r.
  - pose proof (execute_inventory_action_cases self env action approved) as H.
    destruct (SupplyChain.execute_inventory_action _ _ _ _) as [o self1].
    destruct (SupplyChain.run_actions self1 calls) as [os self2] eqn:Hrest.
    injection Hrun as <- <-.
    destruct (IH _ _ _ Hrest) as (Hlen & Hlog & Hqueue & Hsum).
    unfold SupplyChain.escalated_actions, SupplyChain.executions_of in *.
    rewrite Hlog, Hqueue. cbn. rewrite Hlen.
    destruct (_ && _).
    + destruct H as ((record & ->) & _ & -> & ->).
      rewrite <- ?app_assoc. cbn. repeat split. lia.
    + destruct H as (result & -> & _ & -> & ->).
      rewrite <- ?app_assoc. cbn. repeat split. lia.
Qed.

(** One call of a sequence: what it ends with, by the test of the
    escalation protocol and the expected completion, and the three lists
    after it. *)
Lemma attempt_cases self c :
  let '(outcome, self') := BusinessOps.attempt self c in
  match outcome with
  | Ok (BusinessOps.escalated record) =>
      BusinessOps.escalates c = true
      /\ BusinessOps.escalation_queue self'
         = BusinessOps.escalation_queue self ++ [record]
      /\ BusinessOps.process_log self' = BusinessOps.process_log self
      /\ BusinessOps.decision_audit_trail self'
         = BusinessOps.decision_audit_trail self
  | Ok (BusinessOps.executing result) =>
      BusinessOps.escalates c = false
      /\ returns (BusinessOps.completion_time (BusinessOps.call_env c)
                                              (BusinessOps.call_allocation c))
      /\ BusinessOps.process_log self'
         = BusinessOps.process_log self ++ [result]
      /\ BusinessOps.decision_audit_trail self'
         = BusinessOps.decision_audit_trail self
           ++ [BusinessOps.exec_audit_trail result]
      /\ BusinessOps.escalation_queue self'
         = BusinessOps.escalation_queue self
  | Raise e =>
      BusinessOps.escalates c = false
      /\ BusinessOps.completion_time (BusinessOps.call_env c)
                                     (BusinessOps.call_allocation c)
         = Raise e
      /\ self' = self
  end.
Proof.
  pose proof (execute_task_cases self (BusinessOps.call_env c)
                (BusinessOps.call_input c)
                (BusinessOps.call_classification c)
                (BusinessOps.call_check c) (BusinessOps.call_allocation c)
                (BusinessOps.call_approval c)) as H.
  unfold BusinessOps.attempt, BusinessOps.escalates.
  destruct (_ && _).
  - destruct H as (record & self' & -> & H). now split.
  - destruct (BusinessOps.completion_time _ _) as [t|e].
    + destruct H as (result & self' & -> & H).
      split; [ reflexivity | split; [ now exists t | exact H ] ].
    + rewrite H. repeat split.
Qed.

(** The logs after a sequence of calls of [execute_task]. *)
Lemma run_tasks_logs calls : forall self outcomes self',
  BusinessOps.run_tasks self calls = (outcomes, self') ->
  Forall2 (fun c outcome =>
             match outcome with
             | Ok (BusinessOps.escalated _) => BusinessOps.escalates c = true
             | Ok (BusinessOps.executing _) =>
                 BusinessOps.escalates c = false
                 /\ returns (BusinessOps.completion_time
                               (BusinessOps.call_env c)
                               (BusinessOps.call_allocation c))
             | Raise e =>
                 BusinessOps.escalates c = false
                 /\ BusinessOps.completion_time
                      (BusinessOps.call_env c) (BusinessOps.call_allocation c)
                    = Raise e
             end) calls outcomes
  /\ BusinessOps.process_log self'
     = BusinessOps.process_log self ++ BusinessOps.executions_of outcomes
  /\ BusinessOps.decision_audit_trail self'
     = BusinessOps.decision_audit_trail self
       ++ map BusinessOps.exec_audit_trail
              (BusinessOps.executions_of outcomes)
  /\ BusinessOps.escalation_queue self'
     = BusinessOps.escalation_queue self
       ++ BusinessOps.escalations_of outcomes
  /\ length (BusinessOps.executions_of outcomes)
     + length (BusinessOps.escalations_of outcomes)
     + length (BusinessOps.raised_of outcomes) = length calls.
Proof.
  induction calls as [|c calls IH];
    intros self outcomes self' Hrun; cbn [BusinessOps.run_tasks] in Hrun.
  - injection Hrun as <- <-. rewrite !app_nil_r. repeat split. constructor.
  - pose proof (attempt_cases self c) as H.
    destruct (BusinessOps.attempt self c) as [o self1].
    destruct (BusinessOps.run_tasks self1 calls) as [os self2] eqn:Hrest.
    injection Hrun as <- <-.
    destruct (IH _ _ _ Hrest) as (Hall & Hlog & Htrail & Hqueue & Hsum).
    unfold BusinessOps.escalations_of, BusinessOps.executions_of,
      BusinessOps.raised_of in *.
    rewrite Hlog, Htrail, Hqueue.
    destruct o as [[record|result]|e]; cbn [omap map length].
    + destruct H as (Htest & -> & -> & ->).
      rewrite <- ?app_assoc. repeat split; [ now constructor | ];
        unfold omap in Hsum |- *; cbn; lia.
    + destruct H as (Htest & Hreturns & -> & -> & ->).
      rewrite <- ?app_assoc. repeat split; [ now constructor | ];
        unfold omap in Hsum |- *; cbn; lia.
    + destruct H as (Htest & Hraise & ->).
      repeat split; [ now constructor | ];
        unfold omap in Hsum |- *; cbn; lia.
Qed.

(** C6, amended: each call appends one record at the end of exactly one
    list of the object, the escalation queue when the approval is required
    and missing and the decision log otherwise, so each list keeps the call
    order and the two lengths together grow by one per call; for
    [execute_task] the list of executed calls is the process log, and the
    audit trail receives the audit entry of the same record; a call of
    [execute_task] that is not escalated and has no expected completion
    raises and appends nothing, so there the two lengths and the number of
    calls that raised together grow by one per call. *)
Theorem each_call_appends_to_one_list :
  (forall self calls outcomes self',
      SupplyChain.run_actions self calls = (outcomes, self') ->
      length outcomes = length calls
      /\ SupplyChain.decision_log self'
         = SupplyChain.decision_log self
           ++ SupplyChain.executions_of outcomes
      /\ SupplyChain.escalation_queue self'
         = SupplyChain.escalation_queue self
           ++ SupplyChain.escalated_actions calls
      /\ length (SupplyChain.decision_log self')
         + length (SupplyChain.escalation_queue self')
         = length (SupplyChain.decision_log self)
           + length (SupplyChain.escalation_queue self) + length calls)
  /\ (forall self calls outcomes self',
         BusinessOps.run_tasks self calls = (outcomes, self') ->
         Forall2 (fun c outcome =>
                    match outcome with
                    | Ok (BusinessOps.escalated _) =>
                        BusinessOps.escalates c = true
                    | Ok (BusinessOps.executing _) =>
                        BusinessOps.escalates c = false
                        /\ returns (BusinessOps.completion_time
                                      (BusinessOps.call_env c)
                                      (BusinessOps.call_allocation c))
                    | Raise e =>
                        BusinessOps.escalates c = false
                        /\ BusinessOps.completion_time
                             (BusinessOps.call_env c)
                             (BusinessOps.call_allocation c)
                           = Raise e
                    end) calls outcomes
         /\ BusinessOps.process_log self'
            = BusinessOps.process_log self
              ++ BusinessOps.executions_of outcomes
         /\ BusinessOps.decision_audit_trail self'
            = BusinessOps.decision_audit_trail self
              ++ map BusinessOps.exec_audit_trail
                     (BusinessOps.executions_of outcomes)
         /\ BusinessOps.escalation_queue self'
            = BusinessOps.escalation_queue self
              ++ BusinessOps.escalations_of outcomes
         /\ length (BusinessOps.process_log self')
            + length (BusinessOps.escalation_queue self')
            + length (BusinessOps.raised_of outcomes)
            = length (BusinessOps.process_log self)
              + length (BusinessOps.escalation_queue self) + length calls).
Proof.
  split; intros self calls outcomes self' Hrun.
  - destruct (run_actions_logs calls _ _ _ Hrun) as (Hlen & Hlog & Hq & Hsum).
    repeat split; try assumption.
    rewrite Hlog, Hq, !length_app. lia.
  - destruct (run_tasks_logs calls _ _ _ Hrun)
      as (Hall & Hlog & Htrail & Hq & Hsum).
    repeat split; try assumption.
    rewrite Hlog, Hq, !length_app. lia.
Qed.

(** Two calls on the sample action, one escalated and one approved; three
    calls on the sample task, one escalated, one approved, and one approved
    whose hours are a text. *)
Lemma each_call_appends_to_one_list_witness :
  length (SupplyChain.decision_log
            (snd (SupplyChain.run_actions
                    SupplyChain.sample_vaa
                    [(SupplyChain.env0, SupplyChain.sample_action, None);
                     (SupplyChain.env0, SupplyChain.sample_action,
                      Some "planner_7")])))
  + length (SupplyChain.escalation_queue
              (snd (SupplyChain.run_actions
                      SupplyChain.sample_vaa
                      [(SupplyChain.env0, SupplyChain.sample_action, None);
                       (SupplyChain.env0, SupplyChain.sample_action,
                        Some "planner_7")])))
  = 0 + 0 + 2
  /\ (let calls :=
        [BusinessOps.sample_task (PyNum 1.5) None;
         BusinessOps.sample_task (PyNum 1.5) (Some "cfo"%string);
         BusinessOps.sample_task (PyStr "soon") (Some "cfo"%string)] in
      let result := BusinessOps.run_tasks BusinessOps.sample_vaa calls in
      length (BusinessOps.process_log (snd result))
      + length (BusinessOps.escalation_queue (snd result))
      + length (BusinessOps.raised_of (fst result))
      = 0 + 0 + 3
      /\ BusinessOps.raised_of (fst result) = [TypeError]).
Proof.
  split.
  - exact (proj2 (proj2 (proj2
             (proj1 each_call_appends_to_one_list
                SupplyChain.sample_vaa
                [(SupplyChain.env0, SupplyChain.sample_action, None);
                 (SupplyChain.env0, SupplyChain.sample_action,
                  Some "planner_7")] _ _ eq_refl)))).
  - split; [ | reflexivity ].
    exact (proj2 (proj2 (proj2 (proj2
             (proj2 each_call_appends_to_one_list
                BusinessOps.sample_vaa
                [BusinessOps.sample_task (PyNum 1.5) None;
                 BusinessOps.sample_task (PyNum 1.5) (Some "cfo"%string);
                 BusinessOps.sample_task (PyStr "soon") (Some "cfo"%string)]
                _ _ (surjective_pairing _)))))).
Defined.

End LogFacts.

(* ===================================================================== *)
(** ** The threshold tables are never written *)
(* ===================================================================== *)

Module FrameFacts.
Import PyFacts.

(** Case analysis on every computation that may raise. *)
Ltac bind_cases :=
  repeat match goal with
  | |- context [mbind _ ?m] => destruct m as [?|?]; cbn [mbind result_bind]
  end.

Section Marketing.
Import Marketing.

Lemma validate_and_log_fairness_constraints env entries : forall acc,
  fairness_constraints (snd (fold_left (validate_and_log env) entries acc))
  = fairness_constraints (snd acc).
Proof.
  induction entries as [|entry entries IH]; intros [k self]; [ reflexivity | ].
  cbn [fold_left]. rewrite IH. unfold validate_and_log. cbn [snd].
  now destruct (negb _).
Qed.

Lemma segment_customers_fairness_constraints self env customer_data :
  fairness_constraints (after self (segment_customers self env customer_data))
  = fairness_constraints self.
Proof.
  unfold segment_customers. bind_cases; try reflexivity.
  cbn [after fairness_constraints].
  now rewrite validate_and_log_fairness_constraints.
Qed.

Lemma allocate_campaign_budget_fairness_constraints self env campaign_id
    total_budget segments_arg channels :
  fairness_constraints
    (after self (allocate_campaign_budget self env campaign_id total_budget
                                          segments_arg channels))
  = fairness_constraints self.
Proof. unfold allocate_campaign_budget. bind_cases; reflexivity. Qed.

Lemma generate_performance_insights_fairness_constraints self env campaign_id
    segment_id actual_metrics :
  fairness_constraints
    (after self (generate_performance_insights self env campaign_id segment_id
                                               actual_metrics))
  = fairness_constraints self.
Proof.
  unfold generate_performance_insights. bind_cases; try reflexivity.
  split_tests; reflexivity.
Qed.

Lemma calculate_fairness_metrics_fairness_constraints self env :
  fairness_constraints (after self (calculate_fairness_metrics self env))
  = fairness_constraints self.
Proof. unfold calculate_fairness_metrics. bind_cases; reflexivity. Qed.

Lemma step_fairness_constraints self c :
  fairness_constraints (step self c) = fairness_constraints self.
Proof.
  destruct c as [env []]; cbn [step];
    auto using segment_customers_fairness_constraints,
               allocate_campaign_budget_fairness_constraints,
               generate_performance_insights_fairness_constraints,
               calculate_fairness_metrics_fairness_constraints.
Qed.

Lemma run_fairness_constraints calls : forall self,
  fairness_constraints (run self calls) = fairness_constraints self.
Proof.
  unfold run. induction calls as [|c calls IH]; intros self; [ reflexivity | ].
  cbn [fold_left]. now rewrite IH, step_fairness_constraints.
Qed.

End Marketing.

(** C8: after any sequence of calls of public methods on a freshly
    constructed object, [compliance_rules] (in [BusinessOperationsVAA]) and
    [fairness_constraints] (in [MarketingVAA]) are the tables that
    [_initialize_compliance_rules] and [_initialize_fairness_constraints]
    returned at construction. *)
Theorem threshold_tables_are_immutable :
  (forall vaa_id regulatory_framework calls,
      BusinessOps.compliance_rules
        (BusinessOps.run (BusinessOps.__init__ vaa_id regulatory_framework)
                         calls)
      = BusinessOps._initialize_compliance_rules)
  /\ (forall vaa_id privacy_framework calls,
         Marketing.fairness_constraints
           (Marketing.run (Marketing.__init__ vaa_id privacy_framework) calls)
         = Marketing._initialize_fairness_constraints).
Proof.
  split; intros.
  - now rewrite BusinessOpsFacts.run_compliance_rules.
  - now rewrite run_fairness_constraints.
Qed.

End FrameFacts.

(* ===================================================================== *)
(** ** Further properties of the business operations agent *)
(* ===================================================================== *)

Module BusinessOpsMore.
Import PyFacts BusinessOps BusinessOpsFacts.

(** Two float literals differ. *)
Ltac float_neq H :=
  apply (f_equal (fun x => PrimFloat.eqb x 0)) in H; vm_compute in H;
  discriminate H.

(** The pathway that [classify_input] returns is the entry of the input
    type in [pathway_map], or [default_processing]. *)
Lemma classify_input_pathway self env input_data pathway classification :
  classify_input self env input_data = Ok (pathway, classification) ->
  pathway = dict_get pathway_map (input_type input_data) "default_processing"
  /\ process_pathway classification = pathway.
Proof.
  unfold classify_input. intros H.
  apply bind_returns in H as (priority & _ & H).
  apply bind_returns in H as (ratio & _ & H).
  injection H as <- <-. split; reflexivity.
Qed.

(** X1: an input of a type other than [procurement_request] and [invoice]
    is classified into a pathway on which [validate_business_rules] raises
    [UnboundLocalError]. *)
Theorem unhandled_input_types_are_not_validated :
  forall self env1 env2 input_data pathway classification,
    input_type input_data <> "procurement_request"%string ->
    input_type input_data <> "invoice"%string ->
    classify_input self env1 input_data = Ok (pathway, classification) ->
    validate_business_rules self env2 input_data pathway
    = Raise UnboundLocalError.
Proof.
  intros self env1 env2 input_data pathway classification Hproc Hinv Hclass.
  apply classify_input_pathway in Hclass as [-> _].
  unfold dict_get, pathway_map. cbn [list_to_map foldr fst snd].
  rewrite !lookup_insert_ne by congruence.
  destruct (decide (input_type input_data = "compliance_check"%string))
    as [->|Hcheck].
  { now apply validate_other_pathway. }
  rewrite lookup_insert_ne by congruence.
  destruct (decide (input_type input_data = "allocation"%string))
    as [->|Halloc].
  { now apply validate_other_pathway. }
  rewrite lookup_insert_ne, lookup_empty by congruence.
  now apply validate_other_pathway.
Qed.

Lemma unhandled_input_types_are_not_validated_witness :
  exists classification,
    classify_input sample_vaa env0 compliance_check_input
    = Ok ("regulatory_assessment"%string, classification)
    /\ validate_business_rules sample_vaa later_env compliance_check_input
                               "regulatory_assessment"
       = Raise UnboundLocalError.
Proof.
  eexists. split; [ reflexivity | ].
  refine (unhandled_input_types_are_not_validated
            sample_vaa env0 later_env compliance_check_input _ _ _ _ eq_refl);
    discriminate.
Defined.

(** X2: the level of a procurement request under the table of the
    constructor, with a numeric (or absent) vendor rating: RED exactly when
    the amount is above 100000, otherwise YELLOW when the amount is above
    50000 or the rating is below 3.5, otherwise GREEN.  A low vendor rating
    alone never gives RED, and a review is required exactly when the amount
    is above 50000 or the rating is below 3.5. *)
Theorem procurement_level_table :
  forall self env input_data rating,
    compliance_rules self = _initialize_compliance_rules ->
    as_number (dict_get (metadata input_data) "vendor_rating" (PyNum 0))
    = Ok rating ->
    exists r,
      validate_business_rules self env input_data PROCUREMENT = Ok r
      /\ compliance_status r
         = (if gtb (amount input_data) 100000 then RED
            else if gtb (amount input_data) 50000 || PrimFloat.ltb rating 3.5
                 then YELLOW
                 else GREEN)
      /\ requires_human_review r
         = gtb (amount input_data) 50000 || PrimFloat.ltb rating 3.5.
Proof.
  intros self env input_data rating Hrules Hrating.
  unfold validate_business_rules, procurement_branch, py_lt.
  rewrite Hrules, Hrating.
  cbn [String.eqb Ascii.eqb Bool.eqb procurement _initialize_compliance_rules
       requires_review_above max_autonomous_approval vendor_whitelist_check
       mbind result_bind].
  pose proof (ltb_trans 50000 100000 (amount input_data) eq_refl) as Hlo.
  fold (gtb (amount input_data) 100000) in Hlo.
  fold (gtb (amount input_data) 50000) in Hlo.
  destruct (gtb (amount input_data) 100000);
    [ rewrite (Hlo eq_refl) | clear Hlo;
                              destruct (gtb (amount input_data) 50000) ];
    destruct (PrimFloat.ltb rating 3.5); eexists; repeat split.
Qed.

Lemma procurement_level_table_witness :
  exists r,
    validate_business_rules sample_vaa env0 sample_input PROCUREMENT = Ok r
    /\ compliance_status r = YELLOW
    /\ requires_human_review r = true.
Proof.
  exact (procurement_level_table sample_vaa env0 sample_input 4.2%float
                                 eq_refl eq_refl).
Defined.

(** X3: the level of an invoice under the table of the constructor, with a
    numeric (or absent) variance: RED when the variance is above 0.05;
    otherwise a duplicate is YELLOW when the variance is above 0.02 and RED
    when it is not, and an invoice that is no duplicate is GREEN.  In
    particular an invoice whose variance is above 0.02, not above 0.05 and
    that is no duplicate carries the finding that its variance requires
    review, and is GREEN with no review required. *)
Theorem invoice_level_table :
  forall self env input_data variance,
    compliance_rules self = _initialize_compliance_rules ->
    as_number (dict_get (metadata input_data) "po_invoice_variance" (PyNum 0))
    = Ok variance ->
    exists r,
      validate_business_rules self env input_data INVOICING = Ok r
      /\ compliance_status r
         = (if gtb variance 0.05 then RED
            else if truthy (dict_get (metadata input_data) "is_duplicate"
                                     (PyBool false))
                 then (if gtb variance 0.02 then YELLOW else RED)
                 else GREEN)
      /\ (gtb variance 0.05 = false -> gtb variance 0.02 = true ->
          truthy (dict_get (metadata input_data) "is_duplicate"
                           (PyBool false)) = false ->
          rule_violations r
          = [variance_requires_review
               (dict_get (metadata input_data) "po_invoice_variance"
                         (PyNum 0))]
          /\ requires_human_review r = false).
Proof.
  intros self env input_data variance Hrules Hvariance.
  unfold validate_business_rules, invoicing_branch, py_gt.
  rewrite Hrules, Hvariance.
  cbn [String.eqb Ascii.eqb Bool.eqb invoicing _initialize_compliance_rules
       escalate_variance_above auto_match_variance_tolerance
       mbind result_bind].
  destruct (gtb variance 0.05); cbn [mbind result_bind];
    [ | destruct (gtb variance 0.02) ];
    destruct (truthy _); eexists;
    (split; [ reflexivity | split; [ reflexivity | ] ]);
    intros H1 H2 H3; try discriminate; split; reflexivity.
Qed.

Lemma invoice_level_table_witness :
  exists r,
    validate_business_rules sample_vaa env0
                            (with_variance duplicate_invoice 0.03) INVOICING
    = Ok r
    /\ compliance_status r = YELLOW.
Proof.
  destruct (invoice_level_table sample_vaa env0
              (with_variance duplicate_invoice 0.03) 0.03%float
              eq_refl eq_refl) as (r & Hr & Hstatus & _).
  exists r. split; [ exact Hr | exact Hstatus ].
Defined.

(** X4: a request without the key [vendor_rating] is rated 0: under the
    table of the constructor it carries the vendor finding, is never GREEN
    and always requires a review. *)
Theorem missing_vendor_rating_is_rated_zero :
  forall self env input_data,
    compliance_rules self = _initialize_compliance_rules ->
    metadata input_data !! "vendor_rating"%string = None ->
    exists r,
      validate_business_rules self env input_data PROCUREMENT = Ok r
      /\ In (vendor_rating_below_minimum (PyNum 0)) (rule_violations r)
      /\ compliance_status r <> GREEN
      /\ requires_human_review r = true.
Proof.
  intros self env input_data Hrules Hmissing.
  unfold validate_business_rules, procurement_branch, dict_get.
  rewrite Hrules, Hmissing.
  cbn. split_tests; eexists; (split; [ reflexivity | ]); cbn;
    repeat split; auto; discriminate.
Qed.

Lemma missing_vendor_rating_is_rated_zero_witness :
  exists r,
    validate_business_rules sample_vaa env0 compliance_check_input PROCUREMENT
    = Ok r
    /\ In (vendor_rating_below_minimum (PyNum 0)) (rule_violations r)
    /\ compliance_status r <> GREEN
    /\ requires_human_review r = true.
Proof.
  exact (missing_vendor_rating_is_rated_zero
           sample_vaa env0 compliance_check_input eq_refl eq_refl).
Defined.

(** X5: a vendor rating (on the procurement pathway, when the vendor check
    is on) or a variance (on the invoicing pathway) that is a text makes the
    call raise [TypeError], whatever the amount and the other entries. *)
Theorem text_signal_raises_TypeError :
  (forall self env input_data s,
      vendor_whitelist_check (procurement (compliance_rules self)) = true ->
      metadata input_data !! "vendor_rating"%string = Some (PyStr s) ->
      validate_business_rules self env input_data PROCUREMENT
      = Raise TypeError)
  /\ (forall self env input_data s,
         metadata input_data !! "po_invoice_variance"%string
         = Some (PyStr s) ->
         validate_business_rules self env input_data INVOICING
         = Raise TypeError).
Proof.
  split.
  - intros self env input_data s Hcheck Hrating.
    unfold validate_business_rules, procurement_branch, dict_get.
    rewrite Hcheck, Hrating.
    cbn [String.eqb Ascii.eqb Bool.eqb default py_lt as_number mbind
         result_bind].
    now split_tests.
  - intros self env input_data s Hvariance.
    unfold validate_business_rules, invoicing_branch, dict_get.
    now rewrite Hvariance.
Qed.

Lemma text_signal_raises_TypeError_witness :
  validate_business_rules
    sample_vaa env0
    {| input_id := "PROC_002";
       input_type := "procurement_request";
       entity_id := "vendor_xyz_corp";
       amount := 1200;
       vendor_id := None;
       metadata := <["vendor_rating" := PyStr "excellent"]> ∅;
       received_timestamp := "2024-01-01T00:00:00";
       priority_level := 1 |}
    PROCUREMENT
  = Raise TypeError.
Proof.
  apply (proj1 text_signal_raises_TypeError _ _ _ "excellent"%string);
    reflexivity.
Defined.

(** X6: every result carries at most two findings and a risk score between
    0 and 1, and the risk score is 0 exactly when there is no finding, for
    every table, input and pathway. *)
Theorem risk_score_range :
  forall self env input_data pathway r,
    validate_business_rules self env input_data pathway = Ok r ->
    PrimFloat.leb 0 (risk_score r) = true
    /\ PrimFloat.leb (risk_score r) 1 = true
    /\ length (rule_violations r) <= 2
    /\ (rule_violations r = [] <-> risk_score r = 0%float).
Proof.
  intros self env input_data pathway r. unfold validate_business_rules.
  destruct (String.eqb pathway PROCUREMENT).
  - unfold procurement_branch.
    destruct (vendor_whitelist_check _);
      [ destruct (dict_get _ _ _) as [rating|[]|?];
        cbn [py_lt as_number mbind result_bind] | ];
      split_tests; vm_compute; intros H; try discriminate;
      injection H as <-; cbn;
      (repeat split; try reflexivity; try lia;
       intros H; try discriminate; try float_neq H).
  - destruct (String.eqb pathway INVOICING); [ | discriminate ].
    unfold invoicing_branch.
    destruct (dict_get _ "po_invoice_variance" _) as [variance|[]|?];
      cbn [py_gt as_number mbind result_bind];
      split_tests; vm_compute; intros H; try discriminate;
      injection H as <-; cbn;
      (repeat split; try reflexivity; try lia;
       intros H; try discriminate; try float_neq H).
Qed.

Lemma risk_score_range_witness :
  exists r,
    validate_business_rules sample_vaa env0 sample_input PROCUREMENT = Ok r
    /\ PrimFloat.leb 0 (risk_score r) = true
    /\ PrimFloat.leb (risk_score r) 1 = true.
Proof.
  eexists. split; [ reflexivity | ].
  destruct (risk_score_range sample_vaa env0 sample_input PROCUREMENT _
                             eq_refl) as (Hlow & Hhigh & _).
  split; [ exact Hlow | exact Hhigh ].
Defined.

(** *** Resource allocation *)

(** A slice of a list is a sublist of it. *)
Lemma slice_to_sublist {A} (l : list A) (n : Z) : slice_to l n `sublist_of` l.
Proof. unfold slice_to. destruct (0 <=? n)%Z; apply sublist_take. Qed.

(** The members that pass the workload test keep the order of the roster. *)
Lemma omap_imap_sublist (keep : nat -> bool) (l : list string) :
  forall f : nat -> nat,
    omap (fun entry : nat * string =>
            if keep (fst entry) then Some (snd entry) else None)
         (imap (fun i x => (f i, x)) l)
    `sublist_of` l.
Proof.
  induction l as [|x l IH]; intros f; cbn.
  - constructor.
  - destruct (keep (f 0)).
    + apply sublist_skip, (IH (fun i => f (S i))).
    + apply sublist_cons, (IH (fun i => f (S i))).
Qed.

(** The available resources are a sublist of the roster of the team. *)
Lemma available_resources_sublist env team max_assignments :
  _get_available_resources env team max_assignments
  `sublist_of` dict_get team_roster team [].
Proof.
  unfold _get_available_resources.
  etransitivity; [ apply slice_to_sublist | ].
  apply (omap_imap_sublist (fun i => gtb (random env i) 0.3) _ id).
Qed.

(** A team without a roster has no available resources. *)
Lemma no_roster_no_resources env team max_assignments :
  team_roster !! team = None ->
  _get_available_resources env team max_assignments = [].
Proof.
  intros Hteam. apply sublist_nil_r.
  pose proof (available_resources_sublist env team max_assignments) as Hsub.
  unfold dict_get in Hsub. now rewrite Hteam in Hsub.
Qed.

(** X7: the available resources are members of the roster of the team, in
    roster order and each at most once per roster entry, and they are at
    most [max_assignments] when that bound is not negative; a team without a
    roster has none. *)
Theorem available_resources_come_from_the_roster :
  forall env team max_assignments,
    _get_available_resources env team max_assignments
    `sublist_of` dict_get team_roster team []
    /\ ((0 <= max_assignments)%Z ->
        (Z.of_nat (length (_get_available_resources env team max_assignments))
         <= max_assignments)%Z)
    /\ (team_roster !! team = None ->
        _get_available_resources env team max_assignments = []).
Proof.
  intros env team max_assignments.
  split; [ apply available_resources_sublist | split ].
  - intros Hmax. unfold _get_available_resources, slice_to.
    destruct (Z.leb_spec 0 max_assignments); [ | lia ].
    rewrite length_take. lia.
  - apply no_roster_no_resources.
Qed.

Lemma available_resources_come_from_the_roster_witness :
  (Z.of_nat (length (_get_available_resources env0 "compliance_team" 1)) <= 1)%Z
  /\ _get_available_resources env0 "general_ops_team" 5 = [].
Proof.
  destruct (available_resources_come_from_the_roster env0 "compliance_team" 1)
    as (_ & Hmax & _).
  destruct (available_resources_come_from_the_roster env0 "general_ops_team" 5)
    as (_ & _ & Hnone).
  split; [ apply Hmax; lia | apply Hnone; reflexivity ].
Defined.

(** X8: the assignee of an allocation is a member of the roster of the
    assigned team, with availability [True] and confidence 0.95, or the
    placeholder [<team>_default], with availability [False] and confidence
    0.6; there is no third case. *)
Theorem assignee_is_a_member_or_the_default :
  forall self env input_data pathway priority,
    let allocation :=
      allocate_resources self env input_data pathway priority in
    (assigned_to allocation
       ∈ dict_get team_roster (assigned_team allocation) []
     /\ resource_availability_check allocation = true
     /\ allocation_confidence allocation = 0.95%float)
    \/ (assigned_to allocation = assigned_team allocation +:+ "_default"
        /\ resource_availability_check allocation = false
        /\ allocation_confidence allocation = 0.6%float).
Proof.
  intros self env input_data pathway priority. cbn.
  pose proof (available_resources_sublist
                env (dict_get team_map pathway "general_ops_team")
                (max_concurrent_assignments
                   (resource_allocation (compliance_rules self))))
    as Hsub.
  destruct (_get_available_resources _ _ _) as [|first rest].
  - right. repeat split.
  - left. repeat split.
    eapply elem_of_sublist; [ | exact Hsub ]. left.
Qed.

(** X9: a pathway outside the four of the team table goes to
    [general_ops_team], which has no roster: the assignee is the placeholder
    [general_ops_team_default] and the allocation is marked unavailable,
    whatever the random draws and the bound of the table. *)
Theorem unknown_pathway_has_no_resources :
  forall self env input_data pathway priority,
    team_map !! pathway = None ->
    let allocation :=
      allocate_resources self env input_data pathway priority in
    assigned_team allocation = "general_ops_team"%string
    /\ assigned_to allocation = "general_ops_team_default"%string
    /\ resource_availability_check allocation = false
    /\ allocation_confidence allocation = 0.6%float.
Proof.
  intros self env input_data pathway priority Hpathway allocation.
  subst allocation. unfold allocate_resources.
  cbn [assigned_team assigned_to resource_availability_check
       allocation_confidence].
  replace (dict_get team_map pathway "general_ops_team")
    with "general_ops_team"%string
    by (unfold dict_get; now rewrite Hpathway).
  rewrite no_roster_no_resources by reflexivity. repeat split.
Qed.

Lemma unknown_pathway_has_no_resources_witness :
  assigned_to (allocate_resources sample_vaa later_env compliance_check_input
                                  "default_processing" 3)
  = "general_ops_team_default"%string.
Proof.
  apply (unknown_pathway_has_no_resources
           sample_vaa later_env compliance_check_input "default_processing" 3).
  reflexivity.
Defined.

(** *** Validation followed by execution *)

(** X10: [execute_task] on the result of [validate_business_rules]: without
    an approval the task is escalated exactly when the level is YELLOW or
    RED, and then the escalation record carries at least one finding; a
    GREEN task runs as [vaa_autonomous]; with an approval every task runs,
    under the name of the approver.  In each case the audit entry or the
    escalation record carries the risk score of the check.  A task runs
    when it has an expected completion; where it has none, the call raises
    the exception of that sum instead of running the task, and never
    instead of escalating it. *)
Theorem validated_task_is_escalated_unless_green :
  forall self self0 env1 env2 input_data pathway classification allocation
         compliance_check human_approval,
    validate_business_rules self0 env1 input_data pathway
    = Ok compliance_check ->
    match execute_task self env2 input_data classification
                       compliance_check allocation human_approval with
    | Ok (escalated record, _) =>
        human_approval = None
        /\ compliance_status compliance_check <> GREEN
        /\ compliance_issues record <> []
        /\ esc_risk_score record = risk_score compliance_check
    | Ok (executing result, _) =>
        match human_approval with
        | None => compliance_status compliance_check = GREEN
                  /\ executed_by result = "vaa_autonomous"%string
        | Some approver => executed_by result = ("approver_" +:+ approver)%string
        end
        /\ compliance_risk_score (exec_audit_trail result)
           = risk_score compliance_check
        /\ returns (completion_time env2 allocation)
    | Raise e =>
        (human_approval <> None
         \/ compliance_status compliance_check = GREEN)
        /\ completion_time env2 allocation = Raise e
    end.
Proof.
  intros self self0 env1 env2 input_data pathway classification allocation
         compliance_check human_approval Hcheck.
  destruct (validate_returns_classified _ _ _ _ _ Hcheck) as [_ Hreview].
  pose proof (no_findings_is_green _ _ _ _ _ Hcheck) as Hgreen.
  unfold execute_task. rewrite Hreview.
  destruct (compliance_status compliance_check) eqn:Hstatus,
           human_approval as [approver|];
    cbn [in_yellow_red is_None andb];
    try (destruct (completion_time env2 allocation) as [t|e];
         cbn [mbind result_bind];
         [ repeat split; now exists t
         | split; [ (now left) || (now right) | reflexivity ] ]);
    (repeat split; try discriminate;
     intros Hnil; destruct (Hgreen Hnil) as (_ & Habs & _); discriminate).
Qed.

(** The sample task: escalated without an approval; with one, run when it
    asks for 1.5 hours, and raising when its hours are not a number. *)
Lemma validated_task_is_escalated_unless_green_witness :
  exists compliance_check record self',
    validate_business_rules sample_vaa env0 sample_input PROCUREMENT
    = Ok compliance_check
    /\ execute_task sample_vaa later_env sample_input
                    sample_classification compliance_check
                    sample_allocation None
       = Ok (escalated record, self')
    /\ compliance_issues record <> []
    /\ completion_time later_env
         (call_allocation (sample_task (PyStr "soon") (Some "cfo"%string)))
       = Raise TypeError.
Proof.
  do 3 eexists. split; [ reflexivity | ]. split; [ reflexivity | ].
  split.
  - apply (validated_task_is_escalated_unless_green
             sample_vaa sample_vaa env0 later_env sample_input PROCUREMENT
             sample_classification sample_allocation _ None eq_refl).
  - apply (validated_task_is_escalated_unless_green
             sample_vaa sample_vaa env0 later_env sample_input PROCUREMENT
             sample_classification
             (call_allocation (sample_task (PyStr "soon") (Some "cfo"%string)))
             _ (Some "cfo"%string) eq_refl).
Defined.

(** *** The logs of the object *)

(** One call keeps the audit trail in step with the process log, and
    extends the three lists at the end. *)
Lemma step_logs self c :
  (decision_audit_trail self = map exec_audit_trail (process_log self) ->
   decision_audit_trail (step self c)
   = map exec_audit_trail (process_log (step self c)))
  /\ process_log self `prefix_of` process_log (step self c)
  /\ escalation_queue self `prefix_of` escalation_queue (step self c)
  /\ resource_pool (step self c) = resource_pool self.
Proof.
  destruct c as [env []]; cbn [step]; try (repeat split; auto; fail).
  unfold execute_task.
  destruct (_ && _);
    [ | destruct (completion_time _ _); cbn [mbind result_bind] ];
    cbn [process_log escalation_queue decision_audit_trail resource_pool].
  - repeat split; auto. now apply prefix_app_r.
  - repeat split; auto; [ | now apply prefix_app_r ].
    intros ->. now rewrite map_app.
  - repeat split; auto.
Qed.

(** X11: after any sequence of calls of the public methods on a new
    object, the decision audit trail is the list of the audit entries of
    the process log, entry by entry: every executed task has its audit
    entry and no escalated one has; the process log and the escalation
    queue of any object are extended at the end only; and no method ever
    writes to the resource pool. *)
Theorem audit_trail_follows_the_process_log :
  forall self calls,
    (decision_audit_trail self = map exec_audit_trail (process_log self) ->
     decision_audit_trail (run self calls)
     = map exec_audit_trail (process_log (run self calls)))
    /\ process_log self `prefix_of` process_log (run self calls)
    /\ escalation_queue self `prefix_of` escalation_queue (run self calls)
    /\ resource_pool (run self calls) = resource_pool self.
Proof.
  intros self calls. unfold run. revert self.
  induction calls as [|c calls IH]; intros self; [ repeat split; auto | ].
  cbn [fold_left].
  destruct (step_logs self c) as (Htrail & Hlog & Hqueue & Hpool).
  destruct (IH (step self c)) as (Htrail' & Hlog' & Hqueue' & Hpool').
  repeat split; [ auto | now transitivity (process_log (step self c))
                | now transitivity (escalation_queue (step self c))
                | congruence ].
Qed.

Lemma audit_trail_follows_the_process_log_witness :
  let calls :=
    [(env0, call_execute_task sample_input sample_classification
                              sample_check sample_allocation None);
     (later_env, call_validate_business_rules sample_input PROCUREMENT);
     (later_env, call_execute_task sample_input sample_classification
                                   sample_check sample_allocation
                                   (Some "cfo"%string))] in
  decision_audit_trail (run sample_vaa calls)
  = map exec_audit_trail (process_log (run sample_vaa calls))
  /\ length (process_log (run sample_vaa calls)) = 1.
Proof.
  intros calls. split; [ | reflexivity ].
  now apply (audit_trail_follows_the_process_log sample_vaa calls).
Defined.

End BusinessOpsMore.

(* ===================================================================== *)
(** ** The governance audit of the business operations agent *)
(* ===================================================================== *)

Module OperationsAuditFacts.
Import OperationsAudit.

(** An audit reads the agent and appends to the reports only; a task
    changes the agent only. *)
Lemma run_store calls : forall self,
  vaa (run self calls)
  = snd (BusinessOps.run_tasks (vaa self) (tasks_of calls))
  /\ length (audit_reports (run self calls)) + length (tasks_of calls)
     = length (audit_reports self) + length calls.
Proof.
  unfold run, tasks_of.
  induction calls as [|[c|env period] calls IH]; intros self;
    cbn [fold_left step omap list_omap].
  - split; [ reflexivity | cbn; lia ].
  - destruct (IH (snd (execute_task self c))) as [Hvaa Hlen].
    rewrite Hvaa. unfold execute_task in *.
    cbn [BusinessOps.run_tasks].
    destruct (BusinessOps.attempt (vaa self) c) as [o agent].
    cbn [snd vaa audit_reports] in *.
    destruct (BusinessOps.run_tasks agent _) as [os agent'].
    split; [ reflexivity | ].
    cbn [length]. lia.
  - destruct (IH (snd (generate_compliance_audit self env period)))
      as [Hvaa Hlen].
    rewrite Hvaa. cbn [generate_compliance_audit snd vaa audit_reports] in *.
    split; [ reflexivity | ].
    rewrite length_app in Hlen. cbn [length] in *.
    lia.
Qed.

(** X12: an auditor created on a new agent, after any sequence of tasks and
    audits: the next report counts every task that returned once, the
    executed ones as logged decisions and the escalated ones as
    escalations, and no task that raised, so the two counts and the number
    of tasks that raised add up to the number of tasks; the audits before
    it have not changed the agent, and every audit has added one report. *)
Theorem audit_counts_every_task_once :
  forall vaa_id regulatory_framework calls env audit_period_days,
    let agent := BusinessOps.__init__ vaa_id regulatory_framework in
    let self := run (__init__ agent) calls in
    let '(outcomes, after_tasks) :=
      BusinessOps.run_tasks agent (tasks_of calls) in
    let '(report, self') :=
      generate_compliance_audit self env audit_period_days in
    total_decisions_logged report
    = Z.of_nat (length (BusinessOps.executions_of outcomes))
    /\ escalations_requiring_approval report
       = Z.of_nat (length (BusinessOps.escalations_of outcomes))
    /\ (total_decisions_logged report + escalations_requiring_approval report
        + Z.of_nat (length (BusinessOps.raised_of outcomes))
        = Z.of_nat (length (tasks_of calls)))%Z
    /\ vaa self = after_tasks
    /\ vaa self' = vaa self
    /\ length (audit_reports self') + length (tasks_of calls)
       = S (length calls).
Proof.
  intros vaa_id regulatory_framework calls env audit_period_days agent self.
  destruct (run_store calls (__init__ agent)) as [Hvaa Hlen].
  fold self in Hvaa, Hlen. cbn [__init__ vaa audit_reports length] in *.
  destruct (BusinessOps.run_tasks agent (tasks_of calls))
    as [outcomes agent'] eqn:Hrun.
  cbn [generate_compliance_audit total_decisions_logged
       escalations_requiring_approval vaa audit_reports].
  rewrite length_app. cbn [length].
  destruct (LogFacts.run_tasks_logs _ _ _ _ Hrun)
    as (_ & _ & Htrail & Hqueue & Hsum).
  cbn [snd] in Hvaa. rewrite Hvaa, Htrail, Hqueue.
  cbn [BusinessOps.__init__ BusinessOps.decision_audit_trail
       BusinessOps.escalation_queue agent app].
  rewrite length_map.
  repeat split; lia.
Qed.

(** X13: the findings of a report: [audit_coverage] exactly when fewer than
    50 decisions are logged and [escalation_volume] exactly when more than
    10 escalations wait, in that order and nothing else; the control
    effectiveness and the opinion are the same in every report, with or
    without findings.  An agent on which fewer than 50 tasks have run
    always has a finding. *)
Theorem audit_opinion_ignores_findings :
  forall self env audit_period_days,
    let report := fst (generate_compliance_audit self env audit_period_days) in
    compliance_findings report
    = (if (10 <? escalations_requiring_approval report)%Z
       then [escalation_volume] else [])
      ++ (if (total_decisions_logged report <? 50)%Z
          then [audit_coverage] else [])
    /\ control_effectiveness report = "effective"%string
    /\ audit_opinion report = "controls_in_place"%string
    /\ (length (BusinessOps.decision_audit_trail (vaa self)) < 50 ->
        audit_coverage ∈ compliance_findings report).
Proof.
  intros self env audit_period_days. cbn.
  rewrite Z.gtb_ltb.
  repeat split.
  - now destruct (10 <? _)%Z, (_ <? 50)%Z.
  - intros Hfew.
    destruct (Z.ltb_spec (Z.of_nat (length (BusinessOps.decision_audit_trail
                                              (vaa self)))) 50);
      [ | lia ].
    destruct (10 <? _)%Z; cbn; set_solver.
Qed.

Lemma audit_opinion_ignores_findings_witness :
  audit_coverage
    ∈ compliance_findings
        (fst (generate_compliance_audit
                (__init__ BusinessOps.sample_vaa) BusinessOps.env0 30)).
Proof.
  apply (audit_opinion_ignores_findings
           (__init__ BusinessOps.sample_vaa) BusinessOps.env0 30).
  cbn. lia.
Defined.

End OperationsAuditFacts.

(* ===================================================================== *)
(** ** Further properties of the demand forecasting agent *)
(* ===================================================================== *)

Module SupplyChainMore.
Import PyFacts SupplyChain SupplyChainFacts.

(** *** The exceptions of a recommendation *)

(** The conversions between ints and floats raise [OverflowError] and
    [ValueError] only. *)
Lemma float_of_int_raises z e :
  float_of_int z = Raise e -> e = OverflowError.
Proof.
  unfold float_of_int.
  destruct (binary_normalize _ _ _ _ _); congruence.
Qed.

Lemma int_of_float_raises x e :
  int_of_float x = Raise e -> e = OverflowError \/ e = ValueError.
Proof.
  unfold int_of_float.
  destruct (Prim2SF x); intros H; try discriminate;
    injection H as <-; auto.
Qed.

Lemma mul_int_raises x z e : mul_int x z = Raise e -> e = OverflowError.
Proof.
  unfold mul_int. pose proof (float_of_int_raises z e).
  destruct (float_of_int z); cbn; [ discriminate | auto ].
Qed.

Lemma add_int_raises x z e : add_int x z = Raise e -> e = OverflowError.
Proof.
  unfold add_int. pose proof (float_of_int_raises z e).
  destruct (float_of_int z); cbn; [ discriminate | auto ].
Qed.

Lemma int_truediv_raises a b e :
  int_truediv a b = Raise e ->
  (e = ZeroDivisionError /\ b = 0%Z) \/ (e = OverflowError /\ b <> 0%Z).
Proof.
  unfold int_truediv. destruct (Z.eqb_spec b 0).
  - intros H. injection H as <-. auto.
  - destruct (SFdiv _ _ _ _); intros H; try discriminate.
    injection H as <-. auto.
Qed.

(** A bind raises what its first part raises, or what the rest raises. *)
Lemma bind_raises {A B} (m : result A) (f : A -> result B) (e : exception) :
  m ≫= f = Raise e -> m = Raise e \/ exists a, m = Ok a /\ f a = Raise e.
Proof.
  destruct m as [a|e']; cbn [mbind result_bind]; intros H;
    [ right; exists a; split; [ reflexivity | exact H ]
    | left; now injection H as -> ].
Qed.

(** The exceptions of a recommendation: the division by the horizon, and
    the conversions. *)
Lemma recommendation_raises self env forecast current_inventory
    lead_time_days safety_stock_factor e :
  generate_inventory_recommendation self env forecast current_inventory
    lead_time_days safety_stock_factor = Raise e ->
  (e = ZeroDivisionError /\ horizon_days forecast = 0%Z)
  \/ ((e = OverflowError \/ e = ValueError) /\ horizon_days forecast <> 0%Z).
Proof.
  intros H. unfold generate_inventory_recommendation in H.
  apply bind_raises in H as [H|(daily_demand & Hdaily & H)].
  { apply int_truediv_raises in H as [[-> ?]|[-> ?]]; auto. }
  right. split.
  2: { intros Hzero. unfold int_truediv in Hdaily.
       now rewrite Hzero in Hdaily. }
  apply bind_raises in H as [H|(lead_time_demand & _ & H)];
    [ apply mul_int_raises in H; auto | ].
  apply bind_raises in H as [H|(scaled & _ & H)];
    [ apply mul_int_raises in H; auto | ].
  apply bind_raises in H as [H|(safety_stock & _ & H)];
    [ now apply int_of_float_raises in H | ].
  apply bind_raises in H as [H|(reorder_point & _ & H)];
    [ apply add_int_raises in H; auto | ].
  apply bind_raises in H as [H|([kind qty] & _ & H)]; [ | discriminate ].
  destruct (int_lt_float _ _); [ | destruct (_ >? _)%Z; [ | discriminate ] ];
    (apply bind_raises in H as [H|(x & _ & H)];
     [ apply float_of_int_raises in H; auto | ];
     apply bind_raises in H as [H|(q & _ & H)];
     [ now apply int_of_float_raises in H | discriminate ]).
Qed.

(** X14: a recommendation raises [ZeroDivisionError] exactly when the
    forecast has a horizon of zero days; with any other horizon, negative
    ones included, no step divides by zero, and the only exceptions left
    are the [OverflowError] and the [ValueError] of a conversion between
    int and float. *)
Theorem recommendation_divides_by_the_horizon_only :
  forall self env forecast current_inventory lead_time_days
         safety_stock_factor,
    (generate_inventory_recommendation self env forecast current_inventory
       lead_time_days safety_stock_factor = Raise ZeroDivisionError
     <-> horizon_days forecast = 0%Z)
    /\ (forall e,
           generate_inventory_recommendation self env forecast
             current_inventory lead_time_days safety_stock_factor = Raise e ->
           e = ZeroDivisionError \/ e = OverflowError \/ e = ValueError).
Proof.
  intros self env forecast current_inventory lead_time_days
         safety_stock_factor.
  split; [ split; [ | apply zero_horizon_raises ] | ].
  - intros H. apply recommendation_raises in H as [[_ ?]|[[?|?] _]];
      [ assumption | discriminate | discriminate ].
  - intros e H. apply recommendation_raises in H as [[? _]|[[?|?] _]]; auto.
Qed.

(** *** A recommendation followed by its execution *)

(** The approval flag of a recommendation is the escalation test on its
    own quantity and confidence, and on the error rate of the forecast. *)
Lemma recommendation_approval self env forecast current_inventory
    lead_time_days safety_stock_factor action :
  generate_inventory_recommendation self env forecast current_inventory
    lead_time_days safety_stock_factor = Ok action ->
  requires_approval action
  = _requires_human_approval (action_type action) (recommended_qty action)
                             (confidence_score action) forecast.
Proof.
  unfold generate_inventory_recommendation. intros H.
  apply bind_returns in H as (daily_demand & _ & H).
  apply bind_returns in H as (lead_time_demand & _ & H).
  apply bind_returns in H as (scaled & _ & H).
  apply bind_returns in H as (safety_stock & _ & H).
  apply bind_returns in H as (reorder_point & _ & H).
  apply bind_returns in H as ([kind qty] & _ & H).
  now injection H as <-.
Qed.

(** A recommendation executed without a planner, by its approval flag:
    what is returned, and what the call does to the agent. *)
Lemma unplanned_execution self self0 env1 env2 forecast current_inventory
    lead_time_days safety_stock_factor action :
  generate_inventory_recommendation self0 env1 forecast current_inventory
    lead_time_days safety_stock_factor = Ok action ->
  let '(outcome, self') := execute_inventory_action self env2 action None in
  (vaa_id self' = vaa_id self
   /\ autonomy_level self' = autonomy_level self
   /\ last_training_date self' = last_training_date self
   /\ model_version self' = model_version self)
  /\ ((requires_approval action = true
       /\ (exists record, outcome = escalated record)
       /\ decision_log self' = decision_log self
       /\ escalation_queue self' = escalation_queue self ++ [action])
      \/ (requires_approval action = false
          /\ (exists result,
                 outcome = logged result
                 /\ exec_status result = "executed"%string
                 /\ executed_by result = "vaa_autonomous"%string
                 /\ (Z.abs (exec_recommended_qty result) <= 1000)%Z
                 /\ PrimFloat.ltb
                      (audit_confidence_score (exec_audit_trail result))
                      0.75 = false
                 /\ gtb (historical_error_rate forecast) 0.25 = false
                 /\ decision_log self' = decision_log self ++ [result])
          /\ escalation_queue self' = escalation_queue self)).
Proof.
  intros Haction.
  pose proof (recommendation_approval _ _ _ _ _ _ _ Haction) as Happroval.
  apply recommendation_fields in Haction as [_ Hlevel].
  unfold execute_inventory_action.
  destruct (requires_approval action) eqn:Hflag; cbn.
  { split; [ repeat split | left; repeat split; now eexists ]. }
  split; [ repeat split | right ].
  split; [ reflexivity | ]. split; [ | reflexivity ].
  eexists. split; [ reflexivity | ]. cbn.
  rewrite Hlevel. unfold _determine_decision_level.
  unfold _requires_human_approval in Happroval.
  destruct (PrimFloat.ltb (confidence_score action) 0.75);
    [ discriminate | ].
  destruct (Z.gtb_spec (Z.abs (recommended_qty action)) 1000);
    [ discriminate | ].
  fold (gtb (historical_error_rate forecast) 0.25).
  destruct (gtb (historical_error_rate forecast) 0.25); [ discriminate | ].
  repeat split; [ | assumption ].
  now destruct (_ && _).
Qed.

(** X15: a recommendation executed without a planner: it is escalated
    exactly when it requires approval; otherwise it is logged as executed
    by [vaa_autonomous], never as pending, and then its quantity is at most
    1000 in absolute value, its confidence is not below 0.75 and the error
    rate of the forecast is not above 0.25.  No larger or less certain
    action reaches the decision log without a planner. *)
Theorem autonomous_execution_is_bounded :
  forall self self0 env1 env2 forecast current_inventory lead_time_days
         safety_stock_factor action,
    generate_inventory_recommendation self0 env1 forecast current_inventory
      lead_time_days safety_stock_factor = Ok action ->
    match fst (execute_inventory_action self env2 action None) with
    | escalated _ => requires_approval action = true
    | logged result =>
        requires_approval action = false
        /\ exec_status result = "executed"%string
        /\ executed_by result = "vaa_autonomous"%string
        /\ (Z.abs (exec_recommended_qty result) <= 1000)%Z
        /\ PrimFloat.ltb (audit_confidence_score (exec_audit_trail result))
                         0.75 = false
        /\ gtb (historical_error_rate forecast) 0.25 = false
    end.
Proof.
  intros self self0 env1 env2 forecast current_inventory lead_time_days
         safety_stock_factor action Haction.
  pose proof (unplanned_execution self _ _ env2 _ _ _ _ _ Haction) as H.
  destruct (execute_inventory_action self env2 action None)
    as [outcome self'].
  destruct H as [_ [(Hflag & [record ->] & _)
                   |(Hflag & (result & -> & Hs & Hby & Hq & Hc & He & _) & _)]];
    cbn; auto 10.
Qed.

Lemma autonomous_execution_is_bounded_witness :
  exists action result,
    generate_inventory_recommendation sample_vaa env0 sample_forecast 5000
                                      14 0.2 = Ok action
    /\ fst (execute_inventory_action sample_vaa env0 action None)
       = logged result
    /\ exec_status result = "executed"%string
    /\ (Z.abs (exec_recommended_qty result) <= 1000)%Z.
Proof.
  eexists. eexists. split; [ reflexivity | ]. split; [ reflexivity | ].
  pose proof (autonomous_execution_is_bounded
                sample_vaa sample_vaa env0 env0 sample_forecast 5000 14
                0.2%float _ eq_refl) as (_ & Hstatus & _ & Hqty & _).
  split; [ exact Hstatus | exact Hqty ].
Defined.

(** X16: a recommendation on a forecast whose accuracy is below 0.65 is
    never executed: without a planner it is escalated, and with the
    approval of a planner it is logged with the status [pending_approval],
    under the name of the planner. *)
Theorem low_confidence_is_never_executed :
  forall self self0 env1 env2 forecast current_inventory lead_time_days
         safety_stock_factor action approved_by_planner,
    generate_inventory_recommendation self0 env1 forecast current_inventory
      lead_time_days safety_stock_factor = Ok action ->
    PrimFloat.ltb (accuracy_metric forecast) 0.65 = true ->
    match approved_by_planner,
          fst (execute_inventory_action self env2 action approved_by_planner)
    with
    | None, escalated record =>
        esc_decision_level record = "escalation"%string
    | Some planner, logged result =>
        exec_status result = "pending_approval"%string
        /\ executed_by result = ("planner_" +:+ planner)%string
    | _, _ => False
    end.
Proof.
  intros self self0 env1 env2 forecast current_inventory lead_time_days
         safety_stock_factor action approved_by_planner Haction Hlow.
  pose proof (recommendation_approval _ _ _ _ _ _ _ Haction) as Happroval.
  apply recommendation_fields in Haction as [Hconfidence Hlevel].
  rewrite <- Hconfidence in Hlow.
  assert (requires_approval action = true) as Hflag.
  { rewrite Happroval. unfold _requires_human_approval.
    now rewrite (ltb_trans _ 0.65 0.75 Hlow eq_refl). }
  unfold execute_inventory_action. rewrite Hlevel, Hflag.
  unfold _determine_decision_level. rewrite Hlow.
  now destruct approved_by_planner.
Qed.

Lemma low_confidence_is_never_executed_witness :
  exists action result,
    generate_inventory_recommendation
      sample_vaa env0 Orchestrator.uncertain_forecast 5000 14 0.2 = Ok action
    /\ fst (execute_inventory_action sample_vaa env0 action (Some "planner_7"))
       = logged result
    /\ exec_status result = "pending_approval"%string.
Proof.
  eexists. eexists. split; [ reflexivity | ]. split; [ reflexivity | ].
  apply (low_confidence_is_never_executed
           sample_vaa sample_vaa env0 env0 Orchestrator.uncertain_forecast
           5000 14 0.2%float _ (Some "planner_7"%string) eq_refl eq_refl).
Defined.

(** *** Drift monitoring *)

(** X17: [monitor_learning_drift] returns a report for every list of
    errors and every threshold: neither of its two quotients divides by
    zero.  The report asks for retraining exactly when it detects a drift,
    and it has the four fields of the measurement exactly when the list is
    not empty; an empty list is never a drift. *)
Theorem drift_report_is_total :
  forall self env recent_errors threshold,
    exists report,
      monitor_learning_drift self env recent_errors threshold = Ok report
      /\ (action report = "trigger_retraining"%string
          <-> drift_detected report = true)
      /\ (action report = "continue_monitoring"%string
          <-> drift_detected report = false)
      /\ (details report = None <-> recent_errors = [])
      /\ (recent_errors = [] -> drift_detected report = false)
      /\ (forall measured,
             details report = Some measured ->
             drift_model_version measured = model_version self
             /\ drift_detected report
                = gtb (PrimFloat.abs (drift_percent measured))
                      (PrimFloat.mul threshold 100)).
Proof.
  intros self env recent_errors threshold.
  destruct recent_errors as [|x l].
  - eexists. split; [ reflexivity | ]. cbn.
    repeat split; intros; try discriminate; reflexivity.
  - unfold monitor_learning_drift. rewrite truediv_int_length.
    cbn [mbind result_bind].
    eexists. split; [ reflexivity | ]. cbn.
    destruct (PrimFloat.ltb (PrimFloat.mul threshold 100) _) eqn:Hdrift;
      (repeat split; try discriminate; try reflexivity;
       match goal with
       | Hmeasured : Some _ = Some _ |- _ => injection Hmeasured as <-
       end; first [ reflexivity | symmetry; exact Hdrift ]).
Qed.

End SupplyChainMore.

(* ===================================================================== *)
(** ** The supply chain orchestrator *)
(* ===================================================================== *)

Module OrchestratorFacts.
Import PyFacts PyErrors SupplyChain SupplyChainFacts SupplyChainMore
       Orchestrator.

(** *** Forecasts *)

Lemma num_mul_raises a b e : num_mul a b = Raise e -> e = OverflowError.
Proof.
  destruct a as [x|x], b as [y|y]; cbn [num_mul]; try discriminate;
    intros H; apply bind_raises in H as [H|(? & _ & H)];
    [ now apply float_of_int_raises in H | discriminate
    | now apply float_of_int_raises in H | discriminate ].
Qed.

Lemma num_sub_raises a b e : num_sub a b = Raise e -> e = OverflowError.
Proof.
  destruct a as [x|x], b as [y|y]; cbn [num_sub]; try discriminate;
    intros H; apply bind_raises in H as [H|(? & _ & H)];
    [ now apply float_of_int_raises in H | discriminate
    | now apply float_of_int_raises in H | discriminate ].
Qed.

Lemma num_add_raises a b e : num_add a b = Raise e -> e = OverflowError.
Proof.
  destruct a as [x|x], b as [y|y]; cbn [num_add]; try discriminate;
    intros H; apply bind_raises in H as [H|(? & _ & H)];
    [ now apply float_of_int_raises in H | discriminate
    | now apply float_of_int_raises in H | discriminate ].
Qed.

Lemma num_int_raises a e :
  num_int a = Raise e -> e = OverflowError \/ e = ValueError.
Proof.
  destruct a as [z|x]; cbn [num_int]; [ discriminate | ].
  apply int_of_float_raises.
Qed.

(** A forecast raises in a conversion only: it divides nothing. *)
Lemma forecast_demand_raises draw historical_data product_id location_id
    horizon e :
  forecast_demand draw historical_data product_id location_id horizon
  = Raise e ->
  e = OverflowError \/ e = ValueError.
Proof.
  unfold forecast_demand. intros H.
  apply bind_raises in H as [H|(seasonal & _ & H)];
    [ apply num_mul_raises in H; auto | ].
  apply bind_raises in H as [H|(total & _ & H)];
    [ apply num_mul_raises in H; auto | ].
  apply bind_raises in H as [H|(point_forecast & _ & H)];
    [ now apply num_int_raises in H | ].
  apply bind_raises in H as [H|(low & _ & H)];
    [ apply num_sub_raises in H; auto | ].
  apply bind_raises in H as [H|(low' & _ & H)];
    [ apply num_mul_raises in H; auto | ].
  apply bind_raises in H as [H|(lower & _ & H)];
    [ now apply num_int_raises in H | ].
  apply bind_raises in H as [H|(high & _ & H)];
    [ apply num_add_raises in H; auto | ].
  apply bind_raises in H as [H|(high' & _ & H)];
    [ apply num_mul_raises in H; auto | ].
  apply bind_raises in H as [H|(upper & _ & H)];
    [ now apply num_int_raises in H | discriminate ].
Qed.

(** The fields that a forecast copies from its arguments. *)
Lemma forecast_demand_fields draw historical_data product_id location_id
    horizon forecast :
  forecast_demand draw historical_data product_id location_id horizon
  = Ok forecast ->
  forecast_product_id forecast = product_id
  /\ forecast_location_id forecast = location_id
  /\ horizon_days forecast = horizon.
Proof.
  unfold forecast_demand. intros H.
  apply bind_returns in H as (seasonal & _ & H).
  apply bind_returns in H as (total & _ & H).
  apply bind_returns in H as (point_forecast & _ & H).
  apply bind_returns in H as (low & _ & H).
  apply bind_returns in H as (low' & _ & H).
  apply bind_returns in H as (lower & _ & H).
  apply bind_returns in H as (high & _ & H).
  apply bind_returns in H as (high' & _ & H).
  apply bind_returns in H as (upper & _ & H).
  now injection H as <-.
Qed.

(** *** The identifier of an agent is not its key *)

Lemma length_append (s1 s2 : string) :
  String.length (s1 +:+ s2) = String.length s1 + String.length s2.
Proof.
  induction s1 as [|c s1 IH]; [ reflexivity | ].
  change (S (String.length (s1 +:+ s2))
          = S (String.length s1 + String.length s2)).
  now rewrite IH.
Qed.

Lemma vaa_id_is_not_the_location (location_id : string) :
  ("SC_VAA_" +:+ location_id)%string <> location_id.
Proof.
  intros H. apply (f_equal String.length) in H.
  rewrite length_append in H. cbn in H. lia.
Qed.

(** *** One cycle *)

Lemma executions_of_logged (executed : list ExecutedAction) :
  executions_of (map logged executed) = executed.
Proof.
  unfold executions_of.
  induction executed as [|r l IH]; cbn; [ reflexivity | now f_equal ].
Qed.

(** The loop of a cycle that returns: every product has added a forecast,
    and either an executed action, which is in the decision log of the
    agent, or an escalation, which is in its queue. *)
Lemma cycle_loop_returns env location_id historical_data items :
  forall k vaa cycle_results result vaa',
    cycle_loop env location_id historical_data items k vaa cycle_results
    = (Returned result, vaa') ->
    (cycle_location_id result = cycle_location_id cycle_results
     /\ cycle_timestamp result = cycle_timestamp cycle_results
     /\ vaa_id vaa' = vaa_id vaa
     /\ autonomy_level vaa' = autonomy_level vaa
     /\ last_training_date vaa' = last_training_date vaa
     /\ model_version vaa' = model_version vaa)
    /\ length (forecasts result)
       = length (forecasts cycle_results) + length items
    /\ exists executed records,
         actions result = actions cycle_results ++ map logged executed
         /\ escalations result
            = escalations cycle_results ++ map escalated records
         /\ decision_log vaa' = decision_log vaa ++ executed
         /\ length (SupplyChain.escalation_queue vaa')
            = length (SupplyChain.escalation_queue vaa) + length records
         /\ length executed + length records = length items
         /\ Forall (fun r => exec_status r = "executed"%string
                             /\ executed_by r = "vaa_autonomous"%string
                             /\ (Z.abs (exec_recommended_qty r) <= 1000)%Z)
                   executed.
Proof.
  induction items as [|[product_id inventory_qty] items IH];
    intros k vaa cycle_results result vaa' H; cbn [cycle_loop] in H.
  { injection H as <- <-. repeat split; [ cbn; lia | ].
    exists [], []. cbn. rewrite !app_nil_r.
    repeat split; [ lia | constructor ]. }
  destruct (forecast_demand _ _ _ _ _) as [forecast|e]; [ | discriminate ].
  destruct (generate_inventory_recommendation _ _ _ _ _ _)
    as [action|e] eqn:Haction; [ | discriminate ].
  pose proof (unplanned_execution vaa _ _ (execute_env env k) _ _ _ _ _
                                  Haction) as Hcall.
  destruct (execute_inventory_action vaa _ action None) as [outcome vaa1].
  destruct Hcall
    as [(Hid & Hlevel & Hdate & Hversion)
          [(_ & [record ->] & Hlog & Hqueue)
          |(_ & (r & -> & Hstatus & Hby & Hqty & _ & _ & Hlog) & Hqueue)]].
  - cbn [status String.eqb Ascii.eqb Bool.eqb] in H.
    apply IH in H
      as ((-> & -> & -> & -> & -> & ->) & Hlen & executed & records
          & -> & -> & -> & Hrecords & Hsum & Hall).
    cbn [cycle_location_id cycle_timestamp forecasts actions escalations]
      in *.
    repeat split; try assumption.
    { rewrite Hlen, length_app. cbn. lia. }
    exists executed, (record :: records).
    rewrite Hlog, Hrecords, Hqueue, length_app, <- app_assoc. cbn.
    repeat split; [ lia | lia | assumption ].
  - cbn [status] in H. rewrite Hstatus in H.
    cbn [String.eqb Ascii.eqb Bool.eqb] in H.
    apply IH in H
      as ((-> & -> & -> & -> & -> & ->) & Hlen & executed & records
          & -> & -> & -> & Hrecords & Hsum & Hall).
    cbn [cycle_location_id cycle_timestamp forecasts actions escalations]
      in *.
    repeat split; try assumption.
    { rewrite Hlen, length_app. cbn. lia. }
    exists (r :: executed), records.
    rewrite Hlog, Hrecords, Hqueue, <- !app_assoc. cbn.
    repeat split; [ lia | ]. constructor; [ auto | assumption ].
Qed.

(** The loop of a cycle raises in a conversion only: the horizon of its
    forecasts is 30 days. *)
Lemma cycle_loop_fails env location_id historical_data items :
  forall k vaa cycle_results e vaa',
    cycle_loop env location_id historical_data items k vaa cycle_results
    = (Failed e, vaa') ->
    e = Raised OverflowError \/ e = Raised ValueError.
Proof.
  induction items as [|[product_id inventory_qty] items IH];
    intros k vaa cycle_results e vaa' H; cbn [cycle_loop] in H;
    [ discriminate | ].
  destruct (forecast_demand _ _ _ _ _) as [forecast|e0] eqn:Hforecast.
  2: { injection H as <- _.
       apply forecast_demand_raises in Hforecast as [->| ->]; auto. }
  apply forecast_demand_fields in Hforecast as (_ & _ & Hhorizon).
  destruct (generate_inventory_recommendation _ _ _ _ _ _)
    as [action|e0] eqn:Haction.
  2: { injection H as <- _.
       apply recommendation_raises in Haction
         as [[_ Hzero]|[[->| ->] _]]; auto.
       rewrite Hhorizon in Hzero. discriminate. }
  destruct (execute_inventory_action vaa _ action None) as [outcome vaa1].
  now apply IH in H.
Qed.

(** X18: a cycle for a location that is not registered raises [KeyError]
    and changes nothing; a cycle for a registered location can only raise
    the [OverflowError] or the [ValueError] of a conversion between int and
    float: no division by zero, whatever the history and the inventory. *)
Theorem cycle_exceptions :
  forall self env location_id historical_data current_inventory,
    (vaas self !! location_id = None ->
     process_inventory_cycle self env location_id historical_data
                             current_inventory
     = (Failed (KeyError location_id), self))
    /\ (forall e self',
           process_inventory_cycle self env location_id historical_data
                                   current_inventory
           = (Failed e, self') ->
           (e = KeyError location_id /\ vaas self !! location_id = None
            /\ self' = self)
           \/ ((e = Raised OverflowError \/ e = Raised ValueError)
               /\ is_Some (vaas self !! location_id))).
Proof.
  intros self env location_id historical_data current_inventory.
  unfold process_inventory_cycle. split.
  - now intros ->.
  - intros e self'. destruct (vaas self !! location_id) as [vaa|].
    + destruct (cycle_loop _ _ _ _ _ _ _) as [result vaa'] eqn:Hloop.
      intros H. injection H as -> _.
      apply cycle_loop_fails in Hloop. right. split; [ assumption | eauto ].
    + intros H. injection H as <- <-. left. repeat split.
Qed.

Lemma cycle_exceptions_witness :
  process_inventory_cycle __init__ cycle_env0 location sample_history
                          sample_inventory
  = (Failed (KeyError location), __init__).
Proof.
  apply (cycle_exceptions __init__ cycle_env0 location sample_history
                          sample_inventory).
  reflexivity.
Defined.

(** A cycle of a new agent that returns: its log and its queue hold what
    the cycle reports. *)
Lemma new_agent_cycle_counts self env1 env2 location_id level
    historical_data current_inventory results self' :
  process_inventory_cycle
    (snd (register_vaa self env1 location_id level)) env2 location_id
    historical_data current_inventory
  = (Returned results, self') ->
  length (actions results) + length (escalations results)
  = length current_inventory
  /\ exists vaa',
       vaas self' = <[location_id := vaa']> (<[location_id :=
           SupplyChain.__init__ env1 ("SC_VAA_" +:+ location_id) level]>
                                               (vaas self))
       /\ length (decision_log vaa') = length (actions results)
       /\ length (SupplyChain.escalation_queue vaa')
          = length (escalations results).
Proof.
  unfold process_inventory_cycle. cbn [register_vaa snd vaas].
  rewrite lookup_insert_eq.
  destruct (cycle_loop _ _ _ _ _ _ _) as [result vaa'] eqn:Hloop.
  intros H. injection H as -> <-.
  apply cycle_loop_returns in Hloop
    as (_ & _ & executed & records & Hactions & Hescalations & Hlog
        & Hqueue & Hsum & _).
  cbn [actions escalations decision_log SupplyChain.escalation_queue
       SupplyChain.__init__ app length] in *.
  rewrite Hactions, Hescalations, !length_map.
  split; [ assumption | ]. exists vaa'.
  rewrite Hlog, Hqueue. repeat split.
Qed.

(** X19: a cycle that returns has one forecast for each product of the
    inventory, and for each product either one action or one escalation.
    The actions are the dictionaries that the agent of the location has
    appended to its decision log, each executed by [vaa_autonomous] with a
    quantity of at most 1000 in absolute value; the escalations are as many
    as the actions added to the queue of the agent.  The cycle writes to the
    agent of the location only: the log and the queue of the orchestrator
    itself are as before. *)
Theorem cycle_accounts_for_every_product :
  forall self env location_id historical_data current_inventory results
         self',
    process_inventory_cycle self env location_id historical_data
                            current_inventory
    = (Returned results, self') ->
    length (forecasts results) = length current_inventory
    /\ length (actions results) + length (escalations results)
       = length current_inventory
    /\ Forall (fun o => exists record, o = escalated record)
              (escalations results)
    /\ Forall (fun o => exists r,
                   o = logged r
                   /\ exec_status r = "executed"%string
                   /\ executed_by r = "vaa_autonomous"%string
                   /\ (Z.abs (exec_recommended_qty r) <= 1000)%Z)
              (actions results)
    /\ (exists vaa vaa',
           vaas self !! location_id = Some vaa
           /\ vaas self' = <[location_id := vaa']> (vaas self)
           /\ decision_log vaa'
              = decision_log vaa ++ executions_of (actions results)
           /\ length (SupplyChain.escalation_queue vaa')
              = length (SupplyChain.escalation_queue vaa)
                + length (escalations results))
    /\ governance_log self' = governance_log self
    /\ escalation_queue self' = escalation_queue self.
Proof.
  intros self env location_id historical_data current_inventory results
         self'.
  unfold process_inventory_cycle.
  destruct (vaas self !! location_id) as [vaa|]; [ | discriminate ].
  destruct (cycle_loop _ _ _ _ _ _ _) as [result vaa'] eqn:Hloop.
  intros H. injection H as -> <-.
  apply cycle_loop_returns in Hloop
    as (_ & Hlen & executed & records & Hactions & Hescalations & Hlog
        & Hqueue & Hsum & Hall).
  cbn [forecasts actions escalations app length] in *.
  rewrite Hactions, Hescalations, !length_map, executions_of_logged.
  repeat split; try assumption.
  - clear. induction records; constructor; eauto.
  - clear -Hall. induction Hall as [|r l (? & ? & ?) _ IH];
      constructor; eauto 10.
  - exists vaa, vaa'. cbn. repeat split; assumption.
Qed.

Lemma cycle_accounts_for_every_product_witness :
  exists results self',
    process_inventory_cycle sample_orchestrator cycle_env0 location
                            sample_history sample_inventory
    = (Returned results, self')
    /\ length (forecasts results) = 2
    /\ length (actions results) + length (escalations results) = 2.
Proof.
  eexists. eexists. split; [ vm_compute; reflexivity | ].
  edestruct (cycle_accounts_for_every_product
               sample_orchestrator cycle_env0 location sample_history
               sample_inventory) as (Hforecasts & Hsum & _);
    [ vm_compute; reflexivity | ].
  split; [ exact Hforecasts | exact Hsum ].
Defined.

(** *** Audits *)

(** The quotient of zero escalations. *)
Lemma no_escalations_rate (total : Z) :
  (0 <= total)%Z -> int_truediv 0 (Z.max total 1) = Ok 0%float.
Proof.
  intros Htotal. unfold int_truediv.
  destruct (Z.max total 1) as [|p|p] eqn:Hmax; try lia.
  reflexivity.
Qed.

(** X20: the agent that [register_vaa] creates is stored under the
    location, and its identifier is [SC_VAA_] followed by the location: a
    different text.  An audit asked for the location finds the new agent,
    with no decision, no escalation and a rate of 0, whatever agent the
    location had before, and reports the location as [vaa_id]; an audit
    asked for the identifier of the agent, as in the sample run, finds no
    agent unless a location of that name is registered. *)
Theorem audit_finds_agents_by_location :
  forall self env1 env2 location_id level,
    let '(vaa, self') := register_vaa self env1 location_id level in
    (exists report,
        audit_governance_compliance self' env2 location_id
        = Ok (audited report)
        /\ report_vaa_id report = location_id
        /\ report_vaa_id report <> vaa_id vaa
        /\ total_decisions report = 0%Z
        /\ escalations_count report = 0%Z
        /\ escalation_rate report = 0%float
        /\ report_autonomy_level report = DecisionLevel_value level)
    /\ (vaas self !! vaa_id vaa = None ->
        audit_governance_compliance self' env2 (vaa_id vaa)
        = Ok vaa_not_found).
Proof.
  intros self env1 env2 location_id level. cbn [register_vaa].
  unfold audit_governance_compliance.
  cbn [vaas SupplyChain.__init__ vaa_id].
  split.
  - rewrite lookup_insert_eq. cbn. eexists. split; [ reflexivity | ].
    cbn. repeat split. intros H. symmetry in H.
    now apply vaa_id_is_not_the_location in H.
  - intros Hfree.
    rewrite lookup_insert_ne by (intros H; symmetry in H;
                                 now apply vaa_id_is_not_the_location in H).
    now rewrite Hfree.
Qed.

Lemma audit_finds_agents_by_location_witness :
  audit_governance_compliance sample_orchestrator env0
                              "SC_VAA_warehouse_us_central"
  = Ok vaa_not_found.
Proof.
  apply (audit_finds_agents_by_location __init__ env0 env0 location
                                        SEMI_AUTONOMOUS).
  reflexivity.
Defined.

(** X21: an audit of a location after its registration and one cycle that
    returned: it finds the agent, counts the actions of the cycle as
    decisions and its escalations as escalations, one or the other for each
    product, and with no escalation the rate is 0 and the report has no
    recommendation about the escalation rate.  The audit can only raise in
    the quotient of the two counts, and only if there are escalations. *)
Theorem audit_reports_the_cycle :
  forall self env1 env2 env3 location_id level historical_data
         current_inventory results self',
    process_inventory_cycle
      (snd (register_vaa self env1 location_id level)) env2 location_id
      historical_data current_inventory
    = (Returned results, self') ->
    match audit_governance_compliance self' env3 location_id with
    | Ok (audited report) =>
        total_decisions report = Z.of_nat (length (actions results))
        /\ escalations_count report
           = Z.of_nat (length (escalations results))
        /\ (total_decisions report + escalations_count report
            = Z.of_nat (length current_inventory))%Z
        /\ (escalations results = [] ->
            escalation_rate report = 0%float
            /\ Forall (fun text =>
                         text <> "High escalation rate detected. Consider reviewing decision boundaries."%string)
                      (governance_recommendations report))
    | Ok vaa_not_found => False
    | Raise e => e = OverflowError /\ escalations results <> []
    end.
Proof.
  intros self env1 env2 env3 location_id level historical_data
         current_inventory results self' Hcycle.
  apply new_agent_cycle_counts in Hcycle
    as (Hsum & vaa' & Hvaas & Hlog & Hqueue).
  unfold audit_governance_compliance. rewrite Hvaas, lookup_insert_eq.
  rewrite Hlog, Hqueue.
  destruct (escalations results) as [|o l] eqn:Hescalations.
  - cbn [length Z.of_nat]. rewrite no_escalations_rate by lia.
    cbn [mbind result_bind]. cbn -[Z.div]. rewrite Nat.add_0_r in Hsum.
    repeat split; try lia.
    destruct (_ >? 90)%Z; repeat constructor. discriminate.
  - destruct (int_truediv _ _) as [rate|e] eqn:Hrate.
    + cbn [mbind result_bind]. cbn -[Z.div]. cbn [length] in Hsum.
      repeat split; try lia; discriminate.
    + cbn [mbind result_bind].
      apply int_truediv_raises in Hrate as [[_ Hzero]|[-> _]];
        [ lia | split; [ reflexivity | discriminate ] ].
Qed.

(** The sample run, audited under the key of the agent: both products are
    escalated, so the report counts no decision and two escalations. *)
Lemma audit_reports_the_cycle_witness :
  match audit_governance_compliance
          (snd (process_inventory_cycle sample_orchestrator cycle_env0
                                        location sample_history
                                        sample_inventory))
          env0 location with
  | Ok (audited report) =>
      total_decisions report = 0%Z /\ escalations_count report = 2%Z
  | _ => False
  end.
Proof.
  destruct (process_inventory_cycle sample_orchestrator cycle_env0 location
                                    sample_history sample_inventory)
    as [[results|e] self'] eqn:Hcycle;
    [ | vm_compute in Hcycle; discriminate ].
  pose proof (audit_reports_the_cycle
                __init__ env0 cycle_env0 env0 location SEMI_AUTONOMOUS
                sample_history sample_inventory results self' Hcycle) as H.
  vm_compute in Hcycle. injection Hcycle as <- <-.
  vm_compute in H. vm_compute.
  destruct H as (Hdecisions & Hescalations & _).
  split; [ exact Hdecisions | exact Hescalations ].
Defined.

End OrchestratorFacts.

(* ===================================================================== *)
(** ** Further properties of the marketing agent *)
(* ===================================================================== *)

Module MarketingFacts.
Import PyFacts PyErrors Marketing Content.

(** *** Floats *)

(** No float is below itself. *)
Lemma ltb_irrefl (x : float) : PrimFloat.ltb x x = false.
Proof.
  rewrite ltb_spec. unfold SFltb, SFcompare.
  destruct (Prim2SF x) as [[]|[]| |[] m e]; try reflexivity;
    change (PosDef.Pos.compare_cont Eq) with Pos.compare;
    rewrite Z.compare_refl, Pos.compare_refl; reflexivity.
Qed.

(** A float above zero is not zero. *)
Lemma positive_is_not_zero (x : float) :
  gtb x 0 = true -> PrimFloat.eqb x 0 = false.
Proof.
  unfold gtb. rewrite ltb_spec, FloatAxioms.eqb_spec.
  change (Prim2SF 0) with (S754_zero false).
  unfold SFltb, SFeqb, SFcompare.
  destruct (Prim2SF x) as [[]|[]| |[] m e]; try discriminate; reflexivity.
Qed.

(** *** Texts *)

Lemma lower_app (s t : string) : lower (s +:+ t) = lower s +:+ lower t.
Proof.
  induction s as [|c s IH]; [ reflexivity | ].
  change (String (lower_ascii c) (lower (s +:+ t))
          = String (lower_ascii c) (lower s +:+ lower t)).
  now rewrite IH.
Qed.

Lemma prefix_app (s t : string) : String.prefix s (s +:+ t) = true.
Proof.
  induction s as [|c s IH]; [ now destruct t | ].
  change (String.prefix (String c s) (String c (s +:+ t)) = true).
  cbn. now destruct (Ascii.ascii_dec c c).
Qed.

Lemma prefix_inv (s : string) : forall t,
  String.prefix s t = true -> exists post, t = s +:+ post.
Proof.
  induction s as [|c s IH]; intros t H; [ now exists t | ].
  destruct t as [|c' t]; [ discriminate | ]. cbn in H.
  destruct (Ascii.ascii_dec c c') as [<-|]; [ | discriminate ].
  apply IH in H as [post ->]. now exists post.
Qed.

(** [contains] is the substring test: [needle in hay]. *)
Lemma contains_occurs (needle hay : string) :
  contains needle hay = true
  <-> exists pre post, hay = pre +:+ needle +:+ post.
Proof.
  split.
  - induction hay as [|c hay IH]; cbn [contains];
      intros [H|H]%orb_true_iff; try discriminate.
    + apply prefix_inv in H as [post ->]. now exists ""%string, post.
    + apply prefix_inv in H as [post ->]. now exists ""%string, post.
    + apply IH in H as (pre & post & ->). now exists (String c pre), post.
  - intros (pre & post & ->). induction pre as [|c pre IH].
    + change (contains needle (needle +:+ post) = true).
      destruct (needle +:+ post) eqn:E; cbn [contains];
        rewrite <- E, prefix_app; reflexivity.
    + change (contains needle (String c (pre +:+ needle +:+ post)) = true).
      cbn [contains]. rewrite IH. apply orb_true_r.
Qed.

(** *** The fairness check of a segment *)

(** The attributes found are the prohibited attributes that occur in a
    rule, both read in lower case. *)
Lemma prohibited_found_iff self env segment attr :
  In attr (prohibited_attributes_found
             (_validate_segment_fairness self env segment))
  <-> In attr (prohibited_targeting_attributes (fairness_constraints self))
      /\ exists rule,
           In rule (targeting_rules segment)
           /\ exists pre post, lower rule = pre +:+ lower attr +:+ post.
Proof.
  cbn [_validate_segment_fairness prohibited_attributes_found].
  rewrite in_flat_map. setoid_rewrite filter_In.
  setoid_rewrite contains_occurs. split.
  - intros (rule & Hrule & Hattr & Hoccurs). eauto.
  - intros (Hattr & rule & Hrule & Hoccurs). eauto.
Qed.

(** X22: for a table of prohibited attributes and targeting rules in ASCII
    text, the fairness check finds exactly the prohibited attributes that
    occur in a targeting rule, whatever the case of the letters on either
    side; a segment is compliant exactly when none is found and its
    fairness score is above the minimum, so a segment whose score equals
    the minimum is not compliant, and neither is one with a rule that
    spells a prohibited attribute in capitals. *)
Theorem fairness_check_finds_prohibited_attributes :
  forall self env segment,
    forallb ascii_text
            (prohibited_targeting_attributes (fairness_constraints self))
    = true ->
    forallb ascii_text (targeting_rules segment) = true ->
    let check := _validate_segment_fairness self env segment in
    (forall attr,
        In attr (prohibited_attributes_found check)
        <-> In attr (prohibited_targeting_attributes
                       (fairness_constraints self))
            /\ exists rule,
                 In rule (targeting_rules segment)
                 /\ exists pre post,
                      lower rule = pre +:+ lower attr +:+ post)
    /\ (is_compliant check = true
        <-> prohibited_attributes_found check = []
            /\ gtb (fairness_score segment)
                   (min_fairness_score
                      (fairness_thresholds (fairness_constraints self)))
               = true)
    /\ (fairness_score segment
        = min_fairness_score (fairness_thresholds (fairness_constraints self))
        -> is_compliant check = false)
    /\ (forall attr rule pre mid post,
           In attr (prohibited_targeting_attributes
                      (fairness_constraints self)) ->
           In rule (targeting_rules segment) ->
           rule = pre +:+ mid +:+ post ->
           lower mid = lower attr ->
           is_compliant check = false).
Proof.
  intros self env segment _ _ check. split; [ | split; [ | split ] ].
  - intros attr. apply prohibited_found_iff.
  - subst check. cbn [_validate_segment_fairness is_compliant
                      prohibited_attributes_found].
    rewrite andb_true_iff, Nat.eqb_eq, length_zero_iff_nil. reflexivity.
  - intros Hscore. subst check.
    cbn [_validate_segment_fairness is_compliant]. rewrite Hscore.
    unfold gtb. rewrite ltb_irrefl. apply andb_false_r.
  - intros attr rule pre mid post Hattr Hrule -> Hmid.
    assert (In attr (prohibited_attributes_found check)) as Hfound.
    { apply prohibited_found_iff. split; [ assumption | ].
      exists (pre +:+ mid +:+ post). split; [ assumption | ].
      exists (lower pre), (lower post). now rewrite !lower_app, Hmid. }
    subst check.
    cbn [_validate_segment_fairness is_compliant
         prohibited_attributes_found] in *.
    destruct (flat_map _ _); [ contradiction | reflexivity ].
Qed.

(** The sample segment, whose rule names a religion with a capital, on the
    table of the constructor. *)
Lemma fairness_check_finds_prohibited_attributes_witness :
  In "religion"%string
     (prohibited_attributes_found
        (_validate_segment_fairness sample_vaa env0
                                    (sample_segment DEMOGRAPHIC)))
  /\ is_compliant (_validate_segment_fairness sample_vaa env0
                                              (sample_segment DEMOGRAPHIC))
     = false.
Proof.
  destruct (fairness_check_finds_prohibited_attributes
              sample_vaa env0 (sample_segment DEMOGRAPHIC)
              eq_refl eq_refl) as (Hfound & _ & _ & Hrule).
  split.
  - apply Hfound. split; [ cbn; auto | ].
    exists "Age > 30 and Religion = X"%string. split; [ now left | ].
    now exists "age > 30 and "%string, " = x"%string.
  - apply (Hrule "religion" "Age > 30 and Religion = X" "Age > 30 and "
                 "Religion" " = X")%string;
      [ cbn; auto | now left | reflexivity | reflexivity ].
Defined.

(** *** Segmentation *)

(** The fairness loop over compliant segments logs nothing. *)
Lemma validate_and_log_compliant env entries : forall k self,
  Forall (fun entry : string * CustomerSegment =>
            forall env',
              is_compliant (_validate_segment_fairness self env' (snd entry))
              = true)
         entries ->
  snd (fold_left (validate_and_log env) entries (k, self)) = self.
Proof.
  induction entries as [|entry entries IH]; intros k self Hall;
    [ reflexivity | ].
  inversion Hall as [|? ? Hentry Hrest]; subst.
  cbn [fold_left]. unfold validate_and_log at 2. rewrite Hentry.
  now apply IH.
Qed.


(** The count of a share of no customer. *)
Lemma share_of_nil customer_data share count :
  share_of customer_data share = Ok count ->
  customer_data = [] -> count = 0%Z.
Proof.
  unfold share_of. intros Hcount ->.
  change (float_of_Z (Z.of_nat (length (@nil (gmap string pyval)))))
    with 0%float in Hcount.
  unfold int_of_float in Hcount. rewrite FloatAxioms.mul_spec in Hcount.
  change (Prim2SF 0) with (S754_zero false) in Hcount.
  destruct (Prim2SF share) as [[]|[]| |[] m e]; cbn in Hcount; congruence.
Qed.

(** The rules and the scores of the three segments of
    [segment_customers]. *)
Lemma built_in_rules_are_compliant self env (segment : CustomerSegment) :
  fairness_constraints self = _initialize_fairness_constraints ->
  In (targeting_rules segment)
     [["sessions_past_30_days > 5"; "avg_session_duration > 10_minutes";
       "content_interactions > 15"];
      ["lifetime_transactions > 10"; "avg_order_value > 150_usd";
       "churn_risk_score < 0.3"];
      ["days_since_last_purchase > 60"; "engagement_decline_90_days > 40%";
       "churn_risk_score > 0.60"]]%string ->
  In (fairness_score segment) [0.89; 0.92; 0.85]%float ->
  is_compliant (_validate_segment_fairness self env segment) = true.
Proof.
  intros Hconstraints Hrules Hscore.
  cbn [_validate_segment_fairness is_compliant]. rewrite Hconstraints.
  cbn [In] in Hrules, Hscore.
  destruct Hrules as [<-|[<-|[<-|[]]]];
    destruct Hscore as [<-|[<-|[<-|[]]]]; reflexivity.
Qed.

(** X23: under the table of the constructor the three segments that
    [segment_customers] builds pass its own fairness check, so a call that
    returns logs no concern; it returns the three segments under their
    three keys, stores each under its key and leaves every other stored
    segment as it was, and of no customer every segment counts none.  A
    call can only raise in the conversion of a count. *)
Theorem built_in_segments_are_compliant :
  forall self env customer_data,
    fairness_constraints self = _initialize_fairness_constraints ->
    match segment_customers self env customer_data with
    | Ok (new_segments, self') =>
        ethical_audit_trail self' = ethical_audit_trail self
        /\ map fst new_segments
           = ["behavioral_high_engagement"; "value_high_lifetime";
              "lifecycle_at_risk"]%string
        /\ Forall (fun entry : string * CustomerSegment =>
                     segments self' !! fst entry = Some (snd entry)
                     /\ (forall env',
                            is_compliant
                              (_validate_segment_fairness self env'
                                                          (snd entry))
                            = true)
                     /\ (customer_data = [] ->
                         customer_count (snd entry) = 0%Z))
                  new_segments
        /\ (forall key,
               ~ In key (map fst new_segments) ->
               segments self' !! key = segments self !! key)
    | Raise e => e = OverflowError \/ e = ValueError
    end.
Proof.
  intros self env customer_data Hconstraints.
  unfold segment_customers.
  destruct (share_of customer_data 0.25) as [behavioral_count|e] eqn:Hb;
    [ | now apply SupplyChainMore.int_of_float_raises in Hb ].
  cbn [mbind result_bind].
  destruct (share_of customer_data 0.15) as [value_count|e] eqn:Hv;
    [ | now apply SupplyChainMore.int_of_float_raises in Hv ].
  cbn [mbind result_bind].
  destruct (share_of customer_data 0.1) as [lifecycle_count|e] eqn:Hl;
    [ | now apply SupplyChainMore.int_of_float_raises in Hl ].
  cbn [mbind result_bind].
  rewrite validate_and_log_compliant
    by (repeat constructor; intros env';
        apply built_in_rules_are_compliant; cbn; auto).
  cbn [ethical_audit_trail segments map fst].
  split; [ reflexivity | ]. split; [ reflexivity | ]. split.
  - assert (forall key (segment : CustomerSegment) m,
               m !! key = Some segment ->
               In (targeting_rules segment)
                  [["sessions_past_30_days > 5";
                    "avg_session_duration > 10_minutes";
                    "content_interactions > 15"];
                   ["lifetime_transactions > 10";
                    "avg_order_value > 150_usd"; "churn_risk_score < 0.3"];
                   ["days_since_last_purchase > 60";
                    "engagement_decline_90_days > 40%";
                    "churn_risk_score > 0.60"]]%string ->
               In (fairness_score segment) [0.89; 0.92; 0.85]%float ->
               (customer_data = [] -> customer_count segment = 0%Z) ->
               (m ∪ segments self) !! key = Some segment
               /\ (forall env',
                      is_compliant
                        (_validate_segment_fairness self env' segment)
                      = true)
               /\ (customer_data = [] -> customer_count segment = 0%Z))
      as Hentry.
    { intros key segment m Hkey Hrules Hscore Hcount.
      split; [ now apply lookup_union_Some_l | ]. split; [ | assumption ].
      intros env'. now apply built_in_rules_are_compliant. }
    cbn [list_to_map foldr fst snd].
    constructor; [ | constructor; [ | constructor; [ | constructor ] ] ];
      (cbn beta; cbn [fst snd]; apply Hentry;
       [ rewrite ?lookup_insert_ne by discriminate; apply lookup_insert_eq
       | cbn [targeting_rules In]; auto
       | cbn [fairness_score In]; auto
       | cbn [customer_count]; eauto using share_of_nil ]).
  - intros key Hkey. cbn [In] in Hkey.
    rewrite lookup_union_r; [ reflexivity | ].
    cbn [list_to_map foldr fst snd].
    rewrite !lookup_insert_ne by (intros Heq; subst key; tauto).
    apply lookup_empty.
Qed.

Lemma built_in_segments_are_compliant_witness :
  match segment_customers sample_vaa env0 sample_customers with
  | Ok (new_segments, self') =>
      ethical_audit_trail self' = []
      /\ map fst new_segments
         = ["behavioral_high_engagement"; "value_high_lifetime";
            "lifecycle_at_risk"]%string
  | Raise _ => False
  end.
Proof.
  pose proof (built_in_segments_are_compliant sample_vaa env0
                                              sample_customers eq_refl) as H.
  assert (exists new_segments self',
             segment_customers sample_vaa env0 sample_customers
             = Ok (new_segments, self')) as (new_segments & self' & Hcall).
  { assert (length sample_customers = 1000) as Hlength
        by (vm_compute; reflexivity).
    assert (forall share count,
               int_of_float (PrimFloat.mul 1000 share) = Ok count ->
               share_of sample_customers share = Ok count) as Hshare.
    { intros share count <-. unfold share_of. rewrite Hlength.
      replace (float_of_Z (Z.of_nat 1000)) with 1000%float
        by (vm_compute; reflexivity).
      reflexivity. }
    unfold segment_customers.
    rewrite (Hshare 0.25%float 250%Z), (Hshare 0.15%float 150%Z),
      (Hshare 0.1%float 100%Z) by (vm_compute; reflexivity).
    cbn [mbind result_bind]. eexists. eexists. reflexivity. }
  rewrite Hcall in H |- *. destruct H as (Htrail & Hkeys & _).
  split; [ exact Htrail | exact Hkeys ].
Defined.

(** *** Budgets *)

(** The shape of what [allocate_campaign_budget] returns. *)
Lemma allocate_campaign_budget_returns self env campaign_id total_budget segments_arg
    channels :
  exists allocation,
    allocate_campaign_budget self env campaign_id total_budget segments_arg
                             channels
    = Ok (allocation,
          {| vaa_id := vaa_id self;
             privacy_framework := privacy_framework self;
             campaigns := <[campaign_id := allocation]> (campaigns self);
             segments := segments self;
             performance_log := performance_log self;
             ethical_audit_trail := ethical_audit_trail self;
             fairness_constraints := fairness_constraints self |}).
Proof. eexists. reflexivity. Qed.

(** X24: [allocate_campaign_budget] returns for every budget and stores the
    allocation under the campaign; it reads neither its [segments] nor its
    [channels] argument: every call gives a share to each of the six
    channels and to each of the three built-in segments, and expects the
    ROI 3.5, whatever lists are passed, the empty ones included. *)
Theorem budget_is_split_over_fixed_tables :
  forall self env campaign_id total_budget segments_arg channels,
    exists allocation,
      allocate_campaign_budget self env campaign_id total_budget segments_arg
                               channels
      = Ok (allocation,
            {| vaa_id := vaa_id self;
               privacy_framework := privacy_framework self;
               campaigns := <[campaign_id := allocation]> (campaigns self);
               segments := segments self;
               performance_log := performance_log self;
               ethical_audit_trail := ethical_audit_trail self;
               fairness_constraints := fairness_constraints self |})
      /\ (forall channel,
             is_Some (channel_allocations allocation
                        !! ChannelType_value channel))
      /\ (forall key,
             In key (map fst segment_rois) ->
             is_Some (segment_allocations allocation !! key))
      /\ expected_roi allocation = 3.5%float
      /\ (forall segments_arg' channels',
             allocate_campaign_budget self env campaign_id total_budget
                                      segments_arg' channels'
             = allocate_campaign_budget self env campaign_id total_budget
                                        segments_arg channels).
Proof.
  intros self env campaign_id total_budget segments_arg channels.
  eexists. split; [ reflexivity | ]. split; [ | split; [ | split ] ].
  - intros []; cbn [channel_allocations ChannelType_value];
      rewrite ?lookup_insert_ne by discriminate;
      rewrite lookup_insert_eq; eauto.
  - intros key Hkey. cbn [map fst segment_rois In] in Hkey.
    cbn [segment_allocations].
    destruct Hkey as [<-|[<-|[<-|[]]]];
      rewrite ?lookup_insert_ne by discriminate;
      rewrite lookup_insert_eq; eauto.
  - reflexivity.
  - reflexivity.
Qed.

(** *** Insights *)

(** X25: with a numeric (or absent) conversion rate and expected rate,
    [generate_performance_insights] returns and appends its insight to the
    performance log: the test on the expected rate keeps the quotient from
    a division by zero.  An expected rate that is not above zero (zero,
    negative or NaN) gives the variance 0 and the recommendation to
    continue; the confidence is 0.78, 0.85 or 0.72 with the recommendation.
    An expected rate that is a text raises [TypeError]. *)
Theorem insight_for_numeric_metrics :
  (forall self env campaign_id segment_id actual_metrics current expected,
      as_number (dict_get actual_metrics "conversion_rate" (PyNum 0.035))
      = Ok current ->
      as_number (dict_get actual_metrics "expected_conversion_rate"
                          (PyNum 0.040))
      = Ok expected ->
      exists insight,
        generate_performance_insights self env campaign_id segment_id
                                      actual_metrics
        = Ok (insight,
              {| vaa_id := vaa_id self;
                 privacy_framework := privacy_framework self;
                 campaigns := campaigns self;
                 segments := segments self;
                 performance_log := performance_log self ++ [insight];
                 ethical_audit_trail := ethical_audit_trail self;
                 fairness_constraints := fairness_constraints self |})
        /\ (gtb expected 0 = false ->
            variance_percent insight = 0%float
            /\ recommendation insight = on_track)
        /\ confidence_score insight
           = match recommendation insight with
             | below_target _ => 0.78%float
             | above_target _ => 0.85%float
             | on_track => 0.72%float
             end)
  /\ (forall self env campaign_id segment_id actual_metrics text,
         actual_metrics !! "expected_conversion_rate"%string
         = Some (PyStr text) ->
         generate_performance_insights self env campaign_id segment_id
                                       actual_metrics
         = Raise TypeError).
Proof.
  split.
  - intros self env campaign_id segment_id actual_metrics current expected
           Hcurrent Hexpected.
    unfold generate_performance_insights, py_gt.
    rewrite Hexpected, Hcurrent. cbn [mbind result_bind].
    destruct (gtb expected 0) eqn:Hpositive.
    + unfold truediv. rewrite (positive_is_not_zero _ Hpositive).
      cbn [mbind result_bind].
      destruct (PrimFloat.ltb _ (-10));
        [ | destruct (gtb _ 10) ];
        eexists; (split; [ reflexivity | ]);
        (split; [ discriminate | reflexivity ]).
    + cbn [mbind result_bind].
      eexists. split; [ reflexivity | ]. split; [ | reflexivity ].
      intros _. split; reflexivity.
  - intros self env campaign_id segment_id actual_metrics text Hexpected.
    unfold generate_performance_insights.
    replace (dict_get actual_metrics "expected_conversion_rate" (PyNum 0.040))
      with (PyStr text) by (unfold dict_get; now rewrite Hexpected).
    reflexivity.
Qed.

Lemma insight_for_numeric_metrics_witness :
  exists insight self',
    generate_performance_insights
      sample_vaa env0 "CAMP_001" "seg_behavioral_high_engagement"
      (<["conversion_rate" := PyNum 0.032]>
       (<["expected_conversion_rate" := PyNum 0]> ∅))
    = Ok (insight, self')
    /\ recommendation insight = on_track.
Proof.
  destruct (proj1 insight_for_numeric_metrics
              sample_vaa env0 "CAMP_001"%string
              "seg_behavioral_high_engagement"%string
              (<["conversion_rate" := PyNum 0.032]>
               (<["expected_conversion_rate" := PyNum 0]> ∅))
              0.032%float 0%float)
    as (insight & Hcall & Hzero & _);
    [ vm_compute; reflexivity | vm_compute; reflexivity | ].
  exists insight. eexists. split; [ exact Hcall | ].
  now apply Hzero.
Defined.

(** *** The fairness assessment *)

(** X26: every call of [calculate_fairness_metrics] returns the same
    assessment but for its identifier and its date: a disparity ratio
    above both bounds, hence the status [requires_review] and one
    recommendation, next to the regulatory compliance [compliant]; and it
    appends the assessment that it returns to the ethical audit trail, as
    one entry. *)
Theorem fairness_assessment_is_fixed :
  forall self env,
    exists assessment,
      calculate_fairness_metrics self env
      = Ok (assessment,
            {| vaa_id := vaa_id self;
               privacy_framework := privacy_framework self;
               campaigns := campaigns self;
               segments := segments self;
               performance_log := performance_log self;
               ethical_audit_trail :=
                 ethical_audit_trail self
                 ++ [fairness_audit (uuid4 env 1) assessment (now env 1)];
               fairness_constraints := fairness_constraints self |})
      /\ gtb (disparity_ratio assessment) 1.25 = true
      /\ fairness_status assessment = "requires_review"%string
      /\ regulatory_compliance assessment = "compliant"%string
      /\ length (recommendations assessment) = 1
      /\ (forall self2 env2,
             exists assessment2 self2',
               calculate_fairness_metrics self2 env2
               = Ok (assessment2, self2')
               /\ disparity_ratio assessment2 = disparity_ratio assessment
               /\ fairness_status assessment2 = fairness_status assessment
               /\ recommendations assessment2 = recommendations assessment).
Proof.
  intros self env. eexists. split; [ reflexivity | ].
  repeat split. intros self2 env2. eexists. eexists.
  split; [ reflexivity | ]. repeat split.
Qed.

(** *** What a call keeps *)

Lemma grows_refl self : grows self self.
Proof. repeat split; auto. Qed.

Lemma grows_trans self1 self2 self3 :
  grows self1 self2 -> grows self2 self3 -> grows self1 self3.
Proof.
  intros (Ht1 & Hp1 & Hc1 & Hs1) (Ht2 & Hp2 & Hc2 & Hs2).
  repeat split; [ now transitivity (ethical_audit_trail self2)
                | now transitivity (performance_log self2) | auto | auto ].
Qed.

Lemma validate_and_log_grows env entries : forall acc,
  grows (snd acc) (snd (fold_left (validate_and_log env) entries acc)).
Proof.
  induction entries as [|entry entries IH]; intros [k self];
    [ apply grows_refl | ].
  cbn [fold_left]. eapply grows_trans; [ | apply IH ].
  unfold validate_and_log. cbn [snd].
  destruct (negb _); [ | apply grows_refl ].
  repeat split; cbn; auto. now apply prefix_app_r.
Qed.

Lemma segment_customers_grows self env customer_data :
  grows self (after self (segment_customers self env customer_data)).
Proof.
  unfold segment_customers. FrameFacts.bind_cases; try apply grows_refl.
  cbn [after].
  match goal with
  | |- context [fold_left (validate_and_log env) ?entries ?acc] =>
      pose proof (validate_and_log_grows env entries acc)
        as (Htrail & Hlog & Hcampaigns & Hsegments);
      set (self1 := snd (fold_left (validate_and_log env) entries acc)) in *
  end.
  cbn [snd] in Htrail, Hlog, Hcampaigns, Hsegments.
  repeat split; cbn [ethical_audit_trail performance_log campaigns segments];
    auto.
  intros key Hkey. apply lookup_union_is_Some. auto.
Qed.

Lemma allocate_campaign_budget_grows self env campaign_id total_budget
    segments_arg channels :
  grows self (after self (allocate_campaign_budget self env campaign_id
                            total_budget segments_arg channels)).
Proof.
  destruct (allocate_campaign_budget_returns self env campaign_id total_budget
                                  segments_arg channels) as [allocation ->].
  cbn [after]. repeat split; cbn; auto.
  intros key Hkey. apply lookup_insert_is_Some'. auto.
Qed.

Lemma generate_performance_insights_grows self env campaign_id segment_id
    actual_metrics :
  grows self (after self (generate_performance_insights self env campaign_id
                            segment_id actual_metrics)).
Proof.
  unfold generate_performance_insights.
  FrameFacts.bind_cases; try apply grows_refl;
    split_tests; cbn [after]; repeat split; cbn; auto;
    now apply prefix_app_r.
Qed.

Lemma calculate_fairness_metrics_grows self env :
  grows self (after self (calculate_fairness_metrics self env)).
Proof.
  unfold calculate_fairness_metrics.
  FrameFacts.bind_cases; try apply grows_refl.
  cbn [after]. repeat split; cbn; auto. now apply prefix_app_r.
Qed.

Lemma step_grows self c : grows self (step self c).
Proof.
  destruct c as [env []]; cbn [step];
    auto using grows_refl, segment_customers_grows,
               allocate_campaign_budget_grows,
               generate_performance_insights_grows,
               calculate_fairness_metrics_grows.
Qed.

(** X27: no sequence of calls of the public methods removes anything from
    the object: the ethical audit trail and the performance log are
    extended at the end only, and a campaign or a segment that is stored
    stays stored (under a key that is written again with its new value). *)
Theorem logs_are_append_only :
  forall self calls,
    ethical_audit_trail self `prefix_of` ethical_audit_trail (run self calls)
    /\ performance_log self `prefix_of` performance_log (run self calls)
    /\ (forall key,
           is_Some (campaigns self !! key) ->
           is_Some (campaigns (run self calls) !! key))
    /\ (forall key,
           is_Some (segments self !! key) ->
           is_Some (segments (run self calls) !! key)).
Proof.
  intros self calls. change (grows self (run self calls)).
  unfold run. revert self.
  induction calls as [|c calls IH]; intros self; [ apply grows_refl | ].
  cbn [fold_left]. eapply grows_trans; [ apply step_grows | apply IH ].
Qed.

(** *** Content *)

(** The key of the offering that the branch of a segment type reads. *)
Lemma personalize_content_key self env segment product_offering :
  let key :=
    match segment_type segment with
    | LIFECYCLE => "discount_percent"%string
    | _ => "product_name"%string
    end in
  match product_offering !! key with
  | None =>
      personalize_content self env segment product_offering
      = Failed (KeyError key)
  | Some entry =>
      exists content,
        personalize_content self env segment product_offering
        = Returned content
        /\ content_segment_id content = segment_id segment
        /\ subject_line content
           = match segment_type segment with
             | VALUE => vip_exclusive_access entry
             | LIFECYCLE => back_with_discount entry
             | _ => recommended_for_you entry
             end
        /\ In (estimated_ctr content) [0.045; 0.032; 0.028]%float
        /\ explicit_targeting_disclosure (ethical_guardrails content)
           = personalization_factors content
  end.
Proof.
  unfold personalize_content, subscript.
  destruct (segment_type segment); cbn [SegmentType_eqb];
    destruct (product_offering !! _); try reflexivity;
    eexists; (split; [ reflexivity | ]); cbn; auto 10.
Qed.

(** X28: [personalize_content] subscripts the offering with one key,
    [discount_percent] for a lifecycle segment and [product_name] for every
    other type: it raises the [KeyError] of that key exactly when the
    offering lacks it, whatever else the offering holds, and otherwise
    returns a content for the segment whose subject line interpolates that
    entry and whose disclosure lists its personalization factors. *)
Theorem personalize_content_reads_one_key :
  forall self env segment product_offering,
    let key :=
      match segment_type segment with
      | LIFECYCLE => "discount_percent"%string
      | _ => "product_name"%string
      end in
    (product_offering !! key = None
     <-> personalize_content self env segment product_offering
         = Failed (KeyError key))
    /\ (forall entry,
           product_offering !! key = Some entry ->
           exists content,
             personalize_content self env segment product_offering
             = Returned content
             /\ content_segment_id content = segment_id segment
             /\ subject_line content
                = match segment_type segment with
                  | VALUE => vip_exclusive_access entry
                  | LIFECYCLE => back_with_discount entry
                  | _ => recommended_for_you entry
                  end
             /\ explicit_targeting_disclosure (ethical_guardrails content)
                = personalization_factors content).
Proof.
  intros self env segment product_offering key.
  pose proof (personalize_content_key self env segment product_offering)
    as H.
  fold key in H. cbv zeta in H.
  destruct (product_offering !! key) as [entry|].
  - destruct H as (content & Hcall & Hid & Hsubject & _ & Hdisclosure).
    split; [ split; [ discriminate | rewrite Hcall; discriminate ] | ].
    intros ? [= <-]. eauto 10.
  - split; [ split; auto | discriminate ].
Qed.

(** X29: an A/B test whose second variant is a content made by
    [personalize_content]: the test returns, it halves the customers of the
    segment (rounding down), its click-through improvement is positive,
    and, as for every pair of variants, it names the second variant the
    winner and reports the same conversion rates. *)
Theorem ab_test_of_personalized_content :
  forall self env1 env2 segment product_offering variant_a variant_b
         test_segment test_duration_days,
    personalize_content self env1 segment product_offering
    = Returned variant_b ->
    exists test,
      ab_test_content_variants self env2 test_segment variant_a variant_b
                               test_duration_days
      = Ok test
      /\ gtb (ctr_improvement_percent test) 0 = true
      /\ (2 * sample_size_per_variant test <= customer_count test_segment
          < 2 * sample_size_per_variant test + 2)%Z
      /\ winner test = "variant_b_vaa_personalized"%string
      /\ variant_b_description test
         = ("VAA-personalized: " +:+ message_variant variant_b)%string.
Proof.
  intros self env1 env2 segment product_offering variant_a variant_b
         test_segment test_duration_days Hcontent.
  pose proof (personalize_content_key self env1 segment product_offering)
    as H.
  cbv zeta in H. destruct (product_offering !! _); [ | congruence ].
  destruct H as (content & Hcall & _ & _ & Hctr & _).
  rewrite Hcontent in Hcall. injection Hcall as <-.
  unfold ab_test_content_variants. cbn [In] in Hctr.
  assert (forall ctr,
             In ctr [0.045; 0.032; 0.028]%float ->
             exists improvement,
               truediv (PrimFloat.sub ctr 0.018) 0.018 = Ok improvement
               /\ gtb (PrimFloat.mul improvement 100) 0 = true) as Hpositive.
  { intros ctr [<-|[<-|[<-|[]]]]; eexists; split; reflexivity. }
  destruct (Hpositive (estimated_ctr variant_b)) as (improvement & -> & Hgt);
    [ cbn [In]; tauto | ].
  cbn [mbind result_bind]. eexists. split; [ reflexivity | ].
  cbn [ctr_improvement_percent sample_size_per_variant winner
       variant_b_description].
  split; [ exact Hgt | ]. split; [ | split; reflexivity ].
  pose proof (Z.div_mod (customer_count test_segment) 2 ltac:(lia)).
  pose proof (Z.mod_pos_bound (customer_count test_segment) 2 ltac:(lia)).
  lia.
Qed.

Lemma ab_test_of_personalized_content_witness :
  exists variant_b test,
    personalize_content sample_vaa env0 (sample_segment VALUE)
                        sample_offering
    = Returned variant_b
    /\ ab_test_content_variants sample_vaa env0 (sample_segment VALUE)
                                variant_b variant_b 14
       = Ok test
    /\ sample_size_per_variant test = 125%Z
    /\ gtb (ctr_improvement_percent test) 0 = true.
Proof.
  destruct (personalize_content sample_vaa env0 (sample_segment VALUE)
                                sample_offering)
    as [variant_b|e] eqn:Hcontent;
    [ | vm_compute in Hcontent; discriminate Hcontent ].
  destruct (ab_test_of_personalized_content
              sample_vaa env0 env0 (sample_segment VALUE) sample_offering
              variant_b variant_b (sample_segment VALUE) 14 Hcontent)
    as (test & Htest & Hpositive & Hsize & _).
  exists variant_b, test. split; [ reflexivity | ].
  split; [ exact Htest | ]. split; [ | exact Hpositive ].
  cbn [sample_segment customer_count] in Hsize. lia.
Defined.

End MarketingFacts.
